(** * SilverLink controller (ESP32, serial-log variant): connection and
      mode state machine, actuator reconciliation and runtime configuration.

    The development embeds the functions of
    [SilverLink-Controller_ESP32_NOLCD.ino] that decide the device's mode,
    its actuator registry and its persisted actuator states.  Globals of the
    sketch become fields of one [State] record; every function of the sketch
    is a function on [State].  Serial logging is left out; GPIO writes,
    frames handed to the socket and rewrites of the actuator-state file are
    recorded, with the time at which they happen, in [trace]. *)

From Stdlib Require Import ZArith String List Bool Lia.
From stdpp Require Import base option gmap strings list.
Import ListNotations.
Local Open Scope Z_scope.

(** ** Machine integers

    [unsigned long] is 32 bits wide on the ESP32: the value of an expression
    of that type is taken modulo 2^32.  [int] counters are incremented with
    [++]; [i32] gives the two's complement result. *)

Definition u32 (z : Z) : Z := z mod 2 ^ 32.
Definition i32 (z : Z) : Z := (z + 2 ^ 31) mod 2 ^ 32 - 2 ^ 31.
Definition INT_MAX : Z := 2 ^ 31 - 1.

#[global] Arguments u32 : simpl never.
#[global] Arguments i32 : simpl never.

(** ** Registry entries *)

(** [struct Sensor].  [value] is a [float] in the sketch; the functions
    embedded here only store the result of [readSoilMoisture], which is the
    [long] returned by [map] clamped to 0..100, so an integer is enough. *)
Record Sensor := mkSensor {
  s_type : string;
  s_pin : Z;
  s_threshold : Z;
  s_value : Z
}.

(** [struct Aktuator]. *)
Record Aktuator := mkAktuator {
  a_function : string;
  a_pin : Z;
  a_state : bool;
  a_pendingStateSync : bool
}.

Definition set_a_state (v : bool) (a : Aktuator) : Aktuator :=
  {| a_function := a_function a; a_pin := a_pin a; a_state := v;
     a_pendingStateSync := a_pendingStateSync a |}.

Definition set_a_pendingStateSync (v : bool) (a : Aktuator) : Aktuator :=
  {| a_function := a_function a; a_pin := a_pin a; a_state := a_state a;
     a_pendingStateSync := v |}.

Definition set_s_value (v : Z) (s : Sensor) : Sensor :=
  {| s_type := s_type s; s_pin := s_pin s; s_threshold := s_threshold s;
     s_value := v |}.

Inductive StatusMode := ONLINE | OFFLINE_WIFI | OFFLINE_SERVER.

Definition StatusMode_eqb (a b : StatusMode) : bool :=
  match a, b with
  | ONLINE, ONLINE | OFFLINE_WIFI, OFFLINE_WIFI
  | OFFLINE_SERVER, OFFLINE_SERVER => true
  | _, _ => false
  end.

(** ** Decoded JSON

    ArduinoJson is a library of its own: a document is represented by what
    its accessors return.  A field read with a plain conversion
    ([int pin = a["pin"]]) is the converted value (0, [false] when the key is
    absent); a field read with the [|] operator is an [option], [None] when
    the key is absent or of another type; an array is [None] when the
    [JsonArray] is null. *)

Record SensorCfg := mkSensorCfg {
  sc_type : string;
  sc_pin : Z;
  sc_threshold : option Z
}.

Record AktuatorCfg := mkAktuatorCfg {
  ac_function : string;
  ac_pin : Z;
  ac_current_state : option bool
}.

Record SyncTuple := mkSyncTuple {
  sy_pin : Z;
  sy_function : string;
  sy_state : bool
}.

Record JsonDoc := mkJsonDoc {
  j_event : string;
  j_pin : Z;
  j_state : bool;
  j_require_confirmation : option bool;
  j_sensors : option (list SensorCfg);
  j_aktuators : option (list AktuatorCfg);
  j_actuators : option (list SyncTuple)
}.

(** A text frame as [handleServerCommand] sees it: its [strlen] and the
    result of [deserializeJson] ([None] for a [DeserializationError]). *)
Record Message := mkMessage {
  m_strlen : Z;
  m_json : option JsonDoc
}.

(** [/config_runtime.json]: size in bytes and what parsing it yields. *)
Record RuntimeFile := mkRuntimeFile {
  rf_size : Z;
  rf_json : option JsonDoc
}.

(** ** Observable effects

    The frames handed to the socket ([free_memory] and [wifi_rssi] of the
    heartbeat, two readings of the environment, are left out), and the
    events recorded in the trace. *)

Inductive OutMsg :=
| MsgAuth (tok : string)
| MsgActuatorStateConfirm (tok : string) (pin : Z) (state success : bool)
    (timestamp : Z)
| MsgHeartbeat (tok : string) (uptime : Z) (sensor_count actuator_count : nat)
    (pending_state_sync : bool) (actuator_states : list Aktuator).

Inductive Event :=
| DigitalWrite (pin : Z) (level : bool)
| PinMode (pin : Z) (output : bool)
| SendTXT (m : OutMsg)
| SaveActuatorState (pin : Z) (state : bool)
| SaveRuntimeConfig.

(** ** Program state

    Globals of the sketch, then the board ([clock] in milliseconds since
    boot, output latches, the two files), then what the collaborators answer
    during the current call ([WiFi.status() == WL_CONNECTED],
    [webSocket.isConnected()], the result of [sendTXT], [analogRead]), then
    the effects so far.  Time passes in [delay] and between calls; the other
    statements of a function take none, so two readings of [millis()] with
    no [delay] between them agree. *)
Record State := mkState {
  token : string;
  systemStartTime : Z;
  sensors : list Sensor;
  aktuators : list Aktuator;
  mode : StatusMode;
  offlineUntil : Z;
  lastMoistureCheck : Z;
  runtimeLoaded : bool;
  serverFailCount : Z;
  wifiFailCount : Z;
  lastHeartbeat : Z;
  consecutiveErrors : Z;
  lastStateSyncRequest : Z;
  pendingStateSync : bool;
  lastStateSync : Z;
  clock : Z;
  gpio : gmap Z bool;
  actuator_states_json : option (gmap Z bool);
  config_runtime_json : option RuntimeFile;
  wifi_connected : bool;
  ws_connected : bool;
  send_ok : bool;
  adc : Z -> Z;
  trace : list (Z * Event)
}.

Definition set_sensors (v : list Sensor) (st : State) : State :=
  {| token := token st; systemStartTime := systemStartTime st; sensors := v;
     aktuators := aktuators st; mode := mode st; offlineUntil := offlineUntil st;
     lastMoistureCheck := lastMoistureCheck st; runtimeLoaded := runtimeLoaded st;
     serverFailCount := serverFailCount st; wifiFailCount := wifiFailCount st;
     lastHeartbeat := lastHeartbeat st; consecutiveErrors := consecutiveErrors st;
     lastStateSyncRequest := lastStateSyncRequest st;
     pendingStateSync := pendingStateSync st; lastStateSync := lastStateSync st;
     clock := clock st; gpio := gpio st; actuator_states_json := actuator_states_json st;
     config_runtime_json := config_runtime_json st; wifi_connected := wifi_connected st;
     ws_connected := ws_connected st; send_ok := send_ok st; adc := adc st;
     trace := trace st |}.
Definition set_aktuators (v : list Aktuator) (st : State) : State :=
  {| token := token st; systemStartTime := systemStartTime st; sensors := sensors st;
     aktuators := v; mode := mode st; offlineUntil := offlineUntil st;
     lastMoistureCheck := lastMoistureCheck st; runtimeLoaded := runtimeLoaded st;
     serverFailCount := serverFailCount st; wifiFailCount := wifiFailCount st;
     lastHeartbeat := lastHeartbeat st; consecutiveErrors := consecutiveErrors st;
     lastStateSyncRequest := lastStateSyncRequest st;
     pendingStateSync := pendingStateSync st; lastStateSync := lastStateSync st;
     clock := clock st; gpio := gpio st; actuator_states_json := actuator_states_json st;
     config_runtime_json := config_runtime_json st; wifi_connected := wifi_connected st;
     ws_connected := ws_connected st; send_ok := send_ok st; adc := adc st;
     trace := trace st |}.
Definition set_mode (v : StatusMode) (st : State) : State :=
  {| token := token st; systemStartTime := systemStartTime st; sensors := sensors st;
     aktuators := aktuators st; mode := v; offlineUntil := offlineUntil st;
     lastMoistureCheck := lastMoistureCheck st; runtimeLoaded := runtimeLoaded st;
     serverFailCount := serverFailCount st; wifiFailCount := wifiFailCount st;
     lastHeartbeat := lastHeartbeat st; consecutiveErrors := consecutiveErrors st;
     lastStateSyncRequest := lastStateSyncRequest st;
     pendingStateSync := pendingStateSync st; lastStateSync := lastStateSync st;
     clock := clock st; gpio := gpio st; actuator_states_json := actuator_states_json st;
     config_runtime_json := config_runtime_json st; wifi_connected := wifi_connected st;
     ws_connected := ws_connected st; send_ok := send_ok st; adc := adc st;
     trace := trace st |}.
Definition set_offlineUntil (v : Z) (st : State) : State :=
  {| token := token st; systemStartTime := systemStartTime st; sensors := sensors st;
     aktuators := aktuators st; mode := mode st; offlineUntil := v;
     lastMoistureCheck := lastMoistureCheck st; runtimeLoaded := runtimeLoaded st;
     serverFailCount := serverFailCount st; wifiFailCount := wifiFailCount st;
     lastHeartbeat := lastHeartbeat st; consecutiveErrors := consecutiveErrors st;
     lastStateSyncRequest := lastStateSyncRequest st;
     pendingStateSync := pendingStateSync st; lastStateSync := lastStateSync st;
     clock := clock st; gpio := gpio st; actuator_states_json := actuator_states_json st;
     config_runtime_json := config_runtime_json st; wifi_connected := wifi_connected st;
     ws_connected := ws_connected st; send_ok := send_ok st; adc := adc st;
     trace := trace st |}.
Definition set_lastMoistureCheck (v : Z) (st : State) : State :=
  {| token := token st; systemStartTime := systemStartTime st; sensors := sensors st;
     aktuators := aktuators st; mode := mode st; offlineUntil := offlineUntil st;
     lastMoistureCheck := v; runtimeLoaded := runtimeLoaded st;
     serverFailCount := serverFailCount st; wifiFailCount := wifiFailCount st;
     lastHeartbeat := lastHeartbeat st; consecutiveErrors := consecutiveErrors st;
     lastStateSyncRequest := lastStateSyncRequest st;
     pendingStateSync := pendingStateSync st; lastStateSync := lastStateSync st;
     clock := clock st; gpio := gpio st; actuator_states_json := actuator_states_json st;
     config_runtime_json := config_runtime_json st; wifi_connected := wifi_connected st;
     ws_connected := ws_connected st; send_ok := send_ok st; adc := adc st;
     trace := trace st |}.
Definition set_runtimeLoaded (v : bool) (st : State) : State :=
  {| token := token st; systemStartTime := systemStartTime st; sensors := sensors st;
     aktuators := aktuators st; mode := mode st; offlineUntil := offlineUntil st;
     lastMoistureCheck := lastMoistureCheck st; runtimeLoaded := v;
     serverFailCount := serverFailCount st; wifiFailCount := wifiFailCount st;
     lastHeartbeat := lastHeartbeat st; consecutiveErrors := consecutiveErrors st;
     lastStateSyncRequest := lastStateSyncRequest st;
     pendingStateSync := pendingStateSync st; lastStateSync := lastStateSync st;
     clock := clock st; gpio := gpio st; actuator_states_json := actuator_states_json st;
     config_runtime_json := config_runtime_json st; wifi_connected := wifi_connected st;
     ws_connected := ws_connected st; send_ok := send_ok st; adc := adc st;
     trace := trace st |}.
Definition set_serverFailCount (v : Z) (st : State) : State :=
  {| token := token st; systemStartTime := systemStartTime st; sensors := sensors st;
     aktuators := aktuators st; mode := mode st; offlineUntil := offlineUntil st;
     lastMoistureCheck := lastMoistureCheck st; runtimeLoaded := runtimeLoaded st;
     serverFailCount := v; wifiFailCount := wifiFailCount st;
     lastHeartbeat := lastHeartbeat st; consecutiveErrors := consecutiveErrors st;
     lastStateSyncRequest := lastStateSyncRequest st;
     pendingStateSync := pendingStateSync st; lastStateSync := lastStateSync st;
     clock := clock st; gpio := gpio st; actuator_states_json := actuator_states_json st;
     config_runtime_json := config_runtime_json st; wifi_connected := wifi_connected st;
     ws_connected := ws_connected st; send_ok := send_ok st; adc := adc st;
     trace := trace st |}.
Definition set_wifiFailCount (v : Z) (st : State) : State :=
  {| token := token st; systemStartTime := systemStartTime st; sensors := sensors st;
     aktuators := aktuators st; mode := mode st; offlineUntil := offlineUntil st;
     lastMoistureCheck := lastMoistureCheck st; runtimeLoaded := runtimeLoaded st;
     serverFailCount := serverFailCount st; wifiFailCount := v;
     lastHeartbeat := lastHeartbeat st; consecutiveErrors := consecutiveErrors st;
     lastStateSyncRequest := lastStateSyncRequest st;
     pendingStateSync := pendingStateSync st; lastStateSync := lastStateSync st;
     clock := clock st; gpio := gpio st; actuator_states_json := actuator_states_json st;
     config_runtime_json := config_runtime_json st; wifi_connected := wifi_connected st;
     ws_connected := ws_connected st; send_ok := send_ok st; adc := adc st;
     trace := trace st |}.
Definition set_lastHeartbeat (v : Z) (st : State) : State :=
  {| token := token st; systemStartTime := systemStartTime st; sensors := sensors st;
     aktuators := aktuators st; mode := mode st; offlineUntil := offlineUntil st;
     lastMoistureCheck := lastMoistureCheck st; runtimeLoaded := runtimeLoaded st;
     serverFailCount := serverFailCount st; wifiFailCount := wifiFailCount st;
     lastHeartbeat := v; consecutiveErrors := consecutiveErrors st;
     lastStateSyncRequest := lastStateSyncRequest st;
     pendingStateSync := pendingStateSync st; lastStateSync := lastStateSync st;
     clock := clock st; gpio := gpio st; actuator_states_json := actuator_states_json st;
     config_runtime_json := config_runtime_json st; wifi_connected := wifi_connected st;
     ws_connected := ws_connected st; send_ok := send_ok st; adc := adc st;
     trace := trace st |}.
Definition set_consecutiveErrors (v : Z) (st : State) : State :=
  {| token := token st; systemStartTime := systemStartTime st; sensors := sensors st;
     aktuators := aktuators st; mode := mode st; offlineUntil := offlineUntil st;
     lastMoistureCheck := lastMoistureCheck st; runtimeLoaded := runtimeLoaded st;
     serverFailCount := serverFailCount st; wifiFailCount := wifiFailCount st;
     lastHeartbeat := lastHeartbeat st; consecutiveErrors := v;
     lastStateSyncRequest := lastStateSyncRequest st;
     pendingStateSync := pendingStateSync st; lastStateSync := lastStateSync st;
     clock := clock st; gpio := gpio st; actuator_states_json := actuator_states_json st;
     config_runtime_json := config_runtime_json st; wifi_connected := wifi_connected st;
     ws_connected := ws_connected st; send_ok := send_ok st; adc := adc st;
     trace := trace st |}.
Definition set_lastStateSyncRequest (v : Z) (st : State) : State :=
  {| token := token st; systemStartTime := systemStartTime st; sensors := sensors st;
     aktuators := aktuators st; mode := mode st; offlineUntil := offlineUntil st;
     lastMoistureCheck := lastMoistureCheck st; runtimeLoaded := runtimeLoaded st;
     serverFailCount := serverFailCount st; wifiFailCount := wifiFailCount st;
     lastHeartbeat := lastHeartbeat st; consecutiveErrors := consecutiveErrors st;
     lastStateSyncRequest := v; pendingStateSync := pendingStateSync st;
     lastStateSync := lastStateSync st; clock := clock st; gpio := gpio st;
     actuator_states_json := actuator_states_json st;
     config_runtime_json := config_runtime_json st; wifi_connected := wifi_connected st;
     ws_connected := ws_connected st; send_ok := send_ok st; adc := adc st;
     trace := trace st |}.
Definition set_pendingStateSync (v : bool) (st : State) : State :=
  {| token := token st; systemStartTime := systemStartTime st; sensors := sensors st;
     aktuators := aktuators st; mode := mode st; offlineUntil := offlineUntil st;
     lastMoistureCheck := lastMoistureCheck st; runtimeLoaded := runtimeLoaded st;
     serverFailCount := serverFailCount st; wifiFailCount := wifiFailCount st;
     lastHeartbeat := lastHeartbeat st; consecutiveErrors := consecutiveErrors st;
     lastStateSyncRequest := lastStateSyncRequest st; pendingStateSync := v;
     lastStateSync := lastStateSync st; clock := clock st; gpio := gpio st;
     actuator_states_json := actuator_states_json st;
     config_runtime_json := config_runtime_json st; wifi_connected := wifi_connected st;
     ws_connected := ws_connected st; send_ok := send_ok st; adc := adc st;
     trace := trace st |}.
Definition set_lastStateSync (v : Z) (st : State) : State :=
  {| token := token st; systemStartTime := systemStartTime st; sensors := sensors st;
     aktuators := aktuators st; mode := mode st; offlineUntil := offlineUntil st;
     lastMoistureCheck := lastMoistureCheck st; runtimeLoaded := runtimeLoaded st;
     serverFailCount := serverFailCount st; wifiFailCount := wifiFailCount st;
     lastHeartbeat := lastHeartbeat st; consecutiveErrors := consecutiveErrors st;
     lastStateSyncRequest := lastStateSyncRequest st;
     pendingStateSync := pendingStateSync st; lastStateSync := v; clock := clock st;
     gpio := gpio st; actuator_states_json := actuator_states_json st;
     config_runtime_json := config_runtime_json st; wifi_connected := wifi_connected st;
     ws_connected := ws_connected st; send_ok := send_ok st; adc := adc st;
     trace := trace st |}.
Definition set_clock (v : Z) (st : State) : State :=
  {| token := token st; systemStartTime := systemStartTime st; sensors := sensors st;
     aktuators := aktuators st; mode := mode st; offlineUntil := offlineUntil st;
     lastMoistureCheck := lastMoistureCheck st; runtimeLoaded := runtimeLoaded st;
     serverFailCount := serverFailCount st; wifiFailCount := wifiFailCount st;
     lastHeartbeat := lastHeartbeat st; consecutiveErrors := consecutiveErrors st;
     lastStateSyncRequest := lastStateSyncRequest st;
     pendingStateSync := pendingStateSync st; lastStateSync := lastStateSync st;
     clock := v; gpio := gpio st; actuator_states_json := actuator_states_json st;
     config_runtime_json := config_runtime_json st; wifi_connected := wifi_connected st;
     ws_connected := ws_connected st; send_ok := send_ok st; adc := adc st;
     trace := trace st |}.
Definition set_gpio (v : gmap Z bool) (st : State) : State :=
  {| token := token st; systemStartTime := systemStartTime st; sensors := sensors st;
     aktuators := aktuators st; mode := mode st; offlineUntil := offlineUntil st;
     lastMoistureCheck := lastMoistureCheck st; runtimeLoaded := runtimeLoaded st;
     serverFailCount := serverFailCount st; wifiFailCount := wifiFailCount st;
     lastHeartbeat := lastHeartbeat st; consecutiveErrors := consecutiveErrors st;
     lastStateSyncRequest := lastStateSyncRequest st;
     pendingStateSync := pendingStateSync st; lastStateSync := lastStateSync st;
     clock := clock st; gpio := v; actuator_states_json := actuator_states_json st;
     config_runtime_json := config_runtime_json st; wifi_connected := wifi_connected st;
     ws_connected := ws_connected st; send_ok := send_ok st; adc := adc st;
     trace := trace st |}.
Definition set_actuator_states_json (v : option (gmap Z bool)) (st : State) : State :=
  {| token := token st; systemStartTime := systemStartTime st; sensors := sensors st;
     aktuators := aktuators st; mode := mode st; offlineUntil := offlineUntil st;
     lastMoistureCheck := lastMoistureCheck st; runtimeLoaded := runtimeLoaded st;
     serverFailCount := serverFailCount st; wifiFailCount := wifiFailCount st;
     lastHeartbeat := lastHeartbeat st; consecutiveErrors := consecutiveErrors st;
     lastStateSyncRequest := lastStateSyncRequest st;
     pendingStateSync := pendingStateSync st; lastStateSync := lastStateSync st;
     clock := clock st; gpio := gpio st; actuator_states_json := v;
     config_runtime_json := config_runtime_json st; wifi_connected := wifi_connected st;
     ws_connected := ws_connected st; send_ok := send_ok st; adc := adc st;
     trace := trace st |}.
Definition set_config_runtime_json (v : option RuntimeFile) (st : State) : State :=
  {| token := token st; systemStartTime := systemStartTime st; sensors := sensors st;
     aktuators := aktuators st; mode := mode st; offlineUntil := offlineUntil st;
     lastMoistureCheck := lastMoistureCheck st; runtimeLoaded := runtimeLoaded st;
     serverFailCount := serverFailCount st; wifiFailCount := wifiFailCount st;
     lastHeartbeat := lastHeartbeat st; consecutiveErrors := consecutiveErrors st;
     lastStateSyncRequest := lastStateSyncRequest st;
     pendingStateSync := pendingStateSync st; lastStateSync := lastStateSync st;
     clock := clock st; gpio := gpio st; actuator_states_json := actuator_states_json st;
     config_runtime_json := v; wifi_connected := wifi_connected st;
     ws_connected := ws_connected st; send_ok := send_ok st; adc := adc st;
     trace := trace st |}.
Definition set_wifi_connected (v : bool) (st : State) : State :=
  {| token := token st; systemStartTime := systemStartTime st; sensors := sensors st;
     aktuators := aktuators st; mode := mode st; offlineUntil := offlineUntil st;
     lastMoistureCheck := lastMoistureCheck st; runtimeLoaded := runtimeLoaded st;
     serverFailCount := serverFailCount st; wifiFailCount := wifiFailCount st;
     lastHeartbeat := lastHeartbeat st; consecutiveErrors := consecutiveErrors st;
     lastStateSyncRequest := lastStateSyncRequest st;
     pendingStateSync := pendingStateSync st; lastStateSync := lastStateSync st;
     clock := clock st; gpio := gpio st; actuator_states_json := actuator_states_json st;
     config_runtime_json := config_runtime_json st; wifi_connected := v;
     ws_connected := ws_connected st; send_ok := send_ok st; adc := adc st;
     trace := trace st |}.
Definition set_ws_connected (v : bool) (st : State) : State :=
  {| token := token st; systemStartTime := systemStartTime st; sensors := sensors st;
     aktuators := aktuators st; mode := mode st; offlineUntil := offlineUntil st;
     lastMoistureCheck := lastMoistureCheck st; runtimeLoaded := runtimeLoaded st;
     serverFailCount := serverFailCount st; wifiFailCount := wifiFailCount st;
     lastHeartbeat := lastHeartbeat st; consecutiveErrors := consecutiveErrors st;
     lastStateSyncRequest := lastStateSyncRequest st;
     pendingStateSync := pendingStateSync st; lastStateSync := lastStateSync st;
     clock := clock st; gpio := gpio st; actuator_states_json := actuator_states_json st;
     config_runtime_json := config_runtime_json st; wifi_connected := wifi_connected st;
     ws_connected := v; send_ok := send_ok st; adc := adc st; trace := trace st |}.
Definition set_send_ok (v : bool) (st : State) : State :=
  {| token := token st; systemStartTime := systemStartTime st; sensors := sensors st;
     aktuators := aktuators st; mode := mode st; offlineUntil := offlineUntil st;
     lastMoistureCheck := lastMoistureCheck st; runtimeLoaded := runtimeLoaded st;
     serverFailCount := serverFailCount st; wifiFailCount := wifiFailCount st;
     lastHeartbeat := lastHeartbeat st; consecutiveErrors := consecutiveErrors st;
     lastStateSyncRequest := lastStateSyncRequest st;
     pendingStateSync := pendingStateSync st; lastStateSync := lastStateSync st;
     clock := clock st; gpio := gpio st; actuator_states_json := actuator_states_json st;
     config_runtime_json := config_runtime_json st; wifi_connected := wifi_connected st;
     ws_connected := ws_connected st; send_ok := v; adc := adc st; trace := trace st |}.
Definition set_adc (v : Z -> Z) (st : State) : State :=
  {| token := token st; systemStartTime := systemStartTime st; sensors := sensors st;
     aktuators := aktuators st; mode := mode st; offlineUntil := offlineUntil st;
     lastMoistureCheck := lastMoistureCheck st; runtimeLoaded := runtimeLoaded st;
     serverFailCount := serverFailCount st; wifiFailCount := wifiFailCount st;
     lastHeartbeat := lastHeartbeat st; consecutiveErrors := consecutiveErrors st;
     lastStateSyncRequest := lastStateSyncRequest st;
     pendingStateSync := pendingStateSync st; lastStateSync := lastStateSync st;
     clock := clock st; gpio := gpio st; actuator_states_json := actuator_states_json st;
     config_runtime_json := config_runtime_json st; wifi_connected := wifi_connected st;
     ws_connected := ws_connected st; send_ok := send_ok st; adc := v; trace := trace st |}.
Definition set_trace (v : list (Z * Event)) (st : State) : State :=
  {| token := token st; systemStartTime := systemStartTime st; sensors := sensors st;
     aktuators := aktuators st; mode := mode st; offlineUntil := offlineUntil st;
     lastMoistureCheck := lastMoistureCheck st; runtimeLoaded := runtimeLoaded st;
     serverFailCount := serverFailCount st; wifiFailCount := wifiFailCount st;
     lastHeartbeat := lastHeartbeat st; consecutiveErrors := consecutiveErrors st;
     lastStateSyncRequest := lastStateSyncRequest st;
     pendingStateSync := pendingStateSync st; lastStateSync := lastStateSync st;
     clock := clock st; gpio := gpio st; actuator_states_json := actuator_states_json st;
     config_runtime_json := config_runtime_json st; wifi_connected := wifi_connected st;
     ws_connected := ws_connected st; send_ok := send_ok st; adc := adc st; trace := v |}.

(** ** Board and library primitives *)

(** [millis()]: the 32-bit millisecond counter. *)
Definition millis (st : State) : Z := u32 (clock st).

(** [delay(ms)]. *)
Definition delay (ms : Z) (st : State) : State := set_clock (clock st + ms) st.

Definition emit (e : Event) (st : State) : State :=
  set_trace (trace st ++ [(clock st, e)]) st.

Definition digitalWrite (pin : Z) (level : bool) (st : State) : State :=
  emit (DigitalWrite pin level) (set_gpio (<[pin := level]> (gpio st)) st).

(** [digitalRead(pin) == HIGH] on an output pin reads the latch back. *)
Definition digitalRead (pin : Z) (st : State) : bool :=
  default false (gpio st !! pin).

Definition pinMode (pin : Z) (output : bool) (st : State) : State :=
  emit (PinMode pin output) st.

(** [webSocket.sendTXT]: the frame is handed to the socket; the result is
    what the library answers. *)
Definition sendTXT (m : OutMsg) (st : State) : bool * State :=
  (send_ok st, emit (SendTXT m) st).

(** [++counter] on an [int]. *)
Definition incr (c : Z) : Z := i32 (c + 1).

#[global] Arguments incr : simpl never.
#[global] Arguments millis : simpl never.

Definition mark_all_pending (l : list Aktuator) : list Aktuator :=
  map (set_a_pendingStateSync true) l.

(** The body of [for (Aktuator &a : aktuators) if (p a) { a = f a; break; }]. *)
Fixpoint update_first (p : Aktuator -> bool) (f : Aktuator -> Aktuator)
    (l : list Aktuator) : list Aktuator :=
  match l with
  | [] => []
  | a :: l' => if p a then f a :: l' else a :: update_first p f l'
  end.

Definition has_pin (pin : Z) (a : Aktuator) : bool := a_pin a =? pin.
Definition is_pump (a : Aktuator) : bool := (a_function a =? "pump")%string.

(** ** Persisted actuator states

    [/actuator_states.json] is a JSON object from the decimal pin number to
    a boolean; it is only ever written by [saveActuatorState], so it is
    modelled by the finite map it denotes ([None]: no such file).  The file
    system is taken to be mounted and writable, as [setup] checks. *)

Definition saveActuatorState (pin : Z) (state : bool) (st : State) : State :=
  let doc := default ∅ (actuator_states_json st) in
  emit (SaveActuatorState pin state)
    (set_actuator_states_json (Some (<[pin := state]> doc)) st).

(** The loop of [loadActuatorStates] over the registry. *)
Fixpoint apply_saved_states (doc : gmap Z bool) (l : list Aktuator)
    (st : State) : list Aktuator * State :=
  match l with
  | [] => ([], st)
  | akt :: l' =>
      match doc !! a_pin akt with
      | Some savedState =>
          let st1 := digitalWrite (a_pin akt) savedState st in
          let '(r, st2) := apply_saved_states doc l' st1 in
          (set_a_state savedState akt :: r, st2)
      | None =>
          let '(r, st2) := apply_saved_states doc l' st in
          (akt :: r, st2)
      end
  end.

Definition loadActuatorStates (st : State) : bool * State :=
  match actuator_states_json st with
  | None => (false, st)
  | Some doc =>
      let '(l, st1) := apply_saved_states doc (aktuators st) st in
      (true, set_aktuators l st1)
  end.

(** ** Runtime configuration *)

Definition valid_pin (pin : Z) : bool := negb ((pin <? 0) || (pin >? 39)).

Fixpoint load_sensors (arr : list SensorCfg) (st : State) : State :=
  match arr with
  | [] => st
  | s :: arr' =>
      let type := sc_type s in
      let pin := sc_pin s in
      let threshold := default (-1) (sc_threshold s) in
      if negb (valid_pin pin) then load_sensors arr' st
      else
        let st1 :=
          if (type =? "dht11")%string then
            set_sensors (sensors st ++ [mkSensor "dht_temperature" pin (-1) 0;
                                        mkSensor "dht_humidity" pin (-1) 0]) st
          else
            set_sensors (sensors st ++ [mkSensor type pin threshold 0]) st in
        load_sensors arr' (pinMode pin false st1)
  end.

Fixpoint load_aktuators (arr : list AktuatorCfg) (st : State) : State :=
  match arr with
  | [] => st
  | a :: arr' =>
      let function := ac_function a in
      let pin := ac_pin a in
      let currentState := default false (ac_current_state a) in
      if negb (valid_pin pin) then load_aktuators arr' st
      else
        let akt := mkAktuator function pin currentState true in
        let st1 := set_aktuators (aktuators st ++ [akt]) st in
        let st2 := pinMode pin true st1 in
        load_aktuators arr' (digitalWrite pin currentState st2)
  end.

Definition loadRuntimeConfig (st : State) : bool * State :=
  match config_runtime_json st with
  | None => (false, st)
  | Some file =>
      if rf_size file =? 0 then (false, st)
      else if rf_size file >? 2048 then (false, st)
      else
        match rf_json file with
        | None => (false, st)
        | Some doc =>
            let st1 := set_aktuators [] (set_sensors [] st) in
            let st2 := match j_sensors doc with
                       | Some arr => load_sensors arr st1
                       | None => st1
                       end in
            let st3 := match j_aktuators doc with
                       | Some arr => load_aktuators arr st2
                       | None => st2
                       end in
            let st4 := snd (loadActuatorStates st3) in
            (true, set_pendingStateSync true (set_runtimeLoaded true st4))
        end
  end.

(** [saveRuntimeConfig(jsonString)]: [len] is the length of the string and
    [parsed] what [deserializeJson] makes of it. *)
Definition saveRuntimeConfig (len : Z) (parsed : option JsonDoc) (st : State)
    : State :=
  if len >? 2048 then st
  else
    let st1 := set_config_runtime_json (Some (mkRuntimeFile len parsed)) st in
    snd (loadRuntimeConfig (emit SaveRuntimeConfig st1)).

(** ** Soil moisture *)

Definition minValue : Z := 2300.
Definition maxValue : Z := 2100.

(** Arduino's [map(x, in_min, in_max, out_min, out_max)]. *)
Definition arduino_map (x in_min in_max out_min out_max : Z) : Z :=
  if in_max - in_min =? 0 then -1
  else Z.quot ((x - in_min) * (out_max - out_min)) (in_max - in_min) + out_min.

Definition constrain (x lo hi : Z) : Z :=
  if x <? lo then lo else if hi <? x then hi else x.

Fixpoint sample_loop (n : nat) (pin sum : Z) (st : State) : Z * State :=
  match n with
  | O => (sum, st)
  | S n' => sample_loop n' pin (sum + adc st pin) (delay 10 st)
  end.

Definition readSoilMoisture (pin : Z) (st : State) : Z * State :=
  let samples := 5 in
  let '(sum, st1) := sample_loop (Z.to_nat samples) pin 0 st in
  let rawValue := Z.quot sum samples in
  let moisture := arduino_map rawValue minValue maxValue 61 86 in
  (constrain moisture 0 100, st1).

(** ** Reconciliation *)

Definition confirmActuatorState (pin : Z) (state success : bool) (st : State)
    : State :=
  if negb (StatusMode_eqb (mode st) ONLINE) || negb (ws_connected st) then st
  else
    snd (sendTXT (MsgActuatorStateConfirm (token st) pin state success
                    (millis st)) st).

(** One iteration of the outer loop of [applyActuatorStateSync]. *)
Definition sync_tuple (actuatorData : SyncTuple) (st : State) : State :=
  let pin := sy_pin actuatorData in
  let expectedState := sy_state actuatorData in
  match find (has_pin pin) (aktuators st) with
  | None => st
  | Some _ =>
      let currentState := digitalRead pin st in
      let st1 :=
        if negb (eqb currentState expectedState) then
          let s1 := digitalWrite pin expectedState st in
          let s2 := set_aktuators
                      (update_first (has_pin pin) (set_a_state expectedState)
                         (aktuators s1)) s1 in
          let s3 := saveActuatorState pin expectedState s2 in
          confirmActuatorState pin expectedState true s3
        else
          confirmActuatorState pin expectedState true st in
      set_aktuators
        (update_first (has_pin pin) (set_a_pendingStateSync false)
           (aktuators st1)) st1
  end.

Definition applyActuatorStateSync (actuators : list SyncTuple) (st : State)
    : State :=
  let st1 := fold_left (fun s t => sync_tuple t s) actuators st in
  set_lastStateSync (millis st1) (set_pendingStateSync false st1).

(** ** Inbound commands *)

Definition set_aktuator (doc : JsonDoc) (st : State) : State :=
  let pin := j_pin doc in
  let state := j_state doc in
  let requireConfirmation := default false (j_require_confirmation doc) in
  if (pin <? 0) || (pin >? 39) then
    if requireConfirmation then confirmActuatorState pin state false st else st
  else
    match find (has_pin pin) (aktuators st) with
    | Some _ =>
        let s1 := digitalWrite pin state st in
        let s2 := set_aktuators
                    (update_first (has_pin pin)
                       (fun a => set_a_pendingStateSync false (set_a_state state a))
                       (aktuators s1)) s1 in
        let s3 := saveActuatorState pin state s2 in
        let s4 := if requireConfirmation
                  then confirmActuatorState pin state true s3 else s3 in
        delay 50 s4
    | None =>
        if requireConfirmation then confirmActuatorState pin state false st
        else st
    end.

Definition handleServerCommand (message : Message) (st : State) : State :=
  if m_strlen message >? 1024 then st
  else
    match m_json message with
    | None => st
    | Some doc =>
        let event := j_event doc in
        if (event =? "set_aktuator")%string then set_aktuator doc st
        else if (event =? "runtime_config")%string then
          set_pendingStateSync true
            (saveRuntimeConfig (m_strlen message) (Some doc) st)
        else if (event =? "refresh_config")%string then
          let '(result, st1) := loadRuntimeConfig st in
          if result then set_pendingStateSync true st1 else st1
        else if (event =? "auth_success")%string then
          set_lastStateSyncRequest (u32 (millis st - 60000 + 2000))
            (set_pendingStateSync true st)
        else if (event =? "actuator_state_sync")%string then
          match j_actuators doc with
          | Some actuators => applyActuatorStateSync actuators st
          | None => st
          end
        else st
    end.

(** ** Socket events *)

Inductive WStype_t :=
| WStype_ERROR | WStype_DISCONNECTED | WStype_CONNECTED | WStype_TEXT
| WStype_BIN | WStype_FRAGMENT_TEXT_START | WStype_FRAGMENT_BIN_START
| WStype_FRAGMENT | WStype_FRAGMENT_FIN | WStype_PING | WStype_PONG.

(** [webSocketEvent(type, payload, length)]; [message] is the payload read
    as a C string and decoded, used by the [WStype_TEXT] case only. *)
Definition webSocketEvent (type : WStype_t) (length : Z) (message : Message)
    (st : State) : State :=
  if length >? 1024 then st
  else
    match type with
    | WStype_CONNECTED =>
        let s1 := set_serverFailCount 0 st in
        let s2 := set_consecutiveErrors 0 s1 in
        let s3 := set_mode ONLINE s2 in
        let s4 := set_offlineUntil 0 s3 in
        snd (sendTXT (MsgAuth (token s4)) s4)
    | WStype_DISCONNECTED =>
        let s1 := set_serverFailCount (incr (serverFailCount st)) st in
        let s2 := set_consecutiveErrors (incr (consecutiveErrors s1)) s1 in
        let s3 := set_aktuators (mark_all_pending (aktuators s2)) s2 in
        let s4 := set_pendingStateSync true s3 in
        if serverFailCount s4 >=? 5 then
          set_offlineUntil (u32 (millis s4 + 6 * 60 * 60 * 1000))
            (set_mode OFFLINE_SERVER s4)
        else s4
    | WStype_TEXT =>
        handleServerCommand message (set_consecutiveErrors 0 st)
    | WStype_ERROR =>
        set_consecutiveErrors (incr (consecutiveErrors st)) st
    | _ => st
    end.

(** ** Offline mode *)

(** [ESP.restart()] ends the run of the sketch. *)
Inductive Outcome :=
| Running (st : State)
| Restarted (st : State).

Definition moistureInterval : Z := 5 * 60 * 1000.

(** The pump branch of [checkOfflineMode]: the first actuator whose
    function is ["pump"] is switched on, held for ten seconds, switched
    off. *)
Definition emergency_watering (st : State) : State :=
  match find is_pump (aktuators st) with
  | None => st
  | Some a =>
      let s1 := digitalWrite (a_pin a) true st in
      let s2 := set_aktuators
                  (update_first is_pump (set_a_state true) (aktuators s1)) s1 in
      let s3 := saveActuatorState (a_pin a) true s2 in
      let s4 := delay 10000 s3 in
      let s5 := digitalWrite (a_pin a) false s4 in
      let s6 := set_aktuators
                  (update_first is_pump (set_a_state false) (aktuators s5)) s5 in
      saveActuatorState (a_pin a) false s6
  end.

(** The loop of [checkOfflineMode] over [sensors]; it returns the sensors
    with their refreshed values.  The reading is an integer in 0..100 held
    in a [float], so [value < s.threshold] is the comparison of integers.
    The DHT branch only logs, after [delay(500)]. *)
Fixpoint offline_sensor_check (l : list Sensor) (st : State)
    : list Sensor * State :=
  match l with
  | [] => ([], st)
  | s :: l' =>
      if (s_type s =? "soil_moisture")%string && (s_threshold s >? 0) then
        let '(value, s1) := readSoilMoisture (s_pin s) st in
        let s2 := if value <? s_threshold s then emergency_watering s1 else s1 in
        let '(r, s3) := offline_sensor_check l' s2 in
        (set_s_value value s :: r, s3)
      else if (s_type s =? "dht_temperature")%string
              || (s_type s =? "dht_humidity")%string then
        let '(r, s3) := offline_sensor_check l' (delay 500 st) in
        (s :: r, s3)
      else
        let '(r, s3) := offline_sensor_check l' st in
        (s :: r, s3)
  end.

(** [checkOfflineMode()].  The countdown message, with its static
    [lastCountdown], only logs.  The restart is taken after [delay(2000)]. *)
Definition checkOfflineMode (st : State) : Outcome :=
  if StatusMode_eqb (mode st) ONLINE then Running st
  else
    let now := millis st in
    if (now >=? offlineUntil st) && (offlineUntil st >? 0) then
      Restarted (delay 2000 st)
    else if u32 (now - lastMoistureCheck st) >=? moistureInterval then
      let '(l, s1) := offline_sensor_check (sensors st) st in
      Running (set_lastMoistureCheck now (set_sensors l s1))
    else Running st.

(** ** Connection monitor *)

Definition heartbeatInterval : Z := 30000.

(** [monitorConnection()]: the link branch, the reset of [wifiFailCount]
    and the heartbeat branch, in the order of the sketch. *)
Definition monitorConnection (st : State) : State :=
  let now := millis st in
  if negb (wifi_connected st) then
    if StatusMode_eqb (mode st) ONLINE then
      let s1 := set_wifiFailCount (incr (wifiFailCount st)) st in
      let s2 := set_mode OFFLINE_WIFI s1 in
      let s3 := set_offlineUntil (u32 (millis s2 + 30 * 60 * 1000)) s2 in
      let s4 := set_aktuators (mark_all_pending (aktuators s3)) s3 in
      set_pendingStateSync true s4
    else st
  else
    let s1 := if (wifiFailCount st >? 0) && wifi_connected st
              then set_wifiFailCount 0 st else st in
    if StatusMode_eqb (mode s1) ONLINE
       && (u32 (now - lastHeartbeat s1) >=? heartbeatInterval) then
      let s2 :=
        if ws_connected s1 then
          let '(sent, s) :=
            sendTXT (MsgHeartbeat (token s1)
                       (u32 (now - systemStartTime s1) / 1000)
                       (List.length (sensors s1)) (List.length (aktuators s1))
                       (pendingStateSync s1) (aktuators s1)) s1 in
          if sent then set_consecutiveErrors 0 s
          else set_consecutiveErrors (incr (consecutiveErrors s)) s
        else
          let a := set_mode OFFLINE_SERVER s1 in
          let b := set_serverFailCount (incr (serverFailCount a)) a in
          let c := set_aktuators (mark_all_pending (aktuators b)) b in
          set_pendingStateSync true c in
      set_lastHeartbeat now s2
    else s1.

(** ** Runs of the main loop

    [loop] calls the socket client (which calls [webSocketEvent] back),
    [monitorConnection] and [checkOfflineMode] in turn; between calls time
    passes and the collaborators change their answers. *)

Inductive Input :=
| Elapse (ms : Z)
| Link (up : bool)
| Socket (up : bool)
| WsEvent (type : WStype_t) (length : Z) (message : Message)
| MonitorTick
| OfflineTick.

Definition step (i : Input) (st : State) : Outcome :=
  match i with
  | Elapse ms => Running (delay ms st)
  | Link up => Running (set_wifi_connected up st)
  | Socket up => Running (set_ws_connected up st)
  | WsEvent type length message => Running (webSocketEvent type length message st)
  | MonitorTick => Running (monitorConnection st)
  | OfflineTick => checkOfflineMode st
  end.

Fixpoint run (ins : list Input) (st : State) : Outcome :=
  match ins with
  | [] => Running st
  | i :: ins' =>
      match step i st with
      | Running st' => run ins' st'
      | Restarted st' => Restarted st'
      end
  end.

(** Number of ticks of [monitorConnection], taken [dts] milliseconds apart,
    at which the mode goes from [ONLINE] to [OFFLINE_WIFI]. *)
Fixpoint count_link_transitions (dts : list Z) (st : State) : nat :=
  match dts with
  | [] => O
  | dt :: dts' =>
      let before := delay dt st in
      let after := monitorConnection before in
      ((if StatusMode_eqb (mode before) ONLINE
           && StatusMode_eqb (mode after) OFFLINE_WIFI then 1 else 0)
       + count_link_transitions dts' after)%nat
  end.

(** * Definitions used by the statements

    Views of the state, the effects expected of a step, the readings of the
    specification that the code does not meet, and example devices:
    [boot_state] holds the initial values of the globals; [field_state] is a
    device with a pump relay on pin 26, a fan on pin 27 and an armed soil
    probe on pin 34 whose ADC reads 2612 (22 percent after calibration),
    one hour after boot. *)

Definition boot_state : State :=
  {| token := "tok"; systemStartTime := 0; sensors := []; aktuators := [];
     mode := ONLINE; offlineUntil := 0; lastMoistureCheck := 0;
     runtimeLoaded := false; serverFailCount := 0; wifiFailCount := 0;
     lastHeartbeat := 0; consecutiveErrors := 0; lastStateSyncRequest := 0;
     pendingStateSync := false; lastStateSync := 0;
     clock := 0; gpio := ∅; actuator_states_json := None;
     config_runtime_json := None;
     wifi_connected := true; ws_connected := true; send_ok := true;
     adc := fun _ => 0; trace := [] |}.

Definition field_state : State :=
  set_sensors [mkSensor "soil_moisture" 34 30 0]
    (set_aktuators [mkAktuator "pump" 26 false false;
                    mkAktuator "fan" 27 true false]
       (set_gpio (<[27 := true]> (<[26 := false]> ∅))
          (set_adc (fun pin => if pin =? 34 then 2612 else 0)
             (set_runtimeLoaded true (set_clock 3600000 boot_state))))).

(** The part of the state that the mode machine owns. *)
Definition conn_view (st : State) : StatusMode * Z * Z * Z :=
  (mode st, offlineUntil st, serverFailCount st, wifiFailCount st).

(** Inputs other than a socket connect and a tick of the monitor. *)
Definition socket_input (i : Input) : bool :=
  match i with
  | WsEvent WStype_CONNECTED _ _ => false
  | MonitorTick => false
  | _ => true
  end.

(** A disconnect event that [webSocketEvent] handles. *)
Definition is_disconnect (i : Input) : bool :=
  match i with
  | WsEvent WStype_DISCONNECTED length _ => length <=? 1024
  | _ => false
  end.

Fixpoint disconnects (ins : list Input) : nat :=
  match ins with
  | [] => O
  | i :: ins' => ((if is_disconnect i then 1 else 0) + disconnects ins')%nat
  end.

(** The specification's reading: while fewer than five session failures
    have been counted since the session was established, the mode is not
    [OFFLINE_SERVER]. *)
Definition session_threshold_claim : Prop :=
  forall ins st st',
    mode st = ONLINE -> serverFailCount st = 0 ->
    run ins st = Running st' ->
    serverFailCount st' < 5 -> mode st' <> OFFLINE_SERVER.

(** A connected device whose socket has dropped, at a tick where the
    heartbeat is due. *)
Definition socket_down_state : State := set_ws_connected false field_state.

Definition no_message : Message := mkMessage 0 None.

Definition four_disconnects : list Input :=
  [WsEvent WStype_DISCONNECTED 0 no_message;
   WsEvent WStype_DISCONNECTED 0 no_message;
   WsEvent WStype_TEXT 2 no_message;
   WsEvent WStype_DISCONNECTED 0 no_message;
   Elapse 5000;
   WsEvent WStype_DISCONNECTED 0 no_message].

(** Inputs other than a socket connect or disconnect. *)
Definition quiet_input (i : Input) : bool :=
  match i with
  | WsEvent WStype_CONNECTED _ _ | WsEvent WStype_DISCONNECTED _ _ => false
  | _ => true
  end.

(** The specification's notion of an authenticated session, which the
    sketch keeps no record of: the handshake is complete once an
    [auth_success] frame has been handled on the current socket connection;
    a connect starts unauthenticated and a disconnect ends the session. *)
Definition auth_after (i : Input) (authed : bool) : bool :=
  match i with
  | WsEvent type length message =>
      if length >? 1024 then authed
      else
        match type with
        | WStype_CONNECTED | WStype_DISCONNECTED => false
        | WStype_TEXT =>
            if m_strlen message >? 1024 then authed
            else
              match m_json message with
              | Some doc =>
                  if (j_event doc =? "auth_success")%string then true else authed
              | None => authed
              end
        | _ => authed
        end
  | _ => authed
  end.

Definition authenticated (ins : list Input) : bool :=
  fold_left (fun authed i => auth_after i authed) ins false.

(** The specification's reading: a run that brings a degraded device back
    to [ONLINE] has completed the handshake. *)
Definition online_requires_auth_claim : Prop :=
  forall ins st st',
    mode st <> ONLINE -> run ins st = Running st' ->
    mode st' = ONLINE -> authenticated ins = true.

(** A device that lost its link an hour after boot. *)
Definition link_lost_state : State :=
  monitorConnection (set_wifi_connected false field_state).

(** The same device once the link is back: the socket never dropped, and
    the mode stays [OFFLINE_WIFI]. *)
Definition link_recovered_state : State :=
  monitorConnection (set_wifi_connected true link_lost_state).

(** What [confirmActuatorState] adds to the trace. *)
Definition confirm_events (pin : Z) (state success : bool) (st : State)
    : list (Z * Event) :=
  if StatusMode_eqb (mode st) ONLINE && ws_connected st then
    [(clock st,
      SendTXT (MsgActuatorStateConfirm (token st) pin state success (millis st)))]
  else [].

(** The specification's reading of C5: a tuple that matches an actuator
    whose pin already has the expected level makes the device send a
    confirmation. *)
Definition sync_always_confirms_claim : Prop :=
  forall t st a,
    find (has_pin (sy_pin t)) (aktuators st) = Some a ->
    digitalRead (sy_pin t) st = sy_state t ->
    exists at_ms tok stamp,
      trace (sync_tuple t st)
      = trace st ++ [(at_ms, SendTXT (MsgActuatorStateConfirm tok (sy_pin t)
                                        (sy_state t) true stamp))].

Definition fan_on_tuple : SyncTuple := mkSyncTuple 27 "fan" true.

Definition set_aktuator_doc (pin : Z) (state : bool) (confirm : option bool)
    : JsonDoc :=
  mkJsonDoc "set_aktuator" pin state confirm None None None.

(** The specification's reading of C7: a command that asks for a
    confirmation and names a pin without an actuator is answered with a
    failure confirmation. *)
Definition failure_always_confirmed_claim : Prop :=
  forall doc st,
    j_require_confirmation doc = Some true ->
    find (has_pin (j_pin doc)) (aktuators st) = None ->
    exists at_ms tok stamp,
      trace (set_aktuator doc st)
      = trace st ++ [(at_ms, SendTXT (MsgActuatorStateConfirm tok (j_pin doc)
                                        (j_state doc) false stamp))].

(** The specification's reading of C8 for malformed payloads: a text frame
    that does not decode leaves the whole state as it was. *)
Definition malformed_frame_no_change_claim : Prop :=
  forall length message st,
    m_json message = None ->
    webSocketEvent WStype_TEXT length message st = st.

(** A device that has seen three socket errors in a row. *)
Definition after_errors_state : State :=
  webSocketEvent WStype_ERROR 0 no_message
    (webSocketEvent WStype_ERROR 0 no_message
       (webSocketEvent WStype_ERROR 0 no_message field_state)).

(** The registry entry that [loadRuntimeConfig] builds from one entry of
    the payload. *)
Definition init_aktuator (c : AktuatorCfg) : Aktuator :=
  mkAktuator (ac_function c) (ac_pin c) (default false (ac_current_state c)) true.

Definition in_range_entries (arr : list AktuatorCfg) : list AktuatorCfg :=
  List.filter (fun c => valid_pin (ac_pin c)) arr.

(** The effects of initialising one actuator, at time [t]. *)
Definition init_events (t : Z) (a : Aktuator) : list (Z * Event) :=
  [(t, PinMode (a_pin a) true); (t, DigitalWrite (a_pin a) (a_state a))].

(** What the persisted record does to one actuator, and the write that
    goes with it. *)
Definition apply_saved (saved : option (gmap Z bool)) (a : Aktuator) : Aktuator :=
  match saved with
  | Some doc =>
      match doc !! a_pin a with
      | Some b => set_a_state b a
      | None => a
      end
  | None => a
  end.

Definition saved_events (saved : option (gmap Z bool)) (t : Z) (a : Aktuator)
    : list (Z * Event) :=
  match saved with
  | Some doc =>
      match doc !! a_pin a with
      | Some b => [(t, DigitalWrite (a_pin a) b)]
      | None => []
      end
  | None => []
  end.

(** The specification's reading of C9: after a load no two actuators of
    the registry share a pin. *)
Definition unique_pins_claim : Prop :=
  forall st,
    fst (loadRuntimeConfig st) = true ->
    List.NoDup (map a_pin (aktuators (snd (loadRuntimeConfig st)))).

(** A payload that lists pin 5 twice and a pin out of range. *)
Definition duplicate_pin_doc : JsonDoc :=
  mkJsonDoc "runtime_config" 0 false None (Some [])
    (Some [mkAktuatorCfg "pump" 5 (Some true);
           mkAktuatorCfg "lamp" 99 (Some true);
           mkAktuatorCfg "fan" 5 None])
    None.

Definition duplicate_pin_state : State :=
  set_config_runtime_json (Some (mkRuntimeFile 120 (Some duplicate_pin_doc)))
    boot_state.

(** A payload for a pump on pin 26 and a fan on pin 27, both reported off
    by the server, loaded on a device whose persisted record says the pump
    was last switched on. *)
Definition pump_fan_doc : JsonDoc :=
  mkJsonDoc "runtime_config" 0 false None
    (Some [mkSensorCfg "soil_moisture" 34 (Some 30)])
    (Some [mkAktuatorCfg "pump" 26 (Some false);
           mkAktuatorCfg "fan" 27 None])
    None.

Definition pump_saved_on_state : State :=
  set_actuator_states_json (Some (<[26 := true]> ∅))
    (set_config_runtime_json (Some (mkRuntimeFile 160 (Some pump_fan_doc)))
       boot_state).

(** The effects of one run of the pump on pin [p] that starts at time [t]. *)
Definition pump_cycle (t p : Z) : list (Z * Event) :=
  [(t, DigitalWrite p true); (t, SaveActuatorState p true);
   (t + 10000, DigitalWrite p false); (t + 10000, SaveActuatorState p false)].

(** The percentage that [readSoilMoisture] computes from a raw reading. *)
Definition moisture_percent (raw : Z) : Z :=
  constrain (arduino_map raw minValue maxValue 61 86) 0 100.

(** * The rest of the sketch

    Functions that the statements above do not need: the requests for a
    state sync and the system monitor, with the definitions their
    properties are stated with. *)

(** ** Requests for a state sync *)

(** The [request_state_sync] frame: when it is handed to the socket, the
    token and the timestamp it carries. *)
Record SyncRequest := mkSyncRequest {
  rq_at : Z;
  rq_token : string;
  rq_timestamp : Z
}.

(** [requestStateSync()].  The frame it hands to the socket is returned
    beside the state. *)
Definition requestStateSync (st : State) : State * list SyncRequest :=
  if negb (StatusMode_eqb (mode st) ONLINE) || negb (ws_connected st) then (st, [])
  else
    let output := mkSyncRequest (clock st) (token st) (millis st) in
    if send_ok st then (set_lastStateSyncRequest (millis st) st, [output])
    else (st, [output]).

Definition stateSyncRequestInterval : Z := 60000.

(** [checkPendingStateSync()]. *)
Definition checkPendingStateSync (st : State) : State * list SyncRequest :=
  if negb (StatusMode_eqb (mode st) ONLINE) || negb (runtimeLoaded st) then (st, [])
  else
    let now := millis st in
    let '(s1, f1) :=
      if pendingStateSync st
         && (u32 (now - lastStateSyncRequest st) >=? stateSyncRequestInterval)
      then requestStateSync st else (st, []) in
    let hasUnsynced := existsb a_pendingStateSync (aktuators s1) in
    let '(s2, f2) :=
      if hasUnsynced && (u32 (now - lastStateSync s1) >=? stateSyncRequestInterval)
      then requestStateSync s1 else (s1, []) in
    (s2, f1 ++ f2).

(** ** Definitions for the further properties *)

(** The sensors that one entry of the payload stands for. *)
Definition expand_sensor (c : SensorCfg) : list Sensor :=
  if (sc_type c =? "dht11")%string then
    [mkSensor "dht_temperature" (sc_pin c) (-1) 0;
     mkSensor "dht_humidity" (sc_pin c) (-1) 0]
  else [mkSensor (sc_type c) (sc_pin c) (default (-1) (sc_threshold c)) 0].

Definition in_range_sensors (arr : list SensorCfg) : list SensorCfg :=
  List.filter (fun c => valid_pin (sc_pin c)) arr.

(** A load of the runtime configuration can succeed: the file is there,
    not empty, at most 2048 bytes, and it parses to [doc]. *)
Definition loadable (st : State) (doc : JsonDoc) : Prop :=
  exists file,
    config_runtime_json st = Some file
    /\ rf_size file <> 0 /\ rf_size file <= 2048
    /\ rf_json file = Some doc.

(** A payload with a combined temperature and humidity sensor on pin 16, a
    soil probe without threshold and a sensor on a pin out of range. *)
Definition sensors_doc : JsonDoc :=
  mkJsonDoc "runtime_config" 0 false None
    (Some [mkSensorCfg "dht11" 16 None;
           mkSensorCfg "soil_moisture" 34 None;
           mkSensorCfg "soil_moisture" 40 (Some 30)])
    None None.

Definition sensors_state : State :=
  set_config_runtime_json (Some (mkRuntimeFile 150 (Some sensors_doc))) field_state.

(** The field device with the pump and fan payload on file. *)
Definition configured_state : State :=
  set_config_runtime_json (Some (mkRuntimeFile 160 (Some pump_fan_doc))) field_state.

(** The events that [handleServerCommand] acts upon. *)
Definition handled_event (event : string) : bool :=
  (event =? "set_aktuator")%string || (event =? "runtime_config")%string
  || (event =? "refresh_config")%string || (event =? "auth_success")%string
  || (event =? "actuator_state_sync")%string.

Definition runtime_config_message : Message :=
  mkMessage 160 (Some pump_fan_doc).

(** ** The system monitor *)

(** The two timers of [basicSystemMonitoring], globals of the sketch that
    nothing else reads. *)
Record Monitor := mkMonitor {
  lastMemoryCheck : Z;
  lastStatusReport : Z
}.

Definition maxConsecutiveErrors : Z := 5.

(** What a call of [basicSystemMonitoring] comes to: it returns, with the
    timers, the state and the sync requests sent, or it restarts the
    board. *)
Inductive Monitored :=
| Continues (m : Monitor) (st : State) (frames : list SyncRequest)
| Restarts (st : State).

(** [basicSystemMonitoring()]; [freeHeap] is what [ESP.getFreeHeap()]
    answers.  [printSystemStatus] and the power monitor only log. *)
Definition basicSystemMonitoring (freeHeap : Z) (m : Monitor) (st : State)
    : Monitored :=
  let now := millis st in
  let memory :=
    if u32 (now - lastMemoryCheck m) >=? 60000 then
      if (freeHeap <? 20000) && (freeHeap <? 10000) then None
      else Some (mkMonitor now (lastStatusReport m))
    else Some m in
  match memory with
  | None => Restarts (delay 2000 st)
  | Some m1 =>
      let status :=
        if u32 (now - lastStatusReport m1) >=? 120000 then
          if consecutiveErrors st >=? maxConsecutiveErrors then None
          else Some (mkMonitor (lastMemoryCheck m1) now)
        else Some m1 in
      match status with
      | None => Restarts (delay 2000 st)
      | Some m2 =>
          let '(st', frames) := checkPendingStateSync st in
          Continues m2 st' frames
      end
  end.

(** Socket events that count as errors. *)
Definition failure_event (type : WStype_t) : bool :=
  match type with
  | WStype_ERROR | WStype_DISCONNECTED => true
  | _ => false
  end.

(** The socket client reporting the events [types] in turn, each with an
    empty payload. *)
Definition socket_events (types : list WStype_t) (st : State) : State :=
  fold_left (fun s type => webSocketEvent type 0 no_message s) types st.


(** ** Pins in range *)

Definition pin_in_range (pin : Z) : Prop := 0 <= pin <= 39.

(** An entry of the trace that configures or drives a pin does so for a
    pin in range. *)
Definition pin_event_ok (e : Z * Event) : Prop :=
  match snd e with
  | DigitalWrite pin _ | PinMode pin _ => pin_in_range pin
  | _ => True
  end.

(** Every actuator of the registry is on a pin in range, and so is every
    pin configured or driven so far. *)
Definition pins_safe (st : State) : Prop :=
  Forall pin_in_range (map a_pin (aktuators st))
  /\ Forall pin_event_ok (trace st).

Definition outcome_state (o : Outcome) : State :=
  match o with
  | Running st | Restarted st => st
  end.

(** A day in the field: a configuration arrives, a command for a pin that
    does not exist, a sync, the link drops and the offline check runs. *)
Definition field_day : list Input :=
  [WsEvent WStype_CONNECTED 0 no_message;
   WsEvent WStype_TEXT 160 (mkMessage 160 (Some pump_fan_doc));
   WsEvent WStype_TEXT 80
     (mkMessage 80 (Some (mkJsonDoc "set_aktuator" 99 true (Some true) None None None)));
   WsEvent WStype_TEXT 90
     (mkMessage 90
        (Some (mkJsonDoc "actuator_state_sync" 0 false None None None
                 (Some [mkSyncTuple 27 "fan" true; mkSyncTuple 45 "lamp" true]))));
   Link false; MonitorTick; Elapse 300000; OfflineTick].

(** The link comes back and the monitor sees it, half an hour goes by. *)
Definition link_back_inputs : list Input :=
  [Link true; MonitorTick; Elapse 900000; OfflineTick; Elapse 900000;
   MonitorTick].

(** * Properties *)

Lemma StatusMode_eqb_eq (a b : StatusMode) : StatusMode_eqb a b = true <-> a = b.
Proof. destruct a, b; simpl; split; congruence. Qed.

Lemma StatusMode_eqb_neq (a b : StatusMode) : StatusMode_eqb a b = false <-> a <> b.
Proof. destruct a, b; simpl; split; congruence. Qed.

Lemma gtb_false (z n : Z) : z <= n -> (z >? n) = false.
Proof. intros H. rewrite Z.gtb_ltb. apply Z.ltb_ge. exact H. Qed.

Lemma gtb_true (z n : Z) : n < z -> (z >? n) = true.
Proof. intros H. rewrite Z.gtb_ltb. apply Z.ltb_lt. exact H. Qed.

Lemma geb_false (z n : Z) : z < n -> (z >=? n) = false.
Proof. intros H. rewrite Z.geb_leb. apply Z.leb_gt. exact H. Qed.

Lemma geb_true (z n : Z) : n <= z -> (z >=? n) = true.
Proof. intros H. rewrite Z.geb_leb. apply Z.leb_le. exact H. Qed.

Lemma u32_small (z : Z) : 0 <= z < 2 ^ 32 -> u32 z = z.
Proof. intros H. unfold u32. apply Z.mod_small. exact H. Qed.

Lemma u32_range (z : Z) : 0 <= u32 z < 2 ^ 32.
Proof. unfold u32. apply Z.mod_pos_bound. lia. Qed.

Lemma millis_range (st : State) : 0 <= millis st < 2 ^ 32.
Proof. apply u32_range. Qed.

Lemma incr_small (c : Z) : - 2 ^ 31 <= c < INT_MAX -> incr c = c + 1.
Proof.
  intros H. unfold incr, i32, INT_MAX in *.
  rewrite Z.mod_small by lia. lia.
Qed.

Lemma mark_all_pending_Forall (l : list Aktuator) :
  Forall (fun a => a_pendingStateSync a = true) (mark_all_pending l).
Proof.
  unfold mark_all_pending. induction l as [|a l IH]; simpl; constructor; auto.
Qed.

(** ** Reading a field after a primitive

    One equation per field and primitive, collected in the rewrite base
    [proj]. *)

Lemma gpio_digitalWrite pin level st : gpio (digitalWrite pin level st) = <[pin := level]> (gpio st).
Proof. reflexivity. Qed.

Lemma aktuators_digitalWrite pin level st : aktuators (digitalWrite pin level st) = aktuators st.
Proof. reflexivity. Qed.

Lemma sensors_digitalWrite pin level st : sensors (digitalWrite pin level st) = sensors st.
Proof. reflexivity. Qed.

Lemma actuator_states_json_digitalWrite pin level st : actuator_states_json (digitalWrite pin level st) = actuator_states_json st.
Proof. reflexivity. Qed.

Lemma trace_digitalWrite pin level st : trace (digitalWrite pin level st) = trace st ++ [(clock st, DigitalWrite pin level)].
Proof. reflexivity. Qed.

Lemma clock_digitalWrite pin level st : clock (digitalWrite pin level st) = clock st.
Proof. reflexivity. Qed.

Lemma mode_digitalWrite pin level st : mode (digitalWrite pin level st) = mode st.
Proof. reflexivity. Qed.

Lemma ws_connected_digitalWrite pin level st : ws_connected (digitalWrite pin level st) = ws_connected st.
Proof. reflexivity. Qed.

Lemma token_digitalWrite pin level st : token (digitalWrite pin level st) = token st.
Proof. reflexivity. Qed.

Lemma adc_digitalWrite pin level st : adc (digitalWrite pin level st) = adc st.
Proof. reflexivity. Qed.

Lemma offlineUntil_digitalWrite pin level st : offlineUntil (digitalWrite pin level st) = offlineUntil st.
Proof. reflexivity. Qed.

Lemma lastMoistureCheck_digitalWrite pin level st : lastMoistureCheck (digitalWrite pin level st) = lastMoistureCheck st.
Proof. reflexivity. Qed.

Lemma gpio_saveActuatorState pin state st : gpio (saveActuatorState pin state st) = gpio st.
Proof. reflexivity. Qed.

Lemma aktuators_saveActuatorState pin state st : aktuators (saveActuatorState pin state st) = aktuators st.
Proof. reflexivity. Qed.

Lemma sensors_saveActuatorState pin state st : sensors (saveActuatorState pin state st) = sensors st.
Proof. reflexivity. Qed.

Lemma actuator_states_json_saveActuatorState pin state st : actuator_states_json (saveActuatorState pin state st) = Some (<[pin := state]> (default ∅ (actuator_states_json st))).
Proof. reflexivity. Qed.

Lemma trace_saveActuatorState pin state st : trace (saveActuatorState pin state st) = trace st ++ [(clock st, SaveActuatorState pin state)].
Proof. reflexivity. Qed.

Lemma clock_saveActuatorState pin state st : clock (saveActuatorState pin state st) = clock st.
Proof. reflexivity. Qed.

Lemma mode_saveActuatorState pin state st : mode (saveActuatorState pin state st) = mode st.
Proof. reflexivity. Qed.

Lemma ws_connected_saveActuatorState pin state st : ws_connected (saveActuatorState pin state st) = ws_connected st.
Proof. reflexivity. Qed.

Lemma token_saveActuatorState pin state st : token (saveActuatorState pin state st) = token st.
Proof. reflexivity. Qed.

Lemma adc_saveActuatorState pin state st : adc (saveActuatorState pin state st) = adc st.
Proof. reflexivity. Qed.

Lemma offlineUntil_saveActuatorState pin state st : offlineUntil (saveActuatorState pin state st) = offlineUntil st.
Proof. reflexivity. Qed.

Lemma lastMoistureCheck_saveActuatorState pin state st : lastMoistureCheck (saveActuatorState pin state st) = lastMoistureCheck st.
Proof. reflexivity. Qed.

Lemma gpio_emit e st : gpio (emit e st) = gpio st.
Proof. reflexivity. Qed.

Lemma aktuators_emit e st : aktuators (emit e st) = aktuators st.
Proof. reflexivity. Qed.

Lemma sensors_emit e st : sensors (emit e st) = sensors st.
Proof. reflexivity. Qed.

Lemma actuator_states_json_emit e st : actuator_states_json (emit e st) = actuator_states_json st.
Proof. reflexivity. Qed.

Lemma trace_emit e st : trace (emit e st) = trace st ++ [(clock st, e)].
Proof. reflexivity. Qed.

Lemma clock_emit e st : clock (emit e st) = clock st.
Proof. reflexivity. Qed.

Lemma mode_emit e st : mode (emit e st) = mode st.
Proof. reflexivity. Qed.

Lemma ws_connected_emit e st : ws_connected (emit e st) = ws_connected st.
Proof. reflexivity. Qed.

Lemma token_emit e st : token (emit e st) = token st.
Proof. reflexivity. Qed.

Lemma adc_emit e st : adc (emit e st) = adc st.
Proof. reflexivity. Qed.

Lemma offlineUntil_emit e st : offlineUntil (emit e st) = offlineUntil st.
Proof. reflexivity. Qed.

Lemma lastMoistureCheck_emit e st : lastMoistureCheck (emit e st) = lastMoistureCheck st.
Proof. reflexivity. Qed.

Lemma gpio_delay ms st : gpio (delay ms st) = gpio st.
Proof. reflexivity. Qed.

Lemma aktuators_delay ms st : aktuators (delay ms st) = aktuators st.
Proof. reflexivity. Qed.

Lemma sensors_delay ms st : sensors (delay ms st) = sensors st.
Proof. reflexivity. Qed.

Lemma actuator_states_json_delay ms st : actuator_states_json (delay ms st) = actuator_states_json st.
Proof. reflexivity. Qed.

Lemma trace_delay ms st : trace (delay ms st) = trace st.
Proof. reflexivity. Qed.

Lemma clock_delay ms st : clock (delay ms st) = clock st + ms.
Proof. reflexivity. Qed.

Lemma mode_delay ms st : mode (delay ms st) = mode st.
Proof. reflexivity. Qed.

Lemma ws_connected_delay ms st : ws_connected (delay ms st) = ws_connected st.
Proof. reflexivity. Qed.

Lemma token_delay ms st : token (delay ms st) = token st.
Proof. reflexivity. Qed.

Lemma adc_delay ms st : adc (delay ms st) = adc st.
Proof. reflexivity. Qed.

Lemma offlineUntil_delay ms st : offlineUntil (delay ms st) = offlineUntil st.
Proof. reflexivity. Qed.

Lemma lastMoistureCheck_delay ms st : lastMoistureCheck (delay ms st) = lastMoistureCheck st.
Proof. reflexivity. Qed.

Lemma gpio_pinMode pin output st : gpio (pinMode pin output st) = gpio st.
Proof. reflexivity. Qed.

Lemma aktuators_pinMode pin output st : aktuators (pinMode pin output st) = aktuators st.
Proof. reflexivity. Qed.

Lemma sensors_pinMode pin output st : sensors (pinMode pin output st) = sensors st.
Proof. reflexivity. Qed.

Lemma actuator_states_json_pinMode pin output st : actuator_states_json (pinMode pin output st) = actuator_states_json st.
Proof. reflexivity. Qed.

Lemma trace_pinMode pin output st : trace (pinMode pin output st) = trace st ++ [(clock st, PinMode pin output)].
Proof. reflexivity. Qed.

Lemma clock_pinMode pin output st : clock (pinMode pin output st) = clock st.
Proof. reflexivity. Qed.

Lemma mode_pinMode pin output st : mode (pinMode pin output st) = mode st.
Proof. reflexivity. Qed.

Lemma ws_connected_pinMode pin output st : ws_connected (pinMode pin output st) = ws_connected st.
Proof. reflexivity. Qed.

Lemma token_pinMode pin output st : token (pinMode pin output st) = token st.
Proof. reflexivity. Qed.

Lemma adc_pinMode pin output st : adc (pinMode pin output st) = adc st.
Proof. reflexivity. Qed.

Lemma offlineUntil_pinMode pin output st : offlineUntil (pinMode pin output st) = offlineUntil st.
Proof. reflexivity. Qed.

Lemma lastMoistureCheck_pinMode pin output st : lastMoistureCheck (pinMode pin output st) = lastMoistureCheck st.
Proof. reflexivity. Qed.

Lemma gpio_set_aktuators v st : gpio (set_aktuators v st) = gpio st.
Proof. reflexivity. Qed.

Lemma aktuators_set_aktuators v st : aktuators (set_aktuators v st) = v.
Proof. reflexivity. Qed.

Lemma sensors_set_aktuators v st : sensors (set_aktuators v st) = sensors st.
Proof. reflexivity. Qed.

Lemma actuator_states_json_set_aktuators v st : actuator_states_json (set_aktuators v st) = actuator_states_json st.
Proof. reflexivity. Qed.

Lemma trace_set_aktuators v st : trace (set_aktuators v st) = trace st.
Proof. reflexivity. Qed.

Lemma clock_set_aktuators v st : clock (set_aktuators v st) = clock st.
Proof. reflexivity. Qed.

Lemma mode_set_aktuators v st : mode (set_aktuators v st) = mode st.
Proof. reflexivity. Qed.

Lemma ws_connected_set_aktuators v st : ws_connected (set_aktuators v st) = ws_connected st.
Proof. reflexivity. Qed.

Lemma token_set_aktuators v st : token (set_aktuators v st) = token st.
Proof. reflexivity. Qed.

Lemma adc_set_aktuators v st : adc (set_aktuators v st) = adc st.
Proof. reflexivity. Qed.

Lemma offlineUntil_set_aktuators v st : offlineUntil (set_aktuators v st) = offlineUntil st.
Proof. reflexivity. Qed.

Lemma lastMoistureCheck_set_aktuators v st : lastMoistureCheck (set_aktuators v st) = lastMoistureCheck st.
Proof. reflexivity. Qed.

Lemma gpio_set_sensors v st : gpio (set_sensors v st) = gpio st.
Proof. reflexivity. Qed.

Lemma aktuators_set_sensors v st : aktuators (set_sensors v st) = aktuators st.
Proof. reflexivity. Qed.

Lemma sensors_set_sensors v st : sensors (set_sensors v st) = v.
Proof. reflexivity. Qed.

Lemma actuator_states_json_set_sensors v st : actuator_states_json (set_sensors v st) = actuator_states_json st.
Proof. reflexivity. Qed.

Lemma trace_set_sensors v st : trace (set_sensors v st) = trace st.
Proof. reflexivity. Qed.

Lemma clock_set_sensors v st : clock (set_sensors v st) = clock st.
Proof. reflexivity. Qed.

Lemma mode_set_sensors v st : mode (set_sensors v st) = mode st.
Proof. reflexivity. Qed.

Lemma ws_connected_set_sensors v st : ws_connected (set_sensors v st) = ws_connected st.
Proof. reflexivity. Qed.

Lemma token_set_sensors v st : token (set_sensors v st) = token st.
Proof. reflexivity. Qed.

Lemma adc_set_sensors v st : adc (set_sensors v st) = adc st.
Proof. reflexivity. Qed.

Lemma offlineUntil_set_sensors v st : offlineUntil (set_sensors v st) = offlineUntil st.
Proof. reflexivity. Qed.

Lemma lastMoistureCheck_set_sensors v st : lastMoistureCheck (set_sensors v st) = lastMoistureCheck st.
Proof. reflexivity. Qed.

Lemma gpio_set_lastMoistureCheck v st : gpio (set_lastMoistureCheck v st) = gpio st.
Proof. reflexivity. Qed.

Lemma aktuators_set_lastMoistureCheck v st : aktuators (set_lastMoistureCheck v st) = aktuators st.
Proof. reflexivity. Qed.

Lemma sensors_set_lastMoistureCheck v st : sensors (set_lastMoistureCheck v st) = sensors st.
Proof. reflexivity. Qed.

Lemma actuator_states_json_set_lastMoistureCheck v st : actuator_states_json (set_lastMoistureCheck v st) = actuator_states_json st.
Proof. reflexivity. Qed.

Lemma trace_set_lastMoistureCheck v st : trace (set_lastMoistureCheck v st) = trace st.
Proof. reflexivity. Qed.

Lemma clock_set_lastMoistureCheck v st : clock (set_lastMoistureCheck v st) = clock st.
Proof. reflexivity. Qed.

Lemma mode_set_lastMoistureCheck v st : mode (set_lastMoistureCheck v st) = mode st.
Proof. reflexivity. Qed.

Lemma ws_connected_set_lastMoistureCheck v st : ws_connected (set_lastMoistureCheck v st) = ws_connected st.
Proof. reflexivity. Qed.

Lemma token_set_lastMoistureCheck v st : token (set_lastMoistureCheck v st) = token st.
Proof. reflexivity. Qed.

Lemma adc_set_lastMoistureCheck v st : adc (set_lastMoistureCheck v st) = adc st.
Proof. reflexivity. Qed.

Lemma offlineUntil_set_lastMoistureCheck v st : offlineUntil (set_lastMoistureCheck v st) = offlineUntil st.
Proof. reflexivity. Qed.

Lemma lastMoistureCheck_set_lastMoistureCheck v st : lastMoistureCheck (set_lastMoistureCheck v st) = v.
Proof. reflexivity. Qed.

Create Rewrite HintDb proj.
#[global] Hint Rewrite
  gpio_digitalWrite aktuators_digitalWrite sensors_digitalWrite
  actuator_states_json_digitalWrite trace_digitalWrite clock_digitalWrite
  mode_digitalWrite ws_connected_digitalWrite token_digitalWrite
  adc_digitalWrite offlineUntil_digitalWrite lastMoistureCheck_digitalWrite
  gpio_saveActuatorState aktuators_saveActuatorState
  sensors_saveActuatorState actuator_states_json_saveActuatorState
  trace_saveActuatorState clock_saveActuatorState mode_saveActuatorState
  ws_connected_saveActuatorState token_saveActuatorState
  adc_saveActuatorState offlineUntil_saveActuatorState
  lastMoistureCheck_saveActuatorState gpio_emit aktuators_emit sensors_emit
  actuator_states_json_emit trace_emit clock_emit mode_emit ws_connected_emit
  token_emit adc_emit offlineUntil_emit lastMoistureCheck_emit gpio_delay
  aktuators_delay sensors_delay actuator_states_json_delay trace_delay
  clock_delay mode_delay ws_connected_delay token_delay adc_delay
  offlineUntil_delay lastMoistureCheck_delay gpio_pinMode aktuators_pinMode
  sensors_pinMode actuator_states_json_pinMode trace_pinMode clock_pinMode
  mode_pinMode ws_connected_pinMode token_pinMode adc_pinMode
  offlineUntil_pinMode lastMoistureCheck_pinMode gpio_set_aktuators
  aktuators_set_aktuators sensors_set_aktuators
  actuator_states_json_set_aktuators trace_set_aktuators clock_set_aktuators
  mode_set_aktuators ws_connected_set_aktuators token_set_aktuators
  adc_set_aktuators offlineUntil_set_aktuators
  lastMoistureCheck_set_aktuators gpio_set_sensors aktuators_set_sensors
  sensors_set_sensors actuator_states_json_set_sensors trace_set_sensors
  clock_set_sensors mode_set_sensors ws_connected_set_sensors
  token_set_sensors adc_set_sensors offlineUntil_set_sensors
  lastMoistureCheck_set_sensors gpio_set_lastMoistureCheck
  aktuators_set_lastMoistureCheck sensors_set_lastMoistureCheck
  actuator_states_json_set_lastMoistureCheck trace_set_lastMoistureCheck
  clock_set_lastMoistureCheck mode_set_lastMoistureCheck
  ws_connected_set_lastMoistureCheck token_set_lastMoistureCheck
  adc_set_lastMoistureCheck offlineUntil_set_lastMoistureCheck
  lastMoistureCheck_set_lastMoistureCheck : proj.

(** ** What the handlers leave alone

    [conn_view] is the part of the state that the mode machine owns.  Only
    [monitorConnection] and the connect, disconnect cases of
    [webSocketEvent] assign it. *)

Lemma conn_view_set_sensors v st : conn_view (set_sensors v st) = conn_view st.
Proof. reflexivity. Qed.

Lemma conn_view_set_aktuators v st : conn_view (set_aktuators v st) = conn_view st.
Proof. reflexivity. Qed.

Lemma conn_view_set_lastMoistureCheck v st : conn_view (set_lastMoistureCheck v st) = conn_view st.
Proof. reflexivity. Qed.

Lemma conn_view_set_runtimeLoaded v st : conn_view (set_runtimeLoaded v st) = conn_view st.
Proof. reflexivity. Qed.

Lemma conn_view_set_lastHeartbeat v st : conn_view (set_lastHeartbeat v st) = conn_view st.
Proof. reflexivity. Qed.

Lemma conn_view_set_consecutiveErrors v st : conn_view (set_consecutiveErrors v st) = conn_view st.
Proof. reflexivity. Qed.

Lemma conn_view_set_lastStateSyncRequest v st : conn_view (set_lastStateSyncRequest v st) = conn_view st.
Proof. reflexivity. Qed.

Lemma conn_view_set_pendingStateSync v st : conn_view (set_pendingStateSync v st) = conn_view st.
Proof. reflexivity. Qed.

Lemma conn_view_set_lastStateSync v st : conn_view (set_lastStateSync v st) = conn_view st.
Proof. reflexivity. Qed.

Lemma conn_view_set_clock v st : conn_view (set_clock v st) = conn_view st.
Proof. reflexivity. Qed.

Lemma conn_view_set_gpio v st : conn_view (set_gpio v st) = conn_view st.
Proof. reflexivity. Qed.

Lemma conn_view_set_actuator_states_json v st : conn_view (set_actuator_states_json v st) = conn_view st.
Proof. reflexivity. Qed.

Lemma conn_view_set_config_runtime_json v st : conn_view (set_config_runtime_json v st) = conn_view st.
Proof. reflexivity. Qed.

Lemma conn_view_set_wifi_connected v st : conn_view (set_wifi_connected v st) = conn_view st.
Proof. reflexivity. Qed.

Lemma conn_view_set_ws_connected v st : conn_view (set_ws_connected v st) = conn_view st.
Proof. reflexivity. Qed.

Lemma conn_view_set_send_ok v st : conn_view (set_send_ok v st) = conn_view st.
Proof. reflexivity. Qed.

Lemma conn_view_set_adc v st : conn_view (set_adc v st) = conn_view st.
Proof. reflexivity. Qed.

Lemma conn_view_set_trace v st : conn_view (set_trace v st) = conn_view st.
Proof. reflexivity. Qed.

Lemma conn_view_delay ms st : conn_view (delay ms st) = conn_view st.
Proof. reflexivity. Qed.

Lemma conn_view_emit e st : conn_view (emit e st) = conn_view st.
Proof. reflexivity. Qed.

Lemma conn_view_pinMode pin output st : conn_view (pinMode pin output st) = conn_view st.
Proof. reflexivity. Qed.

Lemma conn_view_digitalWrite pin level st : conn_view (digitalWrite pin level st) = conn_view st.
Proof. reflexivity. Qed.

Lemma conn_view_saveActuatorState pin state st : conn_view (saveActuatorState pin state st) = conn_view st.
Proof. reflexivity. Qed.

Lemma conn_view_sendTXT m st : conn_view (snd (sendTXT m st)) = conn_view st.
Proof. reflexivity. Qed.

Create Rewrite HintDb conn.
#[global] Hint Rewrite
  conn_view_set_sensors
  conn_view_set_aktuators
  conn_view_set_lastMoistureCheck
  conn_view_set_runtimeLoaded
  conn_view_set_lastHeartbeat
  conn_view_set_consecutiveErrors
  conn_view_set_lastStateSyncRequest
  conn_view_set_pendingStateSync
  conn_view_set_lastStateSync
  conn_view_set_clock
  conn_view_set_gpio
  conn_view_set_actuator_states_json
  conn_view_set_config_runtime_json
  conn_view_set_wifi_connected
  conn_view_set_ws_connected
  conn_view_set_send_ok
  conn_view_set_adc
  conn_view_set_trace
  conn_view_delay
  conn_view_emit
  conn_view_pinMode
  conn_view_digitalWrite
  conn_view_saveActuatorState
  conn_view_sendTXT : conn.

Lemma conn_view_confirmActuatorState pin state success st :
  conn_view (confirmActuatorState pin state success st) = conn_view st.
Proof.
  unfold confirmActuatorState. destruct (_ || _); [reflexivity|].
  apply conn_view_sendTXT.
Qed.

Lemma conn_view_apply_saved_states doc l :
  forall st, conn_view (snd (apply_saved_states doc l st)) = conn_view st.
Proof.
  induction l as [|a l IH]; intros st; cbn [apply_saved_states]; [reflexivity|].
  destruct (doc !! a_pin a) as [b|].
  - specialize (IH (digitalWrite (a_pin a) b st)).
    destruct (apply_saved_states doc l _) as [r s2]. cbn [snd] in *.
    rewrite IH. apply conn_view_digitalWrite.
  - specialize (IH st). destruct (apply_saved_states doc l _) as [r s2]. exact IH.
Qed.

Lemma conn_view_loadActuatorStates st :
  conn_view (snd (loadActuatorStates st)) = conn_view st.
Proof.
  unfold loadActuatorStates. destruct (actuator_states_json st) as [doc|]; [|reflexivity].
  pose proof (conn_view_apply_saved_states doc (aktuators st) st) as H.
  destruct (apply_saved_states doc (aktuators st) st) as [l s1]. cbn [snd] in *.
  rewrite conn_view_set_aktuators. exact H.
Qed.

Lemma conn_view_load_sensors arr :
  forall st, conn_view (load_sensors arr st) = conn_view st.
Proof.
  induction arr as [|s arr IH]; intros st; cbn [load_sensors]; [reflexivity|].
  cbv zeta. destruct (negb (valid_pin (sc_pin s))); [apply IH|].
  rewrite IH. destruct (sc_type s =? "dht11")%string;
    autorewrite with conn; reflexivity.
Qed.

Lemma conn_view_load_aktuators arr :
  forall st, conn_view (load_aktuators arr st) = conn_view st.
Proof.
  induction arr as [|a arr IH]; intros st; cbn [load_aktuators]; [reflexivity|].
  cbv zeta. destruct (negb (valid_pin (ac_pin a))); [apply IH|].
  rewrite IH. autorewrite with conn. reflexivity.
Qed.

Lemma conn_view_loadRuntimeConfig st :
  conn_view (snd (loadRuntimeConfig st)) = conn_view st.
Proof.
  unfold loadRuntimeConfig.
  destruct (config_runtime_json st) as [file|]; [|reflexivity].
  destruct (rf_size file =? 0); [reflexivity|].
  destruct (rf_size file >? 2048); [reflexivity|].
  destruct (rf_json file) as [doc|]; [|reflexivity].
  cbn [snd]. cbv zeta. autorewrite with conn.
  rewrite conn_view_loadActuatorStates.
  destruct (j_aktuators doc); [rewrite conn_view_load_aktuators|];
    (destruct (j_sensors doc); [rewrite conn_view_load_sensors|]);
    autorewrite with conn; reflexivity.
Qed.

Lemma conn_view_saveRuntimeConfig len parsed st :
  conn_view (saveRuntimeConfig len parsed st) = conn_view st.
Proof.
  unfold saveRuntimeConfig. destruct (len >? 2048); [reflexivity|].
  cbv zeta. rewrite conn_view_loadRuntimeConfig.
  autorewrite with conn. reflexivity.
Qed.

Lemma conn_view_sync_tuple t st : conn_view (sync_tuple t st) = conn_view st.
Proof.
  unfold sync_tuple. cbv zeta. destruct (find _ _); [|reflexivity].
  rewrite conn_view_set_aktuators.
  destruct (negb _); rewrite conn_view_confirmActuatorState;
    autorewrite with conn; reflexivity.
Qed.

Lemma conn_view_applyActuatorStateSync l st :
  conn_view (applyActuatorStateSync l st) = conn_view st.
Proof.
  unfold applyActuatorStateSync. cbv zeta. autorewrite with conn.
  revert st. induction l as [|t l IH]; intros st; cbn [fold_left]; [reflexivity|].
  rewrite IH. apply conn_view_sync_tuple.
Qed.

Lemma conn_view_set_aktuator doc st : conn_view (set_aktuator doc st) = conn_view st.
Proof.
  unfold set_aktuator. cbv zeta.
  destruct (_ || _).
  - destruct (default false _); [apply conn_view_confirmActuatorState | reflexivity].
  - destruct (find _ _).
    + rewrite conn_view_delay.
      destruct (default false _); [rewrite conn_view_confirmActuatorState|];
        autorewrite with conn; reflexivity.
    + destruct (default false _); [apply conn_view_confirmActuatorState | reflexivity].
Qed.

Lemma conn_view_handleServerCommand message st :
  conn_view (handleServerCommand message st) = conn_view st.
Proof.
  unfold handleServerCommand.
  destruct (m_strlen message >? 1024); [reflexivity|].
  destruct (m_json message) as [doc|]; [|reflexivity].
  cbv zeta.
  destruct (j_event doc =? "set_aktuator")%string; [apply conn_view_set_aktuator|].
  destruct (j_event doc =? "runtime_config")%string.
  { rewrite conn_view_set_pendingStateSync. apply conn_view_saveRuntimeConfig. }
  destruct (j_event doc =? "refresh_config")%string.
  { pose proof (conn_view_loadRuntimeConfig st) as H.
    destruct (loadRuntimeConfig st) as [result s1]. cbn [snd] in H.
    destruct result; [rewrite conn_view_set_pendingStateSync|]; exact H. }
  destruct (j_event doc =? "auth_success")%string.
  { autorewrite with conn. reflexivity. }
  destruct (j_event doc =? "actuator_state_sync")%string; [|reflexivity].
  destruct (j_actuators doc); [apply conn_view_applyActuatorStateSync | reflexivity].
Qed.

Lemma conn_view_sample_loop n pin :
  forall sum st, conn_view (snd (sample_loop n pin sum st)) = conn_view st.
Proof.
  induction n as [|n IH]; intros sum st; cbn [sample_loop]; [reflexivity|].
  rewrite IH. apply conn_view_delay.
Qed.

Lemma conn_view_readSoilMoisture pin st :
  conn_view (snd (readSoilMoisture pin st)) = conn_view st.
Proof.
  unfold readSoilMoisture. cbv zeta.
  pose proof (conn_view_sample_loop (Z.to_nat 5) pin 0 st) as H.
  destruct (sample_loop (Z.to_nat 5) pin 0 st) as [sum s1]. exact H.
Qed.

Lemma conn_view_emergency_watering st :
  conn_view (emergency_watering st) = conn_view st.
Proof.
  unfold emergency_watering. destruct (find is_pump (aktuators st)); [|reflexivity].
  cbv zeta. autorewrite with conn. reflexivity.
Qed.

Lemma conn_view_offline_sensor_check l :
  forall st, conn_view (snd (offline_sensor_check l st)) = conn_view st.
Proof.
  induction l as [|s l IH]; intros st; cbn [offline_sensor_check]; [reflexivity|].
  destruct (_ && _).
  - pose proof (conn_view_readSoilMoisture (s_pin s) st) as Hr.
    destruct (readSoilMoisture (s_pin s) st) as [value s1]. cbn [snd] in Hr.
    cbv zeta.
    match goal with |- context [offline_sensor_check l ?x] =>
      specialize (IH x); destruct (offline_sensor_check l x) as [r s3] end.
    cbn [snd] in *. rewrite IH.
    destruct (value <? s_threshold s); [rewrite conn_view_emergency_watering|];
      exact Hr.
  - destruct (_ || _).
    + specialize (IH (delay 500 st)).
      destruct (offline_sensor_check l (delay 500 st)) as [r s3].
      cbn [snd] in *. rewrite IH. apply conn_view_delay.
    + specialize (IH st). destruct (offline_sensor_check l st) as [r s3]. exact IH.
Qed.

Lemma conn_view_checkOfflineMode st st' :
  checkOfflineMode st = Running st' -> conn_view st' = conn_view st.
Proof.
  unfold checkOfflineMode. destruct (StatusMode_eqb _ _).
  { intros H. injection H as <-. reflexivity. }
  cbv zeta. destruct (_ && _); [discriminate|].
  destruct (_ >=? _).
  - pose proof (conn_view_offline_sensor_check (sensors st) st) as H.
    destruct (offline_sensor_check (sensors st) st) as [l s1]. cbn [snd] in H.
    intros E. injection E as <-. autorewrite with conn. exact H.
  - intros H. injection H as <-. reflexivity.
Qed.

Lemma monitorConnection_degraded st :
  mode st <> ONLINE ->
  mode (monitorConnection st) = mode st
  /\ offlineUntil (monitorConnection st) = offlineUntil st
  /\ serverFailCount (monitorConnection st) = serverFailCount st.
Proof.
  intros Hm. apply StatusMode_eqb_neq in Hm. unfold monitorConnection. cbv zeta.
  destruct (negb (wifi_connected st)).
  - rewrite Hm. auto.
  - destruct (_ && wifi_connected st); cbn [mode set_wifiFailCount]; rewrite Hm;
      cbn [andb]; auto.
Qed.

(** ** Link failures *)

Lemma monitorConnection_link_down_degraded (st : State) :
  wifi_connected st = false -> mode st <> ONLINE -> monitorConnection st = st.
Proof.
  intros Hw Hm. unfold monitorConnection. rewrite Hw. simpl.
  apply StatusMode_eqb_neq in Hm. rewrite Hm. reflexivity.
Qed.

Lemma count_link_transitions_degraded (dts : list Z) :
  forall st, wifi_connected st = false -> mode st <> ONLINE ->
    count_link_transitions dts st = O.
Proof.
  induction dts as [|dt dts IH]; intros st Hw Hm; simpl; [reflexivity|].
  rewrite (monitorConnection_link_down_degraded (delay dt st)) by assumption.
  simpl. apply StatusMode_eqb_neq in Hm. rewrite Hm. simpl.
  apply IH; [assumption | apply StatusMode_eqb_neq; assumption].
Qed.

(** C1.  At a tick of [monitorConnection] with the link down: if the mode
    is [ONLINE] it becomes [OFFLINE_WIFI], [offlineUntil] is the 32-bit
    clock reading thirty minutes ahead (the plain sum when that does not
    pass 2^32), [wifiFailCount] is incremented and every actuator of the
    registry is marked pending; if the mode is already degraded nothing
    changes; and over any run of ticks with the link staying down, the
    transition happens exactly once. *)
Theorem C1_link_down_transition (st : State) :
  wifi_connected st = false ->
  (mode st = ONLINE ->
     let st' := monitorConnection st in
     mode st' = OFFLINE_WIFI
     /\ offlineUntil st' = u32 (millis st + 30 * 60 * 1000)
     /\ (millis st + 30 * 60 * 1000 < 2 ^ 32 ->
         offlineUntil st' = millis st + 30 * 60 * 1000)
     /\ wifiFailCount st' = incr (wifiFailCount st)
     /\ (- 2 ^ 31 <= wifiFailCount st < INT_MAX ->
         wifiFailCount st' = wifiFailCount st + 1)
     /\ aktuators st' = map (set_a_pendingStateSync true) (aktuators st)
     /\ Forall (fun a => a_pendingStateSync a = true) (aktuators st')
     /\ pendingStateSync st' = true
     /\ forall dts, dts <> [] -> count_link_transitions dts st = 1%nat)
  /\ (mode st <> ONLINE ->
      monitorConnection st = st
      /\ forall dts, count_link_transitions dts st = O).
Proof.
  intros Hw. split.
  - intros Hm. cbv zeta.
    assert (Hstep : forall s, wifi_connected s = false -> mode s = ONLINE ->
              monitorConnection s =
              set_pendingStateSync true
                (set_aktuators (mark_all_pending (aktuators s))
                   (set_offlineUntil (u32 (millis s + 30 * 60 * 1000))
                      (set_mode OFFLINE_WIFI
                         (set_wifiFailCount (incr (wifiFailCount s)) s))))).
    { intros s Hs Hms. unfold monitorConnection. rewrite Hs, Hms. reflexivity. }
    rewrite (Hstep st Hw Hm). simpl.
    repeat split; try reflexivity.
    + intros Hlt. apply u32_small. pose proof (millis_range st). lia.
    + intros Hc. apply incr_small. exact Hc.
    + apply mark_all_pending_Forall.
    + intros dts Hne. destruct dts as [|dt dts]; [congruence|]. simpl.
      rewrite (Hstep (delay dt st)) by (simpl; assumption). simpl.
      rewrite Hm. simpl.
      rewrite count_link_transitions_degraded; simpl; [reflexivity | assumption | discriminate].
  - intros Hm. split.
    + apply monitorConnection_link_down_degraded; assumption.
    + intros dts. apply count_link_transitions_degraded; assumption.
Qed.

Lemma C1_link_down_transition_witness :
  wifi_connected (set_wifi_connected false field_state) = false
  /\ mode (monitorConnection (set_wifi_connected false field_state)) = OFFLINE_WIFI
  /\ offlineUntil (monitorConnection (set_wifi_connected false field_state))
     = 3600000 + 1800000.
Proof.
  pose proof (C1_link_down_transition (set_wifi_connected false field_state)
                eq_refl) as [H _].
  destruct (H eq_refl) as (Hm & _ & Ho & _).
  split; [reflexivity|]. split; [exact Hm|].
  apply Ho. vm_compute. reflexivity.
Defined.

(** ** Session failures *)

Lemma webSocketEvent_disconnected length message st :
  length <= 1024 ->
  webSocketEvent WStype_DISCONNECTED length message st =
  let s4 := set_pendingStateSync true
              (set_aktuators (mark_all_pending (aktuators st))
                 (set_consecutiveErrors (incr (consecutiveErrors st))
                    (set_serverFailCount (incr (serverFailCount st)) st))) in
  if incr (serverFailCount st) >=? 5 then
    set_offlineUntil (u32 (millis st + 6 * 60 * 60 * 1000))
      (set_mode OFFLINE_SERVER s4)
  else s4.
Proof.
  intros Hlen. unfold webSocketEvent.
  rewrite gtb_false by assumption.
  reflexivity.
Qed.

Lemma run_below_threshold (ins : list Input) :
  forall st k,
    mode st = ONLINE -> serverFailCount st = Z.of_nat k ->
    forallb socket_input ins = true ->
    (k + disconnects ins < 5)%nat ->
    exists st1, run ins st = Running st1
      /\ mode st1 = ONLINE
      /\ serverFailCount st1 = Z.of_nat (k + disconnects ins)
      /\ offlineUntil st1 = offlineUntil st.
Proof.
  induction ins as [|i ins IH]; intros st k Hm Hc Hall Hlt.
  - exists st. simpl. rewrite Nat.add_0_r. auto.
  - simpl in Hall. apply andb_true_iff in Hall as [Hi Hall].
    cbn [disconnects] in *.
    assert (Hkeep : forall s, conn_view s = conn_view st -> is_disconnect i = false ->
              step i st = Running s ->
              exists st1, run (i :: ins) st = Running st1 /\ mode st1 = ONLINE
                /\ serverFailCount st1 = Z.of_nat (k + (0 + disconnects ins))
                /\ offlineUntil st1 = offlineUntil st).
    { intros s Hv Hd Hs. cbn [run]. rewrite Hs.
      unfold conn_view in Hv. injection Hv as Hv1 Hv2 Hv3 Hv4.
      destruct (IH s k) as (st1 & Hr & H1 & H2 & H3); try congruence.
      { rewrite Hd in Hlt. exact Hlt. }
      exists st1. repeat split; try assumption. congruence. }
    destruct i as [ms|up|up|type len msg| |].
    + destruct (Hkeep (delay ms st)) as (st1 & ?); try reflexivity. exists st1; assumption.
    + destruct (Hkeep (set_wifi_connected up st)) as (st1 & ?); try reflexivity. exists st1; assumption.
    + destruct (Hkeep (set_ws_connected up st)) as (st1 & ?); try reflexivity. exists st1; assumption.
    + destruct (Z.leb_spec len 1024) as [Hlen|Hlen].
      * destruct type; try discriminate Hi;
          try (match goal with |- context [WsEvent ?ty _ _] =>
                 destruct (Hkeep (webSocketEvent ty len msg st)) as (st1 & ?) end;
               [ unfold webSocketEvent;
                 rewrite gtb_false by assumption;
                 try reflexivity
               | reflexivity | reflexivity | exists st1; assumption ]).
        -- (* disconnect *)
           cbn [run step]. rewrite webSocketEvent_disconnected by assumption.
           cbn zeta. cbn [is_disconnect] in *.
           rewrite (proj2 (Z.leb_le len 1024) Hlen) in *.
           assert (Hincr : incr (serverFailCount st) = Z.of_nat (S k)).
           { rewrite Hc. rewrite incr_small by (unfold INT_MAX; lia). lia. }
           rewrite Hincr.
           rewrite geb_false by lia.
           match goal with |- context [run ins ?s] =>
             destruct (IH s (S k)) as (st1 & Hr & H1 & H2 & H3) end;
             [ simpl; assumption | simpl; reflexivity | assumption | lia | ].
           exists st1. split; [exact Hr|]. split; [exact H1|]. split; [|exact H3].
           rewrite H2. lia.
        -- (* text *)
           rewrite conn_view_handleServerCommand. reflexivity.
      * assert (Hd : is_disconnect (WsEvent type len msg) = false).
        { destruct type; cbn [is_disconnect]; try reflexivity.
          apply Z.leb_gt. lia. }
        destruct (Hkeep st eq_refl Hd) as (st1 & Hst1).
        { cbn [step]. unfold webSocketEvent.
          rewrite gtb_true by assumption.
          reflexivity. }
        exists st1. rewrite Hd. exact Hst1.
    + discriminate Hi.
    + destruct (Hkeep st) as (st1 & ?); try reflexivity.
      { cbn [step]. unfold checkOfflineMode. rewrite Hm. reflexivity. }
      exists st1; assumption.
Qed.

Lemma webSocketEvent_connected length message st :
  length <= 1024 ->
  webSocketEvent WStype_CONNECTED length message st =
  snd (sendTXT (MsgAuth (token st))
         (set_offlineUntil 0
            (set_mode ONLINE
               (set_consecutiveErrors 0 (set_serverFailCount 0 st))))).
Proof.
  intros Hlen. unfold webSocketEvent. rewrite gtb_false by assumption.
  reflexivity.
Qed.

(** The disconnect path on its own (the part of C2 that the code meets).
    Count the disconnect events that
    [webSocketEvent] handles after a state with [mode = ONLINE] and
    [serverFailCount = 0], over any run of socket events other than a
    connect, elapsed time, changes of the collaborators and ticks of
    [checkOfflineMode] (ticks of [monitorConnection] are left out: its
    heartbeat check degrades the mode on its own).  While at most four have
    been handled the mode is still [ONLINE], the counter equals their number
    and [offlineUntil] is untouched.  The next disconnect marks every
    actuator pending; if it is one of the first four it leaves the mode
    alone; if it is the fifth it sets [OFFLINE_SERVER] and [offlineUntil] to
    the 32-bit clock reading six hours ahead.  A connect event resets the
    counter to 0. *)
Theorem C2_fifth_disconnect (st : State) (ins : list Input) (length : Z)
    (message : Message) :
  mode st = ONLINE -> serverFailCount st = 0 ->
  forallb socket_input ins = true ->
  (disconnects ins <= 4)%nat ->
  length <= 1024 ->
  exists st1,
    run ins st = Running st1
    /\ mode st1 = ONLINE
    /\ serverFailCount st1 = Z.of_nat (disconnects ins)
    /\ offlineUntil st1 = offlineUntil st
    /\ (let st2 := webSocketEvent WStype_DISCONNECTED length message st1 in
        ((disconnects ins < 4)%nat ->
           mode st2 = ONLINE /\ offlineUntil st2 = offlineUntil st)
        /\ (disconnects ins = 4%nat ->
              mode st2 = OFFLINE_SERVER
              /\ serverFailCount st2 = 5
              /\ offlineUntil st2 = u32 (millis st1 + 6 * 60 * 60 * 1000)
              /\ (millis st1 + 6 * 60 * 60 * 1000 < 2 ^ 32 ->
                  offlineUntil st2 = millis st1 + 6 * 60 * 60 * 1000))
        /\ aktuators st2 = map (set_a_pendingStateSync true) (aktuators st1)
        /\ Forall (fun a => a_pendingStateSync a = true) (aktuators st2))
    /\ serverFailCount (webSocketEvent WStype_CONNECTED length message st1) = 0.
Proof.
  intros Hm Hc Hall Hle Hlen.
  destruct (run_below_threshold ins st O Hm Hc Hall) as (st1 & Hr & H1 & H2 & H3);
    [simpl; lia|].
  simpl in H2. exists st1.
  split; [exact Hr|]. split; [exact H1|]. split; [exact H2|]. split; [exact H3|].
  split.
  - cbv zeta. rewrite webSocketEvent_disconnected by assumption. cbv zeta.
    rewrite H2. rewrite incr_small by (unfold INT_MAX; lia).
    split; [|split; [|split]].
    + intros Hlt. rewrite geb_false by lia. simpl. split; assumption.
    + intros H4. rewrite geb_true by lia. simpl.
      split; [reflexivity|]. split.
      * lia.
      * split; [reflexivity|].
        intros Hlt. apply u32_small. pose proof (millis_range st1). lia.
    + destruct (_ >=? 5); reflexivity.
    + destruct (_ >=? 5); simpl; apply mark_all_pending_Forall.
  - rewrite webSocketEvent_connected by assumption. reflexivity.
Qed.

Lemma C2_fifth_disconnect_witness :
  exists st1,
    run four_disconnects field_state = Running st1
    /\ mode st1 = ONLINE
    /\ serverFailCount st1 = 4
    /\ mode (webSocketEvent WStype_DISCONNECTED 0 no_message st1) = OFFLINE_SERVER
    /\ serverFailCount (webSocketEvent WStype_DISCONNECTED 0 no_message st1) = 5.
Proof.
  destruct (C2_fifth_disconnect field_state four_disconnects 0 no_message)
    as (st1 & Hr & Hm & Hc & Ho & (_ & H5 & _) & _).
  - reflexivity.
  - reflexivity.
  - reflexivity.
  - vm_compute. lia.
  - lia.
  - destruct (H5 eq_refl) as (H5m & H5c & _).
    exists st1. split; [exact Hr|]. split; [exact Hm|]. split; [exact Hc|].
    split; [exact H5m | exact H5c].
Defined.

(** C2, where the code departs from it: on a connected device with no
    failure counted yet, whose socket is down at a tick where the heartbeat
    is due, [monitorConnection] moves the mode from [ONLINE] to
    [OFFLINE_SERVER] at the first counted failure, so the mode is degraded
    with fewer than five failures on the counter. *)
Lemma C2_heartbeat_counterexample :
  mode socket_down_state = ONLINE
  /\ serverFailCount socket_down_state = 0
  /\ run [MonitorTick] socket_down_state
     = Running (monitorConnection socket_down_state)
  /\ mode (monitorConnection socket_down_state) = OFFLINE_SERVER
  /\ serverFailCount (monitorConnection socket_down_state) = 1
  /\ ~ session_threshold_claim.
Proof.
  assert (Hmode : mode (monitorConnection socket_down_state) = OFFLINE_SERVER)
    by (vm_compute; reflexivity).
  assert (Hcount : serverFailCount (monitorConnection socket_down_state) = 1)
    by (vm_compute; reflexivity).
  repeat split; try assumption; try reflexivity.
  intros Hclaim.
  apply (Hclaim [MonitorTick] socket_down_state
           (monitorConnection socket_down_state));
    [reflexivity | reflexivity | reflexivity | rewrite Hcount; lia | exact Hmode].
Qed.

(** ** The restart deadline *)

Lemma monitorConnection_heartbeat_socket_down st :
  wifi_connected st = true -> mode st = ONLINE -> ws_connected st = false ->
  heartbeatInterval <= u32 (millis st - lastHeartbeat st) ->
  mode (monitorConnection st) = OFFLINE_SERVER
  /\ offlineUntil (monitorConnection st) = offlineUntil st
  /\ serverFailCount (monitorConnection st) = incr (serverFailCount st).
Proof.
  intros Hw Hm Hs Hdue. unfold monitorConnection. cbv zeta. rewrite Hw. cbn [negb].
  rewrite andb_true_r.
  destruct (wifiFailCount st >? 0); cbn [mode set_wifiFailCount lastHeartbeat ws_connected];
    rewrite Hm, Hs; cbn [StatusMode_eqb andb];
    rewrite geb_true by assumption; auto.
Qed.

Lemma checkOfflineMode_no_deadline st :
  offlineUntil st = 0 -> exists st', checkOfflineMode st = Running st'.
Proof.
  intros Ho. unfold checkOfflineMode. destruct (StatusMode_eqb _ _); [eauto|].
  cbv zeta. rewrite Ho. replace (0 >? 0) with false by reflexivity.
  rewrite andb_false_r.
  destruct (_ >=? _); [|eauto].
  destruct (offline_sensor_check (sensors st) st) as [l s1]. eauto.
Qed.

Lemma step_quiet_degraded i st :
  quiet_input i = true -> mode st <> ONLINE -> offlineUntil st = 0 ->
  exists st', step i st = Running st' /\ mode st' = mode st /\ offlineUntil st' = 0.
Proof.
  intros Hq Hm Ho.
  assert (Hview : forall s, conn_view s = conn_view st ->
                    mode s = mode st /\ offlineUntil s = 0).
  { intros s Hv. unfold conn_view in Hv. injection Hv as H1 H2 _ _.
    split; congruence. }
  destruct i as [ms|up|up|type len msg| |]; cbn [step].
  - eexists; split; [reflexivity|]. apply Hview. reflexivity.
  - eexists; split; [reflexivity|]. apply Hview. reflexivity.
  - eexists; split; [reflexivity|]. apply Hview. reflexivity.
  - eexists; split; [reflexivity|]. apply Hview.
    unfold webSocketEvent. destruct (len >? 1024); [reflexivity|].
    destruct type; try discriminate Hq; try reflexivity.
    rewrite conn_view_handleServerCommand. reflexivity.
  - eexists; split; [reflexivity|].
    destruct (monitorConnection_degraded st Hm) as (H1 & H2 & _).
    split; congruence.
  - destruct (checkOfflineMode_no_deadline st Ho) as (st' & Hst').
    exists st'. split; [exact Hst'|]. apply Hview.
    apply conn_view_checkOfflineMode. exact Hst'.
Qed.

Lemma run_quiet_degraded ins :
  forall st, forallb quiet_input ins = true -> mode st <> ONLINE ->
    offlineUntil st = 0 ->
    exists st', run ins st = Running st' /\ mode st' = mode st
                /\ offlineUntil st' = 0.
Proof.
  induction ins as [|i ins IH]; intros st Hall Hm Ho.
  - exists st. auto.
  - cbn [forallb] in Hall. apply andb_true_iff in Hall as [Hq Hall].
    destruct (step_quiet_degraded i st Hq Hm Ho) as (s & Hs & Hsm & Hso).
    destruct (IH s Hall) as (st' & Hr & Hm' & Ho'); [congruence | exact Hso |].
    exists st'. cbn [run]. rewrite Hs. split; [exact Hr|]. split; congruence.
Qed.

(** C3, where the code departs from it.  On a connected device
    ([mode = ONLINE], [offlineUntil = 0]) whose socket is down at a tick
    where the heartbeat is due, [monitorConnection] enters [OFFLINE_SERVER]
    and leaves [offlineUntil] at 0; from then on, whatever time elapses and
    however often [monitorConnection] and [checkOfflineMode] run, the device
    does not restart until the socket client reports a connect or a
    disconnect: [checkOfflineMode] restarts only when [offlineUntil > 0]. *)
Theorem C3_heartbeat_path_sets_no_deadline :
  mode socket_down_state = ONLINE
  /\ offlineUntil socket_down_state = 0
  /\ mode (monitorConnection socket_down_state) = OFFLINE_SERVER
  /\ offlineUntil (monitorConnection socket_down_state) = 0
  /\ forall ins, forallb quiet_input ins = true ->
       exists st', run ins (monitorConnection socket_down_state) = Running st'
                   /\ mode st' = OFFLINE_SERVER /\ offlineUntil st' = 0.
Proof.
  destruct (monitorConnection_heartbeat_socket_down socket_down_state)
    as (Hm & Ho & _); try reflexivity.
  { vm_compute. discriminate. }
  split; [reflexivity|]. split; [reflexivity|]. split; [exact Hm|].
  split; [exact Ho|].
  intros ins Hall.
  destruct (run_quiet_degraded ins (monitorConnection socket_down_state) Hall)
    as (st' & Hr & Hm' & Ho').
  - rewrite Hm. discriminate.
  - exact Ho.
  - exists st'. split; [exact Hr|]. split; [congruence | exact Ho'].
Qed.

Lemma C3_heartbeat_path_sets_no_deadline_witness :
  exists st',
    run [Elapse 21600000; MonitorTick; OfflineTick; Elapse 86400000; OfflineTick]
      (monitorConnection socket_down_state) = Running st'
    /\ mode st' = OFFLINE_SERVER /\ offlineUntil st' = 0.
Proof.
  apply (proj2 (proj2 (proj2 (proj2 C3_heartbeat_path_sets_no_deadline)))).
  reflexivity.
Defined.

(** ** Return to [ONLINE] *)

Lemma step_stays_degraded (i : Input) (st st' : State) :
  mode st <> ONLINE -> step i st = Running st' ->
  (forall length message,
     i = WsEvent WStype_CONNECTED length message -> 1024 < length) ->
  mode st' <> ONLINE.
Proof.
  intros Hm Hs Hnc.
  assert (Hview : forall s, conn_view s = conn_view st -> mode s <> ONLINE).
  { intros s Hv. unfold conn_view in Hv. injection Hv as H1 _ _ _. congruence. }
  destruct i as [ms|up|up|type len msg| |]; cbn [step] in Hs.
  - injection Hs as <-. apply Hview. reflexivity.
  - injection Hs as <-. apply Hview. reflexivity.
  - injection Hs as <-. apply Hview. reflexivity.
  - injection Hs as <-.
    destruct (Z.leb_spec len 1024) as [Hlen|Hlen].
    + destruct type;
        try (apply Hview; unfold webSocketEvent;
             rewrite gtb_false by assumption; reflexivity).
      * rewrite webSocketEvent_disconnected by assumption. cbv zeta.
        destruct (_ >=? 5); [discriminate | exact Hm].
      * specialize (Hnc len msg eq_refl). lia.
      * apply Hview. unfold webSocketEvent. rewrite gtb_false by assumption.
        rewrite conn_view_handleServerCommand. reflexivity.
    + unfold webSocketEvent. rewrite gtb_true by assumption. exact Hm.
  - injection Hs as <-.
    destruct (monitorConnection_degraded st Hm) as (H1 & _). congruence.
  - apply Hview. apply conn_view_checkOfflineMode. exact Hs.
Qed.

(** C4, as the code has it.  From a degraded mode, one step of the main
    loop yields [ONLINE] exactly when it is a connect event of the socket
    client (so neither link recovery, nor a tick of the monitor, nor an
    [auth_success] frame does); that step sends the auth frame, resets
    [serverFailCount] and [consecutiveErrors] to 0, clears [offlineUntil]
    and leaves [wifiFailCount] alone. *)
Theorem C4_online_only_on_connect (i : Input) (st st' : State) :
  mode st <> ONLINE -> step i st = Running st' ->
  (mode st' = ONLINE <->
     exists length message,
       i = WsEvent WStype_CONNECTED length message /\ length <= 1024)
  /\ (mode st' = ONLINE ->
        serverFailCount st' = 0 /\ consecutiveErrors st' = 0
        /\ offlineUntil st' = 0 /\ wifiFailCount st' = wifiFailCount st
        /\ trace st' = trace st ++ [(clock st, SendTXT (MsgAuth (token st)))]).
Proof.
  intros Hm Hs.
  assert (Hcases : (exists length message,
                      i = WsEvent WStype_CONNECTED length message
                      /\ length <= 1024)
                   \/ (forall length message,
                         i = WsEvent WStype_CONNECTED length message ->
                         1024 < length)).
  { destruct i as [ms|up|up|type len msg| |];
      try (right; intros l m H; discriminate H).
    destruct type; try (right; intros l m H; discriminate H).
    destruct (Z.leb_spec len 1024) as [Hlen|Hlen].
    - left. exists len, msg. auto.
    - right. intros l m H. injection H as <- _. exact Hlen. }
  destruct Hcases as [(len & msg & -> & Hlen) | Hnc].
  - cbn [step] in Hs. injection Hs as <-.
    rewrite webSocketEvent_connected by assumption.
    split; [split; [intros _; exists len, msg; auto | intros _; reflexivity]|].
    intros _. repeat split; reflexivity.
  - pose proof (step_stays_degraded i st st' Hm Hs Hnc) as Hd.
    split; [split|]; [intros H; contradiction | | intros H; contradiction].
    intros (l & m & Hi & Hl). specialize (Hnc l m Hi). lia.
Qed.

Lemma C4_online_only_on_connect_witness :
  mode link_lost_state = OFFLINE_WIFI
  /\ mode (webSocketEvent WStype_CONNECTED 0 no_message link_lost_state) = ONLINE
  /\ offlineUntil (webSocketEvent WStype_CONNECTED 0 no_message link_lost_state) = 0.
Proof.
  assert (Hd : mode link_lost_state <> ONLINE) by (vm_compute; discriminate).
  destruct (C4_online_only_on_connect (WsEvent WStype_CONNECTED 0 no_message)
              link_lost_state
              (webSocketEvent WStype_CONNECTED 0 no_message link_lost_state)
              Hd eq_refl) as ([_ Hon] & Hreset).
  assert (Hm : mode (webSocketEvent WStype_CONNECTED 0 no_message link_lost_state)
               = ONLINE).
  { apply Hon. exists 0, no_message. split; [reflexivity | lia]. }
  split; [vm_compute; reflexivity|]. split; [exact Hm|].
  apply (Hreset Hm).
Defined.

(** C4 as the specification states it fails: a degraded device whose
    socket connects is [ONLINE] at once, before any [auth_success] frame
    has arrived. *)
Lemma C4_online_before_auth_counterexample :
  mode link_lost_state = OFFLINE_WIFI
  /\ run [Link true; WsEvent WStype_CONNECTED 0 no_message] link_lost_state
     = Running (webSocketEvent WStype_CONNECTED 0 no_message
                  (set_wifi_connected true link_lost_state))
  /\ mode (webSocketEvent WStype_CONNECTED 0 no_message
             (set_wifi_connected true link_lost_state)) = ONLINE
  /\ authenticated [Link true; WsEvent WStype_CONNECTED 0 no_message] = false
  /\ ~ online_requires_auth_claim.
Proof.
  assert (Hd : mode link_lost_state = OFFLINE_WIFI) by (vm_compute; reflexivity).
  assert (Hm : mode (webSocketEvent WStype_CONNECTED 0 no_message
                       (set_wifi_connected true link_lost_state)) = ONLINE)
    by (vm_compute; reflexivity).
  split; [exact Hd|]. split; [reflexivity|]. split; [exact Hm|].
  split; [reflexivity|].
  intros Hclaim.
  specialize (Hclaim [Link true; WsEvent WStype_CONNECTED 0 no_message]
                link_lost_state _ ltac:(rewrite Hd; discriminate) eq_refl Hm).
  discriminate Hclaim.
Qed.

(** ** State sync *)

Lemma find_update_first (p : Aktuator -> bool) (f : Aktuator -> Aktuator)
    (l : list Aktuator) (a : Aktuator) :
  (forall x, p (f x) = p x) -> find p l = Some a ->
  find p (update_first p f l) = Some (f a).
Proof.
  intros Hp. induction l as [|x l IH]; cbn [find update_first]; [discriminate|].
  destruct (p x) eqn:Hx.
  - intros H. injection H as <-. cbn [find]. rewrite Hp, Hx. reflexivity.
  - intros H. cbn [find]. rewrite Hx. apply IH. exact H.
Qed.

Lemma update_first_none (p : Aktuator -> bool) (f : Aktuator -> Aktuator)
    (l : list Aktuator) :
  find p l = None -> update_first p f l = l.
Proof.
  induction l as [|x l IH]; cbn [find update_first]; [reflexivity|].
  destruct (p x); [discriminate|]. intros H. rewrite IH by exact H. reflexivity.
Qed.

Lemma confirmActuatorState_spec pin state success st :
  confirmActuatorState pin state success st
  = set_trace (trace st ++ confirm_events pin state success st) st
  \/ (confirm_events pin state success st = []
      /\ confirmActuatorState pin state success st = st).
Proof.
  unfold confirmActuatorState, confirm_events.
  destruct (StatusMode_eqb (mode st) ONLINE); cbn [negb orb andb].
  - destruct (ws_connected st); cbn [negb]; [left; reflexivity | right; auto].
  - right; auto.
Qed.

Lemma confirm_events_frame pin state success s st :
  mode s = mode st -> ws_connected s = ws_connected st ->
  clock s = clock st -> token s = token st ->
  confirm_events pin state success s = confirm_events pin state success st.
Proof.
  unfold confirm_events, millis. intros -> -> -> ->. reflexivity.
Qed.

Lemma confirmActuatorState_fields pin state success st :
  let st' := confirmActuatorState pin state success st in
  gpio st' = gpio st
  /\ actuator_states_json st' = actuator_states_json st
  /\ aktuators st' = aktuators st
  /\ sensors st' = sensors st
  /\ clock st' = clock st
  /\ trace st' = trace st ++ confirm_events pin state success st.
Proof.
  cbv zeta.
  destruct (confirmActuatorState_spec pin state success st) as [-> | [He ->]].
  - repeat split; reflexivity.
  - rewrite He, app_nil_r. repeat split; reflexivity.
Qed.

(** C5, as the code has it.  For a tuple of an [actuator_state_sync]
    payload whose pin matches an actuator and whose state equals the level
    read back from that pin: no GPIO write and no rewrite of the persisted
    states happen, the first actuator with that pin gets
    [pendingStateSync = false], and [confirmActuatorState] is called with
    success, which sends one [actuator_state_confirm] frame when the mode is
    [ONLINE] and the socket is connected, and nothing otherwise.  A tuple
    whose pin matches no actuator leaves the state as it is. *)
Theorem C5_sync_already_equal (t : SyncTuple) (st : State) :
  (forall a,
     find (has_pin (sy_pin t)) (aktuators st) = Some a ->
     digitalRead (sy_pin t) st = sy_state t ->
     let st' := sync_tuple t st in
     gpio st' = gpio st
     /\ actuator_states_json st' = actuator_states_json st
     /\ aktuators st'
        = update_first (has_pin (sy_pin t)) (set_a_pendingStateSync false)
            (aktuators st)
     /\ find (has_pin (sy_pin t)) (aktuators st')
        = Some (set_a_pendingStateSync false a)
     /\ trace st'
        = trace st ++
          (if StatusMode_eqb (mode st) ONLINE && ws_connected st then
             [(clock st,
               SendTXT (MsgActuatorStateConfirm (token st) (sy_pin t)
                          (sy_state t) true (millis st)))]
           else []))
  /\ (find (has_pin (sy_pin t)) (aktuators st) = None -> sync_tuple t st = st).
Proof.
  split.
  - intros a Hf Hr. cbv zeta. unfold sync_tuple. cbv zeta. rewrite Hf, Hr.
    rewrite eqb_reflx. cbn [negb].
    pose proof (confirmActuatorState_fields (sy_pin t) (sy_state t) true st)
      as (Hg & Hj & Ha & _ & _ & Ht). cbv zeta in *.
    cbn [gpio actuator_states_json aktuators trace set_aktuators].
    rewrite Ha. split; [exact Hg|]. split; [exact Hj|]. split; [reflexivity|].
    split; [|exact Ht].
    apply find_update_first; [reflexivity | exact Hf].
  - intros Hf. unfold sync_tuple. cbv zeta. rewrite Hf. reflexivity.
Qed.

Lemma C5_sync_already_equal_witness :
  gpio (sync_tuple fan_on_tuple field_state) = gpio field_state
  /\ actuator_states_json (sync_tuple fan_on_tuple field_state)
     = actuator_states_json field_state
  /\ trace (sync_tuple fan_on_tuple field_state)
     = [(3600000,
         SendTXT (MsgActuatorStateConfirm "tok" 27 true true 3600000))].
Proof.
  destruct (proj1 (C5_sync_already_equal fan_on_tuple field_state)
              (mkAktuator "fan" 27 true false) eq_refl eq_refl)
    as (Hg & Hj & _ & _ & Ht).
  split; [exact Hg|]. split; [exact Hj|]. rewrite Ht. reflexivity.
Defined.

(** C5 as the specification states it fails: in a degraded mode the same
    tuple clears the flag but no confirmation leaves the device. *)
Lemma C5_no_confirm_when_degraded_counterexample :
  mode link_recovered_state = OFFLINE_WIFI
  /\ wifi_connected link_recovered_state = true
  /\ ws_connected link_recovered_state = true
  /\ find (has_pin 27) (aktuators link_recovered_state)
     = Some (mkAktuator "fan" 27 true true)
  /\ digitalRead 27 link_recovered_state = true
  /\ trace (sync_tuple fan_on_tuple link_recovered_state) = trace link_recovered_state
  /\ ~ sync_always_confirms_claim.
Proof.
  assert (Ht : trace (sync_tuple fan_on_tuple link_recovered_state)
               = trace link_recovered_state) by (vm_compute; reflexivity).
  split; [vm_compute; reflexivity|]. split; [vm_compute; reflexivity|].
  split; [vm_compute; reflexivity|]. split; [vm_compute; reflexivity|].
  split; [vm_compute; reflexivity|]. split; [exact Ht|].
  intros Hclaim.
  destruct (Hclaim fan_on_tuple link_recovered_state (mkAktuator "fan" 27 true true))
    as (at_ms & tok & stamp & H); [vm_compute; reflexivity.. |].
  rewrite Ht in H. apply (f_equal (@List.length _)) in H.
  rewrite length_app in H. cbn [List.length] in H. lia.
Qed.

(** ** Actuator commands *)

Lemma handleServerCommand_set_aktuator message doc st :
  m_strlen message <= 1024 -> m_json message = Some doc ->
  j_event doc = "set_aktuator" ->
  handleServerCommand message st = set_aktuator doc st.
Proof.
  intros Hl Hj He. unfold handleServerCommand.
  rewrite gtb_false by assumption. rewrite Hj. cbv zeta. rewrite He. reflexivity.
Qed.

(** C7, as the code has it.  A [set_aktuator] command whose pin is outside
    0..39 or matches no actuator writes no GPIO and changes neither the
    registry nor the persisted states; when it asks for a confirmation,
    [confirmActuatorState] is called with [success = false].  A command
    whose pin matches an actuator drives the pin, sets the state of the
    first actuator with that pin, clears its [pendingStateSync], rewrites
    the persisted states, and, when it asks for a confirmation, calls
    [confirmActuatorState] with [success = true].  In both cases the
    confirmation frame is sent only when the mode is [ONLINE] and the socket
    is connected ([confirm_events]). *)
Theorem C7_set_aktuator (doc : JsonDoc) (st : State) :
  let pin := j_pin doc in
  let state := j_state doc in
  let requested := default false (j_require_confirmation doc) in
  let st' := set_aktuator doc st in
  (pin < 0 \/ 39 < pin \/ find (has_pin pin) (aktuators st) = None ->
     gpio st' = gpio st
     /\ aktuators st' = aktuators st
     /\ actuator_states_json st' = actuator_states_json st
     /\ trace st' = trace st ++
          (if requested then confirm_events pin state false st else []))
  /\ (forall a,
        0 <= pin <= 39 -> find (has_pin pin) (aktuators st) = Some a ->
        gpio st' = <[pin := state]> (gpio st)
        /\ aktuators st'
           = update_first (has_pin pin)
               (fun x => set_a_pendingStateSync false (set_a_state state x))
               (aktuators st)
        /\ find (has_pin pin) (aktuators st')
           = Some (set_a_pendingStateSync false (set_a_state state a))
        /\ actuator_states_json st'
           = Some (<[pin := state]> (default ∅ (actuator_states_json st)))
        /\ trace st' = trace st ++
             [(clock st, DigitalWrite pin state);
              (clock st, SaveActuatorState pin state)] ++
             (if requested then confirm_events pin state true st else [])).
Proof.
  cbv zeta.
  assert (Hfail : forall s,
            (if default false (j_require_confirmation doc)
             then confirmActuatorState (j_pin doc) (j_state doc) false st
             else st) = s ->
            gpio s = gpio st /\ aktuators s = aktuators st
            /\ actuator_states_json s = actuator_states_json st
            /\ trace s = trace st ++
                 (if default false (j_require_confirmation doc)
                  then confirm_events (j_pin doc) (j_state doc) false st
                  else [])).
  { intros s <-. destruct (default false (j_require_confirmation doc)).
    - pose proof (confirmActuatorState_fields (j_pin doc) (j_state doc) false st)
        as (Hg & Hj & Ha & _ & _ & Ht). cbv zeta in *. auto.
    - rewrite app_nil_r. auto. }
  split.
  - intros Hbad. apply Hfail. unfold set_aktuator. cbv zeta.
    destruct ((j_pin doc <? 0) || (j_pin doc >? 39)) eqn:Hrange; [reflexivity|].
    apply orb_false_iff in Hrange as [H1 H2].
    apply Z.ltb_ge in H1. rewrite Z.gtb_ltb in H2. apply Z.ltb_ge in H2.
    destruct Hbad as [Hb|[Hb|Hb]]; [lia | lia |]. rewrite Hb. reflexivity.
  - intros a Hrange Hf. unfold set_aktuator. cbv zeta.
    replace ((j_pin doc <? 0) || (j_pin doc >? 39)) with false.
    2:{ symmetry. apply orb_false_iff. split; [apply Z.ltb_ge; lia|].
        rewrite Z.gtb_ltb. apply Z.ltb_ge. lia. }
    rewrite Hf.
    remember (saveActuatorState (j_pin doc) (j_state doc)
                (set_aktuators
                   (update_first (has_pin (j_pin doc))
                      (fun x => set_a_pendingStateSync false
                                  (set_a_state (j_state doc) x))
                      (aktuators (digitalWrite (j_pin doc) (j_state doc) st)))
                   (digitalWrite (j_pin doc) (j_state doc) st))) as s3 eqn:Hs3.
    assert (H3 : gpio s3 = <[j_pin doc := j_state doc]> (gpio st)
                 /\ aktuators s3
                    = update_first (has_pin (j_pin doc))
                        (fun x => set_a_pendingStateSync false
                                    (set_a_state (j_state doc) x))
                        (aktuators st)
                 /\ actuator_states_json s3
                    = Some (<[j_pin doc := j_state doc]>
                              (default ∅ (actuator_states_json st)))
                 /\ trace s3 = trace st ++
                      [(clock st, DigitalWrite (j_pin doc) (j_state doc));
                       (clock st, SaveActuatorState (j_pin doc) (j_state doc))]
                 /\ confirm_events (j_pin doc) (j_state doc) true s3
                    = confirm_events (j_pin doc) (j_state doc) true st).
    { subst s3. split; [|split; [|split; [|split]]].
      - autorewrite with proj. reflexivity.
      - autorewrite with proj. reflexivity.
      - autorewrite with proj. reflexivity.
      - autorewrite with proj. rewrite <- app_assoc. reflexivity.
      - apply confirm_events_frame; autorewrite with proj; reflexivity. }
    clear Hs3. destruct H3 as (Hg3 & Ha3 & Hj3 & Ht3 & Hc3).
    assert (Hfind : find (has_pin (j_pin doc))
                      (update_first (has_pin (j_pin doc))
                         (fun x => set_a_pendingStateSync false
                                     (set_a_state (j_state doc) x))
                         (aktuators st))
                    = Some (set_a_pendingStateSync false
                              (set_a_state (j_state doc) a)))
      by (apply (find_update_first (has_pin (j_pin doc))
                   (fun x => set_a_pendingStateSync false
                               (set_a_state (j_state doc) x)));
          [reflexivity | exact Hf]).
    destruct (default false (j_require_confirmation doc)).
    + pose proof (confirmActuatorState_fields (j_pin doc) (j_state doc) true s3)
        as (Hg & Hj & Ha & _ & _ & Ht). cbv zeta in *.
      rewrite gpio_delay, aktuators_delay, actuator_states_json_delay, trace_delay.
      rewrite Hg, Hj, Ha, Ht, Hg3, Ha3, Hj3, Ht3, Hc3, Hfind.
      rewrite <- app_assoc. auto.
    + rewrite gpio_delay, aktuators_delay, actuator_states_json_delay, trace_delay.
      rewrite Hg3, Ha3, Hj3, Ht3, Hfind. rewrite app_nil_r. auto.
Qed.

Lemma C7_set_aktuator_witness :
  let st' := handleServerCommand
               (mkMessage 64 (Some (set_aktuator_doc 12 true (Some true))))
               field_state in
  gpio st' = gpio field_state
  /\ aktuators st' = aktuators field_state
  /\ actuator_states_json st' = actuator_states_json field_state
  /\ trace st'
     = [(3600000, SendTXT (MsgActuatorStateConfirm "tok" 12 true false 3600000))].
Proof.
  cbv zeta.
  rewrite (handleServerCommand_set_aktuator _
             (set_aktuator_doc 12 true (Some true)))
    by (try reflexivity; cbn; lia).
  destruct (proj1 (C7_set_aktuator (set_aktuator_doc 12 true (Some true))
                     field_state))
    as (Hg & Ha & Hj & Ht).
  - right. right. reflexivity.
  - split; [exact Hg|]. split; [exact Ha|]. split; [exact Hj|].
    rewrite Ht. reflexivity.
Defined.

(** C7 as the specification states it fails: in a degraded mode the
    command for the unconfigured pin 12 is dropped without any frame. *)
Lemma C7_no_failure_confirm_when_degraded_counterexample :
  mode link_recovered_state = OFFLINE_WIFI
  /\ ws_connected link_recovered_state = true
  /\ find (has_pin 12) (aktuators link_recovered_state) = None
  /\ trace (set_aktuator (set_aktuator_doc 12 true (Some true)) link_recovered_state)
     = trace link_recovered_state
  /\ ~ failure_always_confirmed_claim.
Proof.
  assert (Ht : trace (set_aktuator (set_aktuator_doc 12 true (Some true))
                        link_recovered_state) = trace link_recovered_state)
    by (vm_compute; reflexivity).
  split; [vm_compute; reflexivity|]. split; [vm_compute; reflexivity|].
  split; [vm_compute; reflexivity|]. split; [exact Ht|].
  intros Hclaim.
  destruct (Hclaim (set_aktuator_doc 12 true (Some true)) link_recovered_state)
    as (at_ms & tok & stamp & H); [reflexivity | vm_compute; reflexivity |].
  rewrite Ht in H. apply (f_equal (@List.length _)) in H.
  rewrite length_app in H. cbn [List.length] in H. lia.
Qed.

(** ** Oversized and malformed frames *)

(** C8, as the code has it.  An event whose payload is longer than 1024
    bytes returns at once, whatever its type: the state is unchanged and
    nothing is parsed.  [handleServerCommand] drops a message longer than
    1024 characters or one that fails to decode without touching the state.
    A text frame of at most 1024 bytes that fails to decode changes exactly
    one thing on its way through [webSocketEvent]: [consecutiveErrors] is
    reset to 0, as for every text frame, before the handler runs. *)
Theorem C8_oversized_and_malformed (type : WStype_t) (length : Z)
    (message : Message) (st : State) :
  (1024 < length -> webSocketEvent type length message st = st)
  /\ (1024 < m_strlen message \/ m_json message = None ->
      handleServerCommand message st = st)
  /\ (length <= 1024 -> m_json message = None ->
      webSocketEvent WStype_TEXT length message st = set_consecutiveErrors 0 st).
Proof.
  assert (Hh : forall s, 1024 < m_strlen message \/ m_json message = None ->
                 handleServerCommand message s = s).
  { intros s [Hl|Hj]; unfold handleServerCommand.
    - rewrite gtb_true by assumption. reflexivity.
    - destruct (m_strlen message >? 1024); [reflexivity|]. rewrite Hj. reflexivity. }
  split; [|split].
  - intros Hl. unfold webSocketEvent. rewrite gtb_true by assumption. reflexivity.
  - apply Hh.
  - intros Hl Hj. unfold webSocketEvent. rewrite gtb_false by assumption.
    apply Hh. right. exact Hj.
Qed.

Lemma C8_oversized_and_malformed_witness :
  webSocketEvent WStype_TEXT 2000
    (mkMessage 2000 (Some (set_aktuator_doc 26 true (Some true)))) field_state
  = field_state
  /\ webSocketEvent WStype_TEXT 10 (mkMessage 10 None) after_errors_state
     = set_consecutiveErrors 0 after_errors_state.
Proof.
  split.
  - apply (proj1 (C8_oversized_and_malformed WStype_TEXT 2000
                    (mkMessage 2000 (Some (set_aktuator_doc 26 true (Some true))))
                    field_state)). lia.
  - apply (proj2 (proj2 (C8_oversized_and_malformed WStype_TEXT 10
                           (mkMessage 10 None) after_errors_state)));
      [lia | reflexivity].
Defined.

(** C8 as the specification states it fails: after three socket errors a
    text frame that does not decode puts the error counter back to 0. *)
Lemma C8_malformed_resets_errors_counterexample :
  consecutiveErrors after_errors_state = 3
  /\ consecutiveErrors
       (webSocketEvent WStype_TEXT 10 (mkMessage 10 None) after_errors_state) = 0
  /\ ~ malformed_frame_no_change_claim.
Proof.
  assert (H3 : consecutiveErrors after_errors_state = 3) by (vm_compute; reflexivity).
  assert (H0 : consecutiveErrors
                 (webSocketEvent WStype_TEXT 10 (mkMessage 10 None)
                    after_errors_state) = 0) by (vm_compute; reflexivity).
  split; [exact H3|]. split; [exact H0|].
  intros Hclaim.
  specialize (Hclaim 10 (mkMessage 10 None) after_errors_state eq_refl).
  rewrite Hclaim in H0. rewrite H3 in H0. discriminate H0.
Qed.

(** ** Loading the runtime configuration *)

Lemma load_sensors_frame arr :
  forall st,
    aktuators (load_sensors arr st) = aktuators st
    /\ actuator_states_json (load_sensors arr st) = actuator_states_json st
    /\ clock (load_sensors arr st) = clock st
    /\ gpio (load_sensors arr st) = gpio st
    /\ exists ev, trace (load_sensors arr st) = trace st ++ ev.
Proof.
  induction arr as [|s arr IH]; intros st; cbn [load_sensors].
  - repeat split; try reflexivity. exists []. rewrite app_nil_r. reflexivity.
  - cbv zeta. destruct (negb (valid_pin (sc_pin s))); [apply IH|].
    match goal with |- context [load_sensors arr ?x] =>
      destruct (IH x) as (Ha & Hj & Hc & Hg & ev & Ht) end.
    rewrite Ha, Hj, Hc, Hg, Ht.
    destruct (sc_type s =? "dht11")%string; autorewrite with proj;
      (repeat split; try reflexivity); eexists; rewrite <- app_assoc; reflexivity.
Qed.

Lemma load_aktuators_spec arr :
  forall st,
    aktuators (load_aktuators arr st)
    = aktuators st ++ map init_aktuator (in_range_entries arr)
    /\ actuator_states_json (load_aktuators arr st) = actuator_states_json st
    /\ clock (load_aktuators arr st) = clock st
    /\ trace (load_aktuators arr st)
       = trace st ++ flat_map (init_events (clock st))
                       (map init_aktuator (in_range_entries arr)).
Proof.
  induction arr as [|a arr IH]; intros st; cbn [load_aktuators in_range_entries List.filter].
  - cbn [map flat_map]. rewrite !app_nil_r. auto.
  - cbv zeta. fold (in_range_entries arr).
    destruct (valid_pin (ac_pin a)); cbn [negb]; [|apply IH].
    match goal with |- context [load_aktuators arr ?x] =>
      destruct (IH x) as (Ha & Hj & Hc & Ht) end.
    rewrite Ha, Hj, Hc, Ht. autorewrite with proj.
    cbn [map flat_map]. unfold init_events at 2. cbn [a_pin a_state init_aktuator].
    rewrite <- !app_assoc. cbn [app]. auto.
Qed.

Lemma apply_saved_states_spec doc l :
  forall st,
    fst (apply_saved_states doc l st) = map (apply_saved (Some doc)) l
    /\ clock (snd (apply_saved_states doc l st)) = clock st
    /\ actuator_states_json (snd (apply_saved_states doc l st))
       = actuator_states_json st
    /\ trace (snd (apply_saved_states doc l st))
       = trace st ++ flat_map (saved_events (Some doc) (clock st)) l.
Proof.
  induction l as [|a l IH]; intros st; cbn [apply_saved_states map flat_map].
  - rewrite app_nil_r. auto.
  - unfold apply_saved at 1, saved_events at 1. destruct (doc !! a_pin a) as [b|].
    + cbv zeta. specialize (IH (digitalWrite (a_pin a) b st)).
      destruct (apply_saved_states doc l _) as [r s2]. cbn [fst snd] in *.
      destruct IH as (Hr & Hc & Hj & Ht). rewrite Hr, Hc, Hj, Ht.
      autorewrite with proj. rewrite <- app_assoc. auto.
    + specialize (IH st). destruct (apply_saved_states doc l st) as [r s2].
      cbn [fst snd] in *. destruct IH as (Hr & Hc & Hj & Ht).
      rewrite Hr, Hc, Hj, Ht. cbn [app]. auto.
Qed.

Lemma apply_saved_states_keeps doc l (p : Z) (b : bool) :
  doc !! p = Some b ->
  forall st, gpio st !! p = Some b ->
    gpio (snd (apply_saved_states doc l st)) !! p = Some b.
Proof.
  intros Hd. induction l as [|a l IH]; intros st Hg; cbn [apply_saved_states].
  - exact Hg.
  - destruct (doc !! a_pin a) as [c|] eqn:Hc.
    + cbv zeta. specialize (IH (digitalWrite (a_pin a) c st)).
      destruct (apply_saved_states doc l _) as [r s2]. cbn [snd] in *.
      apply IH. rewrite gpio_digitalWrite.
      destruct (decide (a_pin a = p)) as [He|Hne].
      * rewrite He in *. rewrite lookup_insert_eq. congruence.
      * rewrite lookup_insert_ne by exact Hne. exact Hg.
    + specialize (IH st). destruct (apply_saved_states doc l st) as [r s2].
      cbn [snd] in *. apply IH. exact Hg.
Qed.

Lemma apply_saved_states_gpio doc l (a : Aktuator) (b : bool) :
  In a l -> doc !! a_pin a = Some b ->
  forall st, gpio (snd (apply_saved_states doc l st)) !! a_pin a = Some b.
Proof.
  intros Hin Hd. induction l as [|x l IH]; [destruct Hin|].
  intros st. cbn [apply_saved_states].
  destruct Hin as [->|Hin].
  - rewrite Hd. cbv zeta.
    pose proof (apply_saved_states_keeps doc l (a_pin a) b Hd
                  (digitalWrite (a_pin a) b st)) as Hk.
    destruct (apply_saved_states doc l _) as [r s2]. cbn [snd] in *.
    apply Hk. rewrite gpio_digitalWrite. apply lookup_insert_eq.
  - destruct (doc !! a_pin x) as [c|].
    + cbv zeta. specialize (IH Hin (digitalWrite (a_pin x) c st)).
      destruct (apply_saved_states doc l _) as [r s2]. exact IH.
    + specialize (IH Hin st). destruct (apply_saved_states doc l st) as [r s2].
      exact IH.
Qed.

Lemma loadActuatorStates_spec st :
  aktuators (snd (loadActuatorStates st))
  = map (apply_saved (actuator_states_json st)) (aktuators st)
  /\ trace (snd (loadActuatorStates st))
     = trace st ++ flat_map (saved_events (actuator_states_json st) (clock st))
                     (aktuators st)
  /\ forall saved a b,
       actuator_states_json st = Some saved -> In a (aktuators st) ->
       saved !! a_pin a = Some b ->
       gpio (snd (loadActuatorStates st)) !! a_pin a = Some b.
Proof.
  unfold loadActuatorStates. destruct (actuator_states_json st) as [doc|] eqn:Hj.
  - pose proof (apply_saved_states_spec doc (aktuators st) st) as (Hr & _ & _ & Ht).
    pose proof (fun a b Hin Hd =>
                  apply_saved_states_gpio doc (aktuators st) a b Hin Hd st) as Hg.
    destruct (apply_saved_states doc (aktuators st) st) as [l s1].
    cbn [fst snd] in *. split; [exact Hr|]. split; [exact Ht|].
    intros saved a b Hs Hin Hd. injection Hs as <-. apply Hg; assumption.
  - cbn [snd]. split; [|split].
    + unfold apply_saved. rewrite map_id. reflexivity.
    + unfold saved_events.
      assert (H0 : forall (l : list Aktuator) (t : Z),
                flat_map (fun _ : Aktuator => @nil (Z * Event)) l = [])
        by (intros l t; induction l; auto).
      rewrite (H0 _ 0), app_nil_r. reflexivity.
    + intros saved a b Hs. discriminate Hs.
Qed.

Lemma loadRuntimeConfig_spec (st : State) (file : RuntimeFile) (doc : JsonDoc)
    (arr : list AktuatorCfg) :
  config_runtime_json st = Some file ->
  rf_size file <> 0 -> rf_size file <= 2048 ->
  rf_json file = Some doc -> j_aktuators doc = Some arr ->
  let st' := snd (loadRuntimeConfig st) in
  let loaded := map init_aktuator (in_range_entries arr) in
  fst (loadRuntimeConfig st) = true
  /\ aktuators st' = map (apply_saved (actuator_states_json st)) loaded
  /\ (exists sensor_events,
        trace st' = trace st ++ sensor_events
                    ++ flat_map (init_events (clock st)) loaded
                    ++ flat_map (saved_events (actuator_states_json st) (clock st))
                         loaded)
  /\ forall saved a b,
       actuator_states_json st = Some saved -> In a loaded ->
       saved !! a_pin a = Some b -> gpio st' !! a_pin a = Some b.
Proof.
  intros Hf Hz Hs Hd Ha. cbv zeta. unfold loadRuntimeConfig.
  rewrite Hf. rewrite (proj2 (Z.eqb_neq _ _) Hz). rewrite gtb_false by assumption.
  rewrite Hd, Ha. cbv zeta. cbn [fst snd].
  remember (match j_sensors doc with
            | Some arr0 => load_sensors arr0 (set_aktuators [] (set_sensors [] st))
            | None => set_aktuators [] (set_sensors [] st)
            end) as st2 eqn:Hst2.
  assert (H2 : aktuators st2 = [] /\ actuator_states_json st2 = actuator_states_json st
               /\ clock st2 = clock st
               /\ exists ev, trace st2 = trace st ++ ev).
  { subst st2. destruct (j_sensors doc) as [arr0|].
    - destruct (load_sensors_frame arr0 (set_aktuators [] (set_sensors [] st)))
        as (H1 & H2 & H3 & _ & ev & H5).
      rewrite H1, H2, H3, H5. repeat split. exists ev. reflexivity.
    - repeat split. exists []. rewrite app_nil_r. reflexivity. }
  clear Hst2. destruct H2 as (Ha2 & Hj2 & Hc2 & ev & Ht2).
  destruct (load_aktuators_spec arr st2) as (Ha3 & Hj3 & Hc3 & Ht3).
  rewrite Ha2 in Ha3. cbn [app] in Ha3.
  destruct (loadActuatorStates_spec (load_aktuators arr st2)) as (Ha4 & Ht4 & Hg4).
  rewrite Ha3, Hj3, Hc3, Ht3, Hj2, Hc2, Ht2 in *.
  split; [reflexivity|].
  split; [exact Ha4|].
  split.
  - exists ev. cbn [trace set_pendingStateSync set_runtimeLoaded].
    rewrite Ht4. rewrite <- !app_assoc. reflexivity.
  - intros saved a b Hsv Hin Hb. apply (Hg4 saved a b Hsv Hin Hb).
Qed.

Lemma a_pin_apply_saved saved a : a_pin (apply_saved saved a) = a_pin a.
Proof.
  unfold apply_saved. destruct saved as [doc|]; [|reflexivity].
  destruct (doc !! a_pin a); reflexivity.
Qed.

Lemma a_pending_apply_saved saved a :
  a_pendingStateSync (apply_saved saved a) = a_pendingStateSync a.
Proof.
  unfold apply_saved. destruct saved as [doc|]; [|reflexivity].
  destruct (doc !! a_pin a); reflexivity.
Qed.

Lemma a_function_apply_saved saved a :
  a_function (apply_saved saved a) = a_function a.
Proof.
  unfold apply_saved. destruct saved as [doc|]; [|reflexivity].
  destruct (doc !! a_pin a); reflexivity.
Qed.

Lemma pins_of_loaded saved arr :
  map a_pin (map (apply_saved saved) (map init_aktuator (in_range_entries arr)))
  = List.filter valid_pin (map ac_pin arr).
Proof.
  induction arr as [|c arr IH]; [reflexivity|].
  cbn [in_range_entries List.filter map]. fold (in_range_entries arr).
  destruct (valid_pin (ac_pin c)); cbn [map]; rewrite IH; [|reflexivity].
  rewrite a_pin_apply_saved. reflexivity.
Qed.

Lemma valid_pin_range pin : valid_pin pin = true <-> 0 <= pin <= 39.
Proof.
  unfold valid_pin. rewrite negb_true_iff, orb_false_iff, Z.gtb_ltb.
  rewrite !Z.ltb_ge. lia.
Qed.

(** C9, as the code has it.  After a load that succeeds, the registry has
    one actuator for each entry of the payload whose pin is in 0..39, in the
    order of the payload: entries with a pin out of range are skipped and
    the others are all kept, also when several name the same pin.  So every
    stored pin is in 0..39, an in-range entry always has its actuator, and an
    out-of-range pin has none. *)
Theorem C9_registry_after_load (st : State) (file : RuntimeFile)
    (doc : JsonDoc) (arr : list AktuatorCfg) :
  config_runtime_json st = Some file ->
  rf_size file <> 0 -> rf_size file <= 2048 ->
  rf_json file = Some doc -> j_aktuators doc = Some arr ->
  let st' := snd (loadRuntimeConfig st) in
  fst (loadRuntimeConfig st) = true
  /\ map a_pin (aktuators st') = List.filter valid_pin (map ac_pin arr)
  /\ map a_function (aktuators st')
     = map ac_function (List.filter (fun c => valid_pin (ac_pin c)) arr)
  /\ Forall (fun a => 0 <= a_pin a <= 39) (aktuators st')
  /\ (forall c, In c arr -> ac_pin c < 0 \/ 39 < ac_pin c ->
        ~ In (ac_pin c) (map a_pin (aktuators st')))
  /\ (forall c, In c arr -> 0 <= ac_pin c <= 39 ->
        exists a, In a (aktuators st') /\ a_pin a = ac_pin c
                  /\ a_function a = ac_function c).
Proof.
  intros Hf Hz Hs Hd Ha. cbv zeta.
  destruct (loadRuntimeConfig_spec st file doc arr Hf Hz Hs Hd Ha)
    as (Hok & Hreg & _ & _). cbv zeta in *.
  assert (Hpins : map a_pin (aktuators (snd (loadRuntimeConfig st)))
                  = List.filter valid_pin (map ac_pin arr))
    by (rewrite Hreg; apply pins_of_loaded).
  split; [exact Hok|]. split; [exact Hpins|]. split; [|split; [|split]].
  - rewrite Hreg. unfold in_range_entries.
    induction (List.filter (fun c => valid_pin (ac_pin c)) arr) as [|c l IH];
      [reflexivity|].
    cbn [map]. rewrite a_function_apply_saved, IH. reflexivity.
  - apply Forall_forall. intros a Hin.
    assert (Hp : In (a_pin a) (map a_pin (aktuators (snd (loadRuntimeConfig st)))))
      by (apply in_map; rewrite <- list_elem_of_In; exact Hin).
    rewrite Hpins in Hp. apply filter_In in Hp as [_ Hv].
    apply valid_pin_range. exact Hv.
  - intros c Hin Hbad Hp. rewrite Hpins in Hp. apply filter_In in Hp as [_ Hv].
    apply valid_pin_range in Hv. lia.
  - intros c Hin Hgood. rewrite Hreg.
    exists (apply_saved (actuator_states_json st) (init_aktuator c)).
    split; [|split].
    + apply in_map, in_map. unfold in_range_entries. apply filter_In.
      split; [exact Hin | apply valid_pin_range; exact Hgood].
    + rewrite a_pin_apply_saved. reflexivity.
    + rewrite a_function_apply_saved. reflexivity.
Qed.

Lemma C9_registry_after_load_witness :
  map a_pin (aktuators (snd (loadRuntimeConfig duplicate_pin_state))) = [5; 5]
  /\ map a_function (aktuators (snd (loadRuntimeConfig duplicate_pin_state)))
     = ["pump"; "fan"].
Proof.
  destruct (C9_registry_after_load duplicate_pin_state
              (mkRuntimeFile 120 (Some duplicate_pin_doc)) duplicate_pin_doc
              [mkAktuatorCfg "pump" 5 (Some true);
               mkAktuatorCfg "lamp" 99 (Some true);
               mkAktuatorCfg "fan" 5 None])
    as (_ & Hp & Hfn & _); try reflexivity.
  - cbn. lia.
  - cbn. lia.
  - split; [exact Hp | exact Hfn].
Defined.

(** C9 as the specification states it fails: a payload with two entries
    for pin 5 leaves two actuators on pin 5 in the registry, and a lookup by
    pin finds the first of them, not the last. *)
Lemma C9_duplicate_pin_counterexample :
  fst (loadRuntimeConfig duplicate_pin_state) = true
  /\ aktuators (snd (loadRuntimeConfig duplicate_pin_state))
     = [mkAktuator "pump" 5 true true; mkAktuator "fan" 5 false true]
  /\ find (has_pin 5) (aktuators (snd (loadRuntimeConfig duplicate_pin_state)))
     = Some (mkAktuator "pump" 5 true true)
  /\ ~ unique_pins_claim.
Proof.
  assert (Hreg : aktuators (snd (loadRuntimeConfig duplicate_pin_state))
                 = [mkAktuator "pump" 5 true true; mkAktuator "fan" 5 false true])
    by (vm_compute; reflexivity).
  split; [vm_compute; reflexivity|]. split; [exact Hreg|].
  split; [rewrite Hreg; reflexivity|].
  intros Hclaim. specialize (Hclaim duplicate_pin_state).
  rewrite Hreg in Hclaim. cbn [map a_pin] in Hclaim.
  assert (Hok : fst (loadRuntimeConfig duplicate_pin_state) = true)
    by (vm_compute; reflexivity).
  specialize (Hclaim Hok). apply NoDup_cons_iff in Hclaim as [Hnin _].
  apply Hnin. left. reflexivity.
Qed.

(** C10.  In a load that succeeds, every in-range entry of the payload
    first yields an actuator whose state is the payload's [current_state]
    ([false] when absent), with [pendingStateSync] set and the pin driven to
    that state; the persisted record is applied after all of them.  So the
    trace of the load is the sensor set-up, then the initial writes, then
    one write of the persisted level for each actuator whose pin has a
    persisted entry; the registry is the initial one with the persisted
    booleans put in place; every actuator is pending; and an actuator whose
    pin has a persisted boolean ends with that boolean as its state and as
    the level of its pin. *)
Theorem C10_persisted_state_wins (st : State) (file : RuntimeFile)
    (doc : JsonDoc) (arr : list AktuatorCfg) :
  config_runtime_json st = Some file ->
  rf_size file <> 0 -> rf_size file <= 2048 ->
  rf_json file = Some doc -> j_aktuators doc = Some arr ->
  let st' := snd (loadRuntimeConfig st) in
  let loaded :=
    map (fun c => mkAktuator (ac_function c) (ac_pin c)
                    (default false (ac_current_state c)) true)
      (List.filter (fun c => valid_pin (ac_pin c)) arr) in
  fst (loadRuntimeConfig st) = true
  /\ (exists sensor_events,
        trace st' = trace st ++ sensor_events
                    ++ flat_map (init_events (clock st)) loaded
                    ++ flat_map (saved_events (actuator_states_json st) (clock st))
                         loaded)
  /\ aktuators st' = map (apply_saved (actuator_states_json st)) loaded
  /\ Forall (fun a => a_pendingStateSync a = true) (aktuators st')
  /\ (forall saved a b,
        actuator_states_json st = Some saved -> In a (aktuators st') ->
        saved !! a_pin a = Some b ->
        a_state a = b /\ gpio st' !! a_pin a = Some b)
  /\ (forall a,
        In a (aktuators st') ->
        match actuator_states_json st with
        | Some saved => saved !! a_pin a = None
        | None => True
        end ->
        In a loaded).
Proof.
  intros Hf Hz Hs Hd Ha. cbv zeta.
  destruct (loadRuntimeConfig_spec st file doc arr Hf Hz Hs Hd Ha)
    as (Hok & Hreg & Htr & Hgpio). cbv zeta in *.
  change (map init_aktuator (in_range_entries arr))
    with (map (fun c => mkAktuator (ac_function c) (ac_pin c)
                          (default false (ac_current_state c)) true)
            (List.filter (fun c => valid_pin (ac_pin c)) arr)) in *.
  split; [exact Hok|]. split; [exact Htr|]. split; [exact Hreg|].
  rewrite Hreg. split; [|split].
  - apply Forall_forall. intros a Hin. apply list_elem_of_In in Hin.
    apply in_map_iff in Hin as (a0 & <- & Hin0).
    rewrite a_pending_apply_saved.
    apply in_map_iff in Hin0 as (c & <- & _). reflexivity.
  - intros saved a b Hsv Hin Hb.
    apply in_map_iff in Hin as (a0 & <- & Hin0).
    rewrite a_pin_apply_saved in *. split.
    + unfold apply_saved. rewrite Hsv, Hb. reflexivity.
    + apply (Hgpio saved a0 b Hsv Hin0 Hb).
  - intros a Hin Hnone.
    apply in_map_iff in Hin as (a0 & <- & Hin0).
    rewrite a_pin_apply_saved in Hnone. unfold apply_saved.
    destruct (actuator_states_json st) as [saved|]; [|exact Hin0].
    rewrite Hnone. exact Hin0.
Qed.

Lemma C10_persisted_state_wins_witness :
  aktuators (snd (loadRuntimeConfig pump_saved_on_state))
  = [mkAktuator "pump" 26 true true; mkAktuator "fan" 27 false true]
  /\ gpio (snd (loadRuntimeConfig pump_saved_on_state)) !! 26 = Some true.
Proof.
  destruct (C10_persisted_state_wins pump_saved_on_state
              (mkRuntimeFile 160 (Some pump_fan_doc)) pump_fan_doc
              [mkAktuatorCfg "pump" 26 (Some false); mkAktuatorCfg "fan" 27 None])
    as (_ & _ & Hreg & _ & Hwin & _); try reflexivity.
  - cbn. lia.
  - cbn. lia.
  - split; [rewrite Hreg; reflexivity|].
    apply (Hwin (<[26 := true]> ∅) (mkAktuator "pump" 26 true true) true).
    + reflexivity.
    + rewrite Hreg. left. reflexivity.
    + reflexivity.
Defined.

(** ** Offline watering *)

Lemma sample_loop_frame n pin :
  forall sum st,
    clock (snd (sample_loop n pin sum st)) = clock st + 10 * Z.of_nat n
    /\ trace (snd (sample_loop n pin sum st)) = trace st
    /\ gpio (snd (sample_loop n pin sum st)) = gpio st
    /\ aktuators (snd (sample_loop n pin sum st)) = aktuators st
    /\ actuator_states_json (snd (sample_loop n pin sum st))
       = actuator_states_json st
    /\ adc (snd (sample_loop n pin sum st)) = adc st
    /\ fst (sample_loop n pin sum st) = sum + Z.of_nat n * adc st pin.
Proof.
  induction n as [|n IH]; intros sum st; cbn [sample_loop].
  - cbn [fst snd]. repeat split; try reflexivity; lia.
  - destruct (IH (sum + adc st pin) (delay 10 st)) as (H1 & H2 & H3 & H4 & H5 & H6 & H7).
    rewrite H1, H2, H3, H4, H5, H6, H7. autorewrite with proj.
    repeat split; try reflexivity; lia.
Qed.

Lemma readSoilMoisture_spec pin st :
  fst (readSoilMoisture pin st) = moisture_percent (adc st pin)
  /\ clock (snd (readSoilMoisture pin st)) = clock st + 50
  /\ trace (snd (readSoilMoisture pin st)) = trace st
  /\ gpio (snd (readSoilMoisture pin st)) = gpio st
  /\ aktuators (snd (readSoilMoisture pin st)) = aktuators st
  /\ actuator_states_json (snd (readSoilMoisture pin st)) = actuator_states_json st
  /\ adc (snd (readSoilMoisture pin st)) = adc st.
Proof.
  unfold readSoilMoisture. cbv zeta.
  destruct (sample_loop_frame (Z.to_nat 5) pin 0 st) as (H1 & H2 & H3 & H4 & H5 & H6 & H7).
  destruct (sample_loop (Z.to_nat 5) pin 0 st) as [sum s1]. cbn [fst snd] in *.
  rewrite H1, H2, H3, H4, H5, H6, H7.
  repeat split; try reflexivity.
  unfold moisture_percent. f_equal. f_equal.
  replace (0 + Z.of_nat (Z.to_nat 5) * adc st pin) with (adc st pin * 5) by lia.
  apply Z.quot_mul. lia.
Qed.

Lemma is_pump_set_a_state v x : is_pump (set_a_state v x) = is_pump x.
Proof. reflexivity. Qed.

Lemma emergency_watering_spec st a :
  find is_pump (aktuators st) = Some a ->
  trace (emergency_watering st) = trace st ++ pump_cycle (clock st) (a_pin a)
  /\ clock (emergency_watering st) = clock st + 10000
  /\ gpio (emergency_watering st)
     = <[a_pin a := false]> (<[a_pin a := true]> (gpio st))
  /\ actuator_states_json (emergency_watering st)
     = Some (<[a_pin a := false]>
               (<[a_pin a := true]> (default ∅ (actuator_states_json st))))
  /\ find is_pump (aktuators (emergency_watering st)) = Some (set_a_state false a)
  /\ adc (emergency_watering st) = adc st.
Proof.
  intros Hf. unfold emergency_watering. rewrite Hf. cbv zeta.
  autorewrite with proj. cbn [default].
  split; [|split; [|split; [|split; [|split]]]]; try reflexivity.
  - unfold pump_cycle. rewrite <- !app_assoc. reflexivity.
  - apply (find_update_first is_pump (set_a_state false) _ (set_a_state true a));
      [reflexivity|].
    apply find_update_first; [reflexivity | exact Hf].
Qed.

Lemma offline_sensor_check_app l1 :
  forall l2 st,
    snd (offline_sensor_check (l1 ++ l2) st)
    = snd (offline_sensor_check l2 (snd (offline_sensor_check l1 st))).
Proof.
  induction l1 as [|s l1 IH]; intros l2 st; [reflexivity|].
  cbn [app offline_sensor_check].
  destruct (_ && _).
  - destruct (readSoilMoisture (s_pin s) st) as [value s1]. cbv zeta.
    match goal with |- context [offline_sensor_check l1 ?x] =>
      specialize (IH l2 x);
      destruct (offline_sensor_check (l1 ++ l2) x) as [r s3];
      destruct (offline_sensor_check l1 x) as [r' s3'] end.
    exact IH.
  - destruct (_ || _).
    + specialize (IH l2 (delay 500 st)).
      destruct (offline_sensor_check (l1 ++ l2) (delay 500 st)) as [r s3].
      destruct (offline_sensor_check l1 (delay 500 st)) as [r' s3']. exact IH.
    + specialize (IH l2 st).
      destruct (offline_sensor_check (l1 ++ l2) st) as [r s3].
      destruct (offline_sensor_check l1 st) as [r' s3']. exact IH.
Qed.

(** What every iteration of the sensor loop keeps: the raw readings, the
    first pump up to its state, and the trace so far as a prefix. *)
Lemma offline_sensor_check_keeps l :
  forall st a,
    find is_pump (aktuators st) = Some a ->
    let s := snd (offline_sensor_check l st) in
    adc s = adc st
    /\ (exists a', find is_pump (aktuators s) = Some a'
                   /\ set_a_state false a' = set_a_state false a)
    /\ exists ev, trace s = trace st ++ ev.
Proof.
  induction l as [|x l IH]; intros st a Hf; cbv zeta; cbn [offline_sensor_check].
  - cbn [snd]. split; [reflexivity|]. split; [exists a; auto|].
    exists []. rewrite app_nil_r. reflexivity.
  - destruct (_ && _).
    + destruct (readSoilMoisture_spec (s_pin x) st) as (_ & _ & Ht & _ & Ha & _ & Hadc).
      destruct (readSoilMoisture (s_pin x) st) as [value s1]. cbn [fst snd] in *.
      cbv zeta.
      assert (Hnext : exists a1 ev1 s2,
                 (if value <? s_threshold x then emergency_watering s1 else s1) = s2
                 /\ find is_pump (aktuators s2) = Some a1
                 /\ set_a_state false a1 = set_a_state false a
                 /\ adc s2 = adc st /\ trace s2 = trace st ++ ev1).
      { destruct (value <? s_threshold x).
        - destruct (emergency_watering_spec s1 a) as (H1 & _ & _ & _ & H5 & H6);
            [rewrite Ha; exact Hf|].
          exists (set_a_state false a), (pump_cycle (clock s1) (a_pin a)),
            (emergency_watering s1).
          rewrite H1, H6, Ht, Hadc. auto.
        - exists a, [], s1. rewrite Ha, Ht, Hadc, app_nil_r. auto. }
      destruct Hnext as (a1 & ev1 & s2 & -> & Hf2 & Hp2 & Hadc2 & Ht2).
      destruct (IH s2 a1 Hf2) as (Hadc3 & (a' & Hf3 & Hp3) & ev & Ht3).
      destruct (offline_sensor_check l s2) as [r s3]. cbn [snd] in *.
      split; [congruence|]. split; [exists a'; split; congruence|].
      exists (ev1 ++ ev). rewrite Ht3, Ht2, <- app_assoc. reflexivity.
    + destruct (_ || _).
      * destruct (IH (delay 500 st) a Hf) as (Hadc3 & Hp3 & ev & Ht3).
        destruct (offline_sensor_check l (delay 500 st)) as [r s3]. cbn [snd] in *.
        split; [exact Hadc3|]. split; [exact Hp3|]. exists ev. exact Ht3.
      * destruct (IH st a Hf) as (Hadc3 & Hp3 & ev & Ht3).
        destruct (offline_sensor_check l st) as [r s3]. cbn [snd] in *.
        split; [exact Hadc3|]. split; [exact Hp3|]. exists ev. exact Ht3.
Qed.

Lemma offline_sensor_check_pump_off l (pump : Aktuator) :
  forall st,
    find is_pump (aktuators st) = Some (set_a_state false pump) ->
    gpio st !! a_pin pump = Some false ->
    (exists saved, actuator_states_json st = Some saved
                   /\ saved !! a_pin pump = Some false) ->
    let s := snd (offline_sensor_check l st) in
    find is_pump (aktuators s) = Some (set_a_state false pump)
    /\ gpio s !! a_pin pump = Some false
    /\ exists saved, actuator_states_json s = Some saved
                     /\ saved !! a_pin pump = Some false.
Proof.
  induction l as [|x l IH]; intros st Hf Hg Hj; cbv zeta; cbn [offline_sensor_check].
  - cbn [snd]. auto.
  - destruct (_ && _).
    + destruct (readSoilMoisture_spec (s_pin x) st) as (_ & _ & _ & Hg1 & Ha1 & Hj1 & _).
      destruct (readSoilMoisture (s_pin x) st) as [value s1]. cbn [fst snd] in *.
      cbv zeta.
      assert (Hnext : exists s2,
                 (if value <? s_threshold x then emergency_watering s1 else s1) = s2
                 /\ find is_pump (aktuators s2) = Some (set_a_state false pump)
                 /\ gpio s2 !! a_pin pump = Some false
                 /\ exists saved, actuator_states_json s2 = Some saved
                                  /\ saved !! a_pin pump = Some false).
      { destruct (value <? s_threshold x).
        - destruct (emergency_watering_spec s1 (set_a_state false pump))
            as (_ & _ & H3 & H4 & H5 & _); [rewrite Ha1; exact Hf|].
          exists (emergency_watering s1). split; [reflexivity|].
          split; [exact H5|]. cbn [a_pin set_a_state] in *.
          rewrite H3, H4. split; [apply lookup_insert_eq|].
          eexists. split; [reflexivity | apply lookup_insert_eq].
        - exists s1. rewrite Ha1, Hg1, Hj1. auto. }
      destruct Hnext as (s2 & -> & Hf2 & Hg2 & Hj2).
      specialize (IH s2 Hf2 Hg2 Hj2).
      destruct (offline_sensor_check l s2) as [r s3]. exact IH.
    + destruct (_ || _).
      * specialize (IH (delay 500 st) Hf Hg Hj).
        destruct (offline_sensor_check l (delay 500 st)) as [r s3]. exact IH.
      * specialize (IH st Hf Hg Hj).
        destruct (offline_sensor_check l st) as [r s3]. exact IH.
Qed.

(** C6.  Take a tick of [checkOfflineMode] in a degraded mode at which no
    restart is due and five minutes have passed since the last check, an
    entry [s] of the sensor list of type ["soil_moisture"] with a positive
    threshold whose reading is below the threshold, and a registry whose
    first ["pump"] actuator is [pump].  Then the tick returns, and right
    after the sensors listed before [s] have been dealt with and [s] has
    been read (fifty milliseconds), the pump pin is driven high and the
    state [true] persisted, and exactly ten seconds later the pin is driven
    low and [false] persisted.  When the tick is over the pin is low, the
    persisted record holds [false] for it and the registry has the pump
    off. *)
Theorem C6_offline_watering (st : State) (pre post : list Sensor) (s : Sensor)
    (pump : Aktuator) :
  mode st <> ONLINE ->
  (offlineUntil st = 0 \/ millis st < offlineUntil st) ->
  moistureInterval <= u32 (millis st - lastMoistureCheck st) ->
  sensors st = pre ++ s :: post ->
  s_type s = "soil_moisture" -> 0 < s_threshold s ->
  fst (readSoilMoisture (s_pin s) st) < s_threshold s ->
  find is_pump (aktuators st) = Some pump ->
  let before := snd (offline_sensor_check pre st) in
  exists st' later,
    checkOfflineMode st = Running st'
    /\ trace st'
       = trace before ++
         [(clock before + 50, DigitalWrite (a_pin pump) true);
          (clock before + 50, SaveActuatorState (a_pin pump) true);
          (clock before + 50 + 10000, DigitalWrite (a_pin pump) false);
          (clock before + 50 + 10000, SaveActuatorState (a_pin pump) false)]
         ++ later
    /\ gpio st' !! a_pin pump = Some false
    /\ (exists saved, actuator_states_json st' = Some saved
                      /\ saved !! a_pin pump = Some false)
    /\ find is_pump (aktuators st') = Some (set_a_state false pump)
    /\ lastMoistureCheck st' = millis st.
Proof.
  intros Hm Hdead Hdue Hs Hty Hthr Hdry Hf. cbv zeta.
  unfold checkOfflineMode.
  rewrite (proj2 (StatusMode_eqb_neq _ _) Hm). cbv zeta.
  replace ((millis st >=? offlineUntil st) && (offlineUntil st >? 0)) with false.
  2:{ symmetry. apply andb_false_iff. destruct Hdead as [H0|Hlt].
      - right. rewrite H0. reflexivity.
      - left. apply geb_false. exact Hlt. }
  rewrite geb_true by exact Hdue.
  rewrite Hs.
  pose proof (offline_sensor_check_app pre (s :: post) st) as Happ.
  destruct (offline_sensor_check_keeps pre st pump Hf)
    as (Hadc & (p1 & Hf1 & Hp1) & _). cbv zeta in *.
  destruct (readSoilMoisture_spec (s_pin s) st) as (Hv0 & _).
  remember (snd (offline_sensor_check pre st)) as before eqn:Hb. clear Hb.
  destruct (offline_sensor_check (pre ++ s :: post) st) as [l sfin].
  cbn [snd] in Happ. subst sfin.
  cbn [offline_sensor_check].
  rewrite Hty. rewrite (gtb_true _ _ Hthr).
  cbn [String.eqb Ascii.eqb Bool.eqb andb].
  destruct (readSoilMoisture_spec (s_pin s) before)
    as (Hv & Hc & Ht & Hg & Ha & Hj & Hadc1).
  destruct (readSoilMoisture (s_pin s) before) as [value s1]. cbn [fst snd] in *.
  cbv zeta.
  assert (Hlow : (value <? s_threshold s) = true).
  { apply Z.ltb_lt. rewrite Hv, Hadc, <- Hv0. exact Hdry. }
  rewrite Hlow.
  assert (Hpin : a_pin p1 = a_pin pump)
    by (apply (f_equal a_pin) in Hp1; exact Hp1).
  destruct (emergency_watering_spec s1 p1) as (Hw1 & Hw2 & Hw3 & Hw4 & Hw5 & Hw6);
    [rewrite Ha; exact Hf1|].
  rewrite Hp1, Hpin in *.
  remember (emergency_watering s1) as s2 eqn:Hs2. clear Hs2.
  destruct (offline_sensor_check_keeps post s2 _ Hw5) as (_ & _ & later & Ht2).
  destruct (offline_sensor_check_pump_off post pump s2 Hw5) as (Hfin1 & Hfin2 & Hfin3).
  { rewrite Hw3. apply lookup_insert_eq. }
  { eexists. split; [exact Hw4 | apply lookup_insert_eq]. }
  cbv zeta in *.
  destruct (offline_sensor_check post s2) as [r sfin]. cbn [snd] in *.
  eexists. exists later. split; [reflexivity|].
  autorewrite with proj.
  split.
  - rewrite Ht2, Hw1, Ht, Hc. unfold pump_cycle. rewrite <- app_assoc. reflexivity.
  - split; [exact Hfin2|]. split; [exact Hfin3|]. split; [exact Hfin1 | reflexivity].
Qed.

Lemma C6_offline_watering_witness :
  mode link_lost_state = OFFLINE_WIFI
  /\ fst (readSoilMoisture 34 link_lost_state) = 22
  /\ exists st' later,
       checkOfflineMode link_lost_state = Running st'
       /\ trace st'
          = [(3600050, DigitalWrite 26 true);
             (3600050, SaveActuatorState 26 true);
             (3610050, DigitalWrite 26 false);
             (3610050, SaveActuatorState 26 false)] ++ later
       /\ gpio st' !! 26 = Some false
       /\ exists saved, actuator_states_json st' = Some saved
                        /\ saved !! 26 = Some false.
Proof.
  split; [vm_compute; reflexivity|]. split; [vm_compute; reflexivity|].
  destruct (C6_offline_watering link_lost_state [] []
              (mkSensor "soil_moisture" 34 30 0)
              (mkAktuator "pump" 26 false true))
    as (st' & later & Hrun & Htr & Hg & Hj & _).
  - vm_compute. discriminate.
  - right. vm_compute. reflexivity.
  - vm_compute. discriminate.
  - vm_compute. reflexivity.
  - reflexivity.
  - cbn. lia.
  - vm_compute. reflexivity.
  - vm_compute. reflexivity.
  - exists st', later. split; [exact Hrun|]. split; [exact Htr|].
    split; [exact Hg | exact Hj].
Defined.

(** * Further properties *)

(** ** Soil moisture readings *)

Lemma constrain_range (x lo hi : Z) : lo <= hi -> lo <= constrain x lo hi <= hi.
Proof.
  intros H. unfold constrain.
  destruct (Z.ltb_spec x lo); [lia|]. destruct (Z.ltb_spec hi x); lia.
Qed.

(** X1.  Whatever the ADC returns, [readSoilMoisture] yields a percentage
    between 0 and 100; it takes fifty milliseconds and touches neither the
    pins, nor the registry, nor the persisted states, nor the trace. *)
Theorem X1_readSoilMoisture_bounds (pin : Z) (st : State) :
  0 <= fst (readSoilMoisture pin st) <= 100
  /\ clock (snd (readSoilMoisture pin st)) = clock st + 50
  /\ trace (snd (readSoilMoisture pin st)) = trace st
  /\ gpio (snd (readSoilMoisture pin st)) = gpio st
  /\ aktuators (snd (readSoilMoisture pin st)) = aktuators st
  /\ actuator_states_json (snd (readSoilMoisture pin st)) = actuator_states_json st.
Proof.
  destruct (readSoilMoisture_spec pin st) as (Hv & Hc & Ht & Hg & Ha & Hj & _).
  rewrite Hv. split; [apply constrain_range; lia|]. auto.
Qed.

Lemma moisture_percent_closed (r : Z) :
  moisture_percent r = constrain (61 - Z.quot ((r - 2300) * 25) 200) 0 100.
Proof.
  unfold moisture_percent, arduino_map, minValue, maxValue.
  change (2100 - 2300 =? 0) with false. cbv iota.
  change (2100 - 2300) with (Z.opp 200). change (86 - 61) with 25.
  rewrite Z.quot_opp_r by lia. f_equal. lia.
Qed.

Lemma moisture_percent_antitone (r1 r2 : Z) :
  r1 <= r2 -> moisture_percent r2 <= moisture_percent r1.
Proof.
  intros Hle. rewrite !moisture_percent_closed.
  assert (Hq : Z.quot ((r1 - 2300) * 25) 200 <= Z.quot ((r2 - 2300) * 25) 200)
    by (apply Z.quot_le_mono; lia).
  unfold constrain.
  repeat match goal with
         | |- context [?a <? ?b] => destruct (Z.ltb_spec a b)
         end; lia.
Qed.

(** X2.  The calibration never inverts: of two raw ADC values, the higher
    (drier) one reads as no more moist than the lower one; a raw value of
    2788 or more reads 0 percent and one of 1988 or less reads 100. *)
Theorem X2_drier_reads_lower (pin : Z) (st1 st2 : State) :
  adc st1 pin <= adc st2 pin ->
  fst (readSoilMoisture pin st2) <= fst (readSoilMoisture pin st1)
  /\ (2788 <= adc st2 pin -> fst (readSoilMoisture pin st2) = 0)
  /\ (adc st1 pin <= 1988 -> fst (readSoilMoisture pin st1) = 100).
Proof.
  intros Hle.
  destruct (readSoilMoisture_spec pin st1) as (Hv1 & _).
  destruct (readSoilMoisture_spec pin st2) as (Hv2 & _).
  rewrite Hv1, Hv2. split; [apply moisture_percent_antitone; exact Hle|].
  split.
  - intros Hdry.
    pose proof (moisture_percent_antitone 2788 (adc st2 pin) Hdry) as H.
    assert (H0 : moisture_percent 2788 = 0) by reflexivity.
    assert (Hr : 0 <= moisture_percent (adc st2 pin) <= 100)
      by (apply constrain_range; lia).
    lia.
  - intros Hwet.
    pose proof (moisture_percent_antitone (adc st1 pin) 1988 Hwet) as H.
    assert (H0 : moisture_percent 1988 = 100) by reflexivity.
    assert (Hr : 0 <= moisture_percent (adc st1 pin) <= 100)
      by (apply constrain_range; lia).
    lia.
Qed.

Lemma X2_drier_reads_lower_witness :
  fst (readSoilMoisture 34 field_state) <= fst (readSoilMoisture 34 boot_state).
Proof.
  apply (X2_drier_reads_lower 34 boot_state field_state). vm_compute. discriminate.
Defined.

(** ** Persisted actuator states *)

Lemma apply_saved_states_frame doc l :
  forall st,
    sensors (snd (apply_saved_states doc l st)) = sensors st
    /\ config_runtime_json (snd (apply_saved_states doc l st))
       = config_runtime_json st
    /\ aktuators (snd (apply_saved_states doc l st)) = aktuators st
    /\ forall p, doc !! p = None ->
         gpio (snd (apply_saved_states doc l st)) !! p = gpio st !! p.
Proof.
  induction l as [|a l IH]; intros st; cbn [apply_saved_states].
  - cbn [snd]. auto.
  - destruct (doc !! a_pin a) as [b|] eqn:Hb.
    + cbv zeta. specialize (IH (digitalWrite (a_pin a) b st)).
      destruct (apply_saved_states doc l _) as [r s2]. cbn [snd] in *.
      destruct IH as (H1 & H2 & H3 & H4). rewrite H1, H2, H3.
      split; [reflexivity|]. split; [reflexivity|]. split; [reflexivity|].
      intros p Hp. rewrite H4 by exact Hp. rewrite gpio_digitalWrite.
      apply lookup_insert_ne. intros He. rewrite He in Hb. congruence.
    + specialize (IH st). destruct (apply_saved_states doc l st) as [r s2].
      exact IH.
Qed.

Lemma loadActuatorStates_frame st :
  sensors (snd (loadActuatorStates st)) = sensors st
  /\ config_runtime_json (snd (loadActuatorStates st)) = config_runtime_json st
  /\ actuator_states_json (snd (loadActuatorStates st)) = actuator_states_json st
  /\ clock (snd (loadActuatorStates st)) = clock st.
Proof.
  unfold loadActuatorStates. destruct (actuator_states_json st) as [doc|] eqn:Hj.
  - destruct (apply_saved_states_frame doc (aktuators st) st) as (H1 & H2 & _).
    destruct (apply_saved_states_spec doc (aktuators st) st) as (_ & Hc & Hj' & _).
    destruct (apply_saved_states doc (aktuators st) st) as [l s1]. cbn [fst snd] in *.
    rewrite sensors_set_aktuators, actuator_states_json_set_aktuators,
      clock_set_aktuators.
    rewrite H1, Hj', Hc, Hj. repeat split; try reflexivity. exact H2.
  - cbn [snd]. rewrite Hj. auto.
Qed.

(** X3.  A state written by [saveActuatorState] comes back: the file then
    holds the new boolean for that pin and what it held before for every
    other pin, and a later [loadActuatorStates] succeeds, leaves the file as
    it is, gives every actuator on that pin the saved state and, if there is
    such an actuator, drives the pin to it. *)
Theorem X3_saved_state_round_trip (pin : Z) (state : bool) (st : State) :
  let st1 := saveActuatorState pin state st in
  let st2 := snd (loadActuatorStates st1) in
  (exists saved,
     actuator_states_json st1 = Some saved
     /\ saved !! pin = Some state
     /\ forall q, q <> pin ->
          saved !! q = default ∅ (actuator_states_json st) !! q)
  /\ fst (loadActuatorStates st1) = true
  /\ actuator_states_json st2 = actuator_states_json st1
  /\ (forall a, In a (aktuators st2) -> a_pin a = pin -> a_state a = state)
  /\ ((exists a, In a (aktuators st) /\ a_pin a = pin) ->
      gpio st2 !! pin = Some state).
Proof.
  cbv zeta.
  assert (Hj : actuator_states_json (saveActuatorState pin state st)
               = Some (<[pin := state]> (default ∅ (actuator_states_json st))))
    by apply actuator_states_json_saveActuatorState.
  destruct (loadActuatorStates_spec (saveActuatorState pin state st))
    as (Ha & _ & Hg).
  destruct (loadActuatorStates_frame (saveActuatorState pin state st))
    as (_ & _ & Hj2 & _).
  rewrite Hj in *. rewrite aktuators_saveActuatorState in *.
  split; [|split; [|split; [|split]]].
  - eexists. split; [reflexivity|]. split; [apply lookup_insert_eq|].
    intros q Hq. apply lookup_insert_ne. congruence.
  - unfold loadActuatorStates. rewrite Hj.
    destruct (apply_saved_states _ _ _). reflexivity.
  - exact Hj2.
  - intros a Hin Hp. rewrite Ha in Hin.
    apply in_map_iff in Hin as (a0 & <- & _).
    rewrite a_pin_apply_saved in Hp. unfold apply_saved.
    rewrite Hp, lookup_insert_eq. reflexivity.
  - intros (a & Hin & Hp). subst pin.
    apply (Hg _ a state eq_refl Hin). apply lookup_insert_eq.
Qed.

(** X4.  Without the file [loadActuatorStates] returns [false] and changes
    nothing.  With the file it returns [true], and what the file does not
    mention is left alone: an actuator whose pin has no entry stays in the
    registry as it was, and a pin without an entry keeps its level. *)
Theorem X4_loadActuatorStates_untouched (st : State) :
  (actuator_states_json st = None -> loadActuatorStates st = (false, st))
  /\ (forall saved,
        actuator_states_json st = Some saved ->
        let st' := snd (loadActuatorStates st) in
        fst (loadActuatorStates st) = true
        /\ List.length (aktuators st') = List.length (aktuators st)
        /\ (forall a, In a (aktuators st) -> saved !! a_pin a = None ->
              In a (aktuators st'))
        /\ (forall p, saved !! p = None -> gpio st' !! p = gpio st !! p)).
Proof.
  split.
  - intros Hn. unfold loadActuatorStates. rewrite Hn. reflexivity.
  - intros saved Hs. cbv zeta.
    destruct (loadActuatorStates_spec st) as (Ha & _ & _).
    rewrite Ha, Hs. unfold loadActuatorStates. rewrite Hs.
    destruct (apply_saved_states_frame saved (aktuators st) st) as (_ & _ & _ & Hg).
    destruct (apply_saved_states saved (aktuators st) st) as [l s1]. cbn [fst snd] in *.
    split; [reflexivity|]. split; [apply length_map|]. split.
    + intros a Hin Hnone. apply in_map_iff. exists a. split; [|exact Hin].
      unfold apply_saved. rewrite Hnone. reflexivity.
    + intros p Hp. rewrite gpio_set_aktuators. apply Hg. exact Hp.
Qed.

Lemma X4_loadActuatorStates_untouched_witness :
  loadActuatorStates field_state = (false, field_state).
Proof.
  apply (proj1 (X4_loadActuatorStates_untouched field_state)). reflexivity.
Defined.

Lemma X3_saved_state_round_trip_witness :
  gpio (snd (loadActuatorStates (saveActuatorState 26 true field_state))) !! 26
  = Some true.
Proof.
  apply (X3_saved_state_round_trip 26 true field_state).
  exists (mkAktuator "pump" 26 false false). split; [left; reflexivity | reflexivity].
Defined.

(** ** Runtime configuration: failure, sensors, reload *)

Lemma load_sensors_closed arr :
  forall st,
    sensors (load_sensors arr st)
    = sensors st ++ flat_map expand_sensor (in_range_sensors arr)
    /\ config_runtime_json (load_sensors arr st) = config_runtime_json st.
Proof.
  induction arr as [|c arr IH]; intros st;
    cbn [load_sensors in_range_sensors List.filter].
  - cbn [flat_map]. rewrite app_nil_r. auto.
  - cbv zeta. fold (in_range_sensors arr).
    destruct (valid_pin (sc_pin c)); cbn [negb]; [|apply IH].
    match goal with |- context [load_sensors arr ?x] =>
      destruct (IH x) as (Hs & Hc) end.
    rewrite Hs, Hc. cbn [flat_map]. unfold expand_sensor at 2.
    destruct (sc_type c =? "dht11")%string;
      rewrite sensors_pinMode, sensors_set_sensors, <- app_assoc; auto.
Qed.

Lemma load_aktuators_frame arr :
  forall st,
    sensors (load_aktuators arr st) = sensors st
    /\ config_runtime_json (load_aktuators arr st) = config_runtime_json st.
Proof.
  induction arr as [|a arr IH]; intros st; cbn [load_aktuators]; [auto|].
  cbv zeta. destruct (negb (valid_pin (ac_pin a))); [apply IH|].
  match goal with |- context [load_aktuators arr ?x] =>
    destruct (IH x) as (Hs & Hc) end.
  rewrite Hs, Hc. autorewrite with proj. auto.
Qed.

Lemma load_aktuators_nil st : load_aktuators [] st = st.
Proof. reflexivity. Qed.

(** What a load that can succeed leaves behind. *)
Lemma loadRuntimeConfig_registries (st : State) (doc : JsonDoc) :
  loadable st doc ->
  let st' := snd (loadRuntimeConfig st) in
  fst (loadRuntimeConfig st) = true
  /\ sensors st'
     = flat_map expand_sensor (in_range_sensors (default [] (j_sensors doc)))
  /\ aktuators st'
     = map (apply_saved (actuator_states_json st))
         (map init_aktuator (in_range_entries (default [] (j_aktuators doc))))
  /\ config_runtime_json st' = config_runtime_json st
  /\ actuator_states_json st' = actuator_states_json st
  /\ runtimeLoaded st' = true
  /\ pendingStateSync st' = true
  /\ clock st' = clock st.
Proof.
  intros (file & Hf & Hz & Hs & Hd). cbv zeta. unfold loadRuntimeConfig.
  rewrite Hf. rewrite (proj2 (Z.eqb_neq _ _) Hz). rewrite gtb_false by assumption.
  rewrite Hd. cbv zeta. cbn [fst snd].
  remember (match j_sensors doc with
            | Some arr0 => load_sensors arr0 (set_aktuators [] (set_sensors [] st))
            | None => set_aktuators [] (set_sensors [] st)
            end) as st2 eqn:Hst2.
  assert (H2 : sensors st2
               = flat_map expand_sensor (in_range_sensors (default [] (j_sensors doc)))
               /\ aktuators st2 = []
               /\ actuator_states_json st2 = actuator_states_json st
               /\ config_runtime_json st2 = config_runtime_json st
               /\ clock st2 = clock st).
  { subst st2. destruct (j_sensors doc) as [arr0|]; cbn [default].
    - destruct (load_sensors_closed arr0 (set_aktuators [] (set_sensors [] st)))
        as (H1 & H2).
      destruct (load_sensors_frame arr0 (set_aktuators [] (set_sensors [] st)))
        as (H3 & H4 & H5 & _).
      rewrite H1, H2, H3, H4, H5. auto.
    - auto. }
  clear Hst2. destruct H2 as (Hs2 & Ha2 & Hj2 & Hc2 & Hk2).
  remember (match j_aktuators doc with
            | Some arr0 => load_aktuators arr0 st2
            | None => st2
            end) as st3 eqn:Hst3.
  assert (H3 : sensors st3 = sensors st2
               /\ aktuators st3
                  = map init_aktuator (in_range_entries (default [] (j_aktuators doc)))
               /\ actuator_states_json st3 = actuator_states_json st
               /\ config_runtime_json st3 = config_runtime_json st
               /\ clock st3 = clock st).
  { subst st3. destruct (j_aktuators doc) as [arr0|]; cbn [default].
    - destruct (load_aktuators_spec arr0 st2) as (H1 & H2 & H3 & _).
      destruct (load_aktuators_frame arr0 st2) as (H4 & H5).
      rewrite H1, H2, H3, H4, H5, Ha2, Hj2, Hc2, Hk2. auto.
    - rewrite Ha2, Hj2, Hc2, Hk2. auto. }
  clear Hst3. destruct H3 as (Hs3 & Ha3 & Hj3 & Hc3 & Hk3).
  destruct (loadActuatorStates_spec st3) as (Ha4 & _ & _).
  destruct (loadActuatorStates_frame st3) as (Hs4 & Hc4 & Hj4 & Hk4).
  split; [reflexivity|].
  cbn [sensors aktuators config_runtime_json actuator_states_json runtimeLoaded
       pendingStateSync clock set_pendingStateSync set_runtimeLoaded].
  rewrite Hs4, Ha4, Hc4, Hj4, Hk4, Hs3, Ha3, Hj3, Hc3, Hk3, Hs2.
  repeat split; try reflexivity. exact Hf.
Qed.

(** X5.  [loadRuntimeConfig] returns [true] exactly when the file exists,
    is not empty, is at most 2048 bytes long and parses; when it returns
    [false] it has changed nothing, so the registries of the last
    successful load stay in use. *)
Theorem X5_load_succeeds_iff (st : State) :
  (fst (loadRuntimeConfig st) = true <-> exists doc, loadable st doc)
  /\ (fst (loadRuntimeConfig st) = false -> snd (loadRuntimeConfig st) = st).
Proof.
  split; [split|].
  - unfold loadRuntimeConfig.
    destruct (config_runtime_json st) as [file|] eqn:Hf; [|discriminate].
    destruct (Z.eqb_spec (rf_size file) 0); [discriminate|].
    destruct (Z.ltb_spec 2048 (rf_size file)) as [Hgt|Hle].
    + rewrite gtb_true by exact Hgt. discriminate.
    + rewrite gtb_false by exact Hle.
      destruct (rf_json file) as [doc|] eqn:Hd; [|discriminate].
      intros _. exists doc, file. repeat split; assumption.
  - intros (doc & Hl). apply (loadRuntimeConfig_registries st doc Hl).
  - unfold loadRuntimeConfig.
    destruct (config_runtime_json st) as [file|]; [|reflexivity].
    destruct (rf_size file =? 0); [reflexivity|].
    destruct (rf_size file >? 2048); [reflexivity|].
    destruct (rf_json file) as [doc|]; [discriminate | reflexivity].
Qed.

Lemma X5_load_succeeds_iff_witness :
  snd (loadRuntimeConfig field_state) = field_state
  /\ fst (loadRuntimeConfig pump_saved_on_state) = true.
Proof.
  split.
  - apply (proj2 (X5_load_succeeds_iff field_state)). reflexivity.
  - apply (proj1 (X5_load_succeeds_iff pump_saved_on_state)).
    exists pump_fan_doc, (mkRuntimeFile 160 (Some pump_fan_doc)).
    split; [reflexivity|]. split; [cbn; lia|]. split; [cbn; lia | reflexivity].
Defined.

(** X6.  After a load that succeeds the sensor registry is rebuilt from the
    payload alone: every entry with a pin in 0..39, in order, gives one
    sensor with its threshold (or -1), except that an entry of type
    ["dht11"] gives two, ["dht_temperature"] and ["dht_humidity"], on its
    pin.  So no stored sensor has type ["dht11"], every stored pin is in
    0..39 and every value starts at 0. *)
Theorem X6_sensor_registry_after_load (st : State) (doc : JsonDoc) :
  loadable st doc ->
  let st' := snd (loadRuntimeConfig st) in
  sensors st'
  = flat_map expand_sensor (in_range_sensors (default [] (j_sensors doc)))
  /\ Forall (fun s => 0 <= s_pin s <= 39 /\ s_type s <> "dht11" /\ s_value s = 0)
       (sensors st').
Proof.
  intros Hl. cbv zeta.
  destruct (loadRuntimeConfig_registries st doc Hl) as (_ & Hs & _).
  cbv zeta in Hs. rewrite Hs. split; [reflexivity|].
  apply Forall_forall. intros s Hin. apply list_elem_of_In in Hin.
  apply in_flat_map in Hin as (c & Hc & Hin).
  apply filter_In in Hc as [_ Hv]. apply valid_pin_range in Hv.
  unfold expand_sensor in Hin.
  destruct (String.eqb_spec (sc_type c) "dht11") as [He|Hne].
  - destruct Hin as [<-|[<-|[]]]; cbn; repeat split; try lia; discriminate.
  - destruct Hin as [<-|[]]. cbn. repeat split; try lia. exact Hne.
Qed.

Lemma X6_sensor_registry_after_load_witness :
  sensors (snd (loadRuntimeConfig sensors_state))
  = [mkSensor "dht_temperature" 16 (-1) 0; mkSensor "dht_humidity" 16 (-1) 0;
     mkSensor "soil_moisture" 34 (-1) 0].
Proof.
  apply (X6_sensor_registry_after_load sensors_state sensors_doc).
  exists (mkRuntimeFile 150 (Some sensors_doc)).
  split; [reflexivity|]. split; [cbn; lia|]. split; [cbn; lia | reflexivity].
Defined.

(** X7.  Loading twice is loading once: after a load that succeeds, a
    second load (a [refresh_config]) succeeds too and yields the same sensor
    and actuator registries, with the same states; the registries that were
    in memory before the first load play no part. *)
Theorem X7_reload_is_idempotent (st : State) (doc : JsonDoc) :
  loadable st doc ->
  let st1 := snd (loadRuntimeConfig st) in
  let st2 := snd (loadRuntimeConfig st1) in
  fst (loadRuntimeConfig st1) = true
  /\ sensors st2 = sensors st1
  /\ aktuators st2 = aktuators st1
  /\ forall other_sensors other_aktuators,
       let st0 := set_aktuators other_aktuators (set_sensors other_sensors st) in
       sensors (snd (loadRuntimeConfig st0)) = sensors st1
       /\ aktuators (snd (loadRuntimeConfig st0)) = aktuators st1.
Proof.
  intros Hl. cbv zeta.
  destruct (loadRuntimeConfig_registries st doc Hl)
    as (_ & Hs1 & Ha1 & Hc1 & Hj1 & _). cbv zeta in *.
  assert (Hl1 : loadable (snd (loadRuntimeConfig st)) doc).
  { destruct Hl as (file & Hf & H). exists file. rewrite Hc1. auto. }
  destruct (loadRuntimeConfig_registries _ doc Hl1)
    as (Hok & Hs2 & Ha2 & _). cbv zeta in *.
  split; [exact Hok|]. split; [congruence|]. split; [rewrite Ha2, Hj1; congruence|].
  intros os oa.
  assert (Hl0 : loadable (set_aktuators oa (set_sensors os st)) doc).
  { destruct Hl as (file & Hf & H). exists file. auto. }
  destruct (loadRuntimeConfig_registries _ doc Hl0) as (_ & Hs0 & Ha0 & _).
  cbv zeta in *. split; [congruence|]. rewrite Ha0, Ha1. reflexivity.
Qed.

Lemma X7_reload_is_idempotent_witness :
  aktuators (snd (loadRuntimeConfig (snd (loadRuntimeConfig pump_saved_on_state))))
  = aktuators (snd (loadRuntimeConfig pump_saved_on_state)).
Proof.
  assert (Hl : loadable pump_saved_on_state pump_fan_doc).
  { exists (mkRuntimeFile 160 (Some pump_fan_doc)).
    split; [reflexivity|]. split; [cbn; lia|]. split; [cbn; lia | reflexivity]. }
  destruct (X7_reload_is_idempotent pump_saved_on_state pump_fan_doc Hl)
    as (_ & _ & H & _).
  exact H.
Defined.

(** ** Commands *)

Lemma confirmActuatorState_files pin state success st :
  config_runtime_json (confirmActuatorState pin state success st)
  = config_runtime_json st.
Proof.
  destruct (confirmActuatorState_spec pin state success st) as [-> | [_ ->]];
    reflexivity.
Qed.

Lemma set_aktuator_matched_files (cmd : JsonDoc) (st : State) (a : Aktuator) :
  0 <= j_pin cmd <= 39 ->
  find (has_pin (j_pin cmd)) (aktuators st) = Some a ->
  actuator_states_json (set_aktuator cmd st)
  = Some (<[j_pin cmd := j_state cmd]> (default ∅ (actuator_states_json st)))
  /\ config_runtime_json (set_aktuator cmd st) = config_runtime_json st.
Proof.
  intros Hr Hf. unfold set_aktuator. cbv zeta.
  replace ((j_pin cmd <? 0) || (j_pin cmd >? 39)) with false.
  2:{ symmetry. apply orb_false_iff. split; [apply Z.ltb_ge; lia|].
      rewrite Z.gtb_ltb. apply Z.ltb_ge. lia. }
  rewrite Hf.
  remember (saveActuatorState (j_pin cmd) (j_state cmd)
              (set_aktuators
                 (update_first (has_pin (j_pin cmd))
                    (fun x => set_a_pendingStateSync false
                                (set_a_state (j_state cmd) x))
                    (aktuators (digitalWrite (j_pin cmd) (j_state cmd) st)))
                 (digitalWrite (j_pin cmd) (j_state cmd) st))) as s3 eqn:Hs3.
  assert (H3 : actuator_states_json s3
               = Some (<[j_pin cmd := j_state cmd]>
                         (default ∅ (actuator_states_json st)))
               /\ config_runtime_json s3 = config_runtime_json st).
  { subst s3. split; [|reflexivity]. autorewrite with proj. reflexivity. }
  clear Hs3. destruct H3 as (Hj3 & Hc3).
  destruct (default false (j_require_confirmation cmd)).
  - rewrite actuator_states_json_delay.
    destruct (confirmActuatorState_fields (j_pin cmd) (j_state cmd) true s3)
      as (_ & Hj & _). cbv zeta in Hj. rewrite Hj, Hj3.
    split; [reflexivity|].
    change (config_runtime_json (delay 50 ?x)) with (config_runtime_json x).
    rewrite confirmActuatorState_files. exact Hc3.
  - rewrite actuator_states_json_delay. rewrite Hj3. split; [reflexivity|].
    exact Hc3.
Qed.

(** X8.  The last commanded state survives a reload of the configuration:
    after a [set_aktuator] command for a configured pin, a load of the
    runtime configuration gives every actuator on that pin the commanded
    state, whatever [current_state] the payload carries, and, when the
    payload configures the pin, drives the pin to the commanded level. *)
Theorem X8_commanded_state_survives_reload (cmd : JsonDoc) (st : State)
    (a : Aktuator) (doc : JsonDoc) :
  0 <= j_pin cmd <= 39 ->
  find (has_pin (j_pin cmd)) (aktuators st) = Some a ->
  loadable st doc ->
  let st1 := set_aktuator cmd st in
  let st2 := snd (loadRuntimeConfig st1) in
  fst (loadRuntimeConfig st1) = true
  /\ (forall b, In b (aktuators st2) -> a_pin b = j_pin cmd ->
        a_state b = j_state cmd)
  /\ ((exists c, In c (default [] (j_aktuators doc)) /\ ac_pin c = j_pin cmd) ->
      gpio st2 !! j_pin cmd = Some (j_state cmd)).
Proof.
  intros Hr Hf Hl. cbv zeta.
  destruct (set_aktuator_matched_files cmd st a Hr Hf) as (Hj & Hc).
  assert (Hl1 : loadable (set_aktuator cmd st) doc).
  { destruct Hl as (file & Hfile & H). exists file. rewrite Hc. auto. }
  destruct (loadRuntimeConfig_registries _ doc Hl1) as (Hok & _ & Ha & _).
  cbv zeta in *. split; [exact Hok|]. split.
  - intros b Hin Hp. rewrite Ha in Hin.
    apply in_map_iff in Hin as (b0 & <- & _).
    rewrite a_pin_apply_saved in Hp. unfold apply_saved.
    rewrite Hj, Hp, lookup_insert_eq. reflexivity.
  - intros (c & Hin & Hp).
    destruct (j_aktuators doc) as [arr|] eqn:Harr; [|destruct Hin].
    cbn [default] in Hin.
    destruct Hl1 as (file & Hfile & Hz & Hs & Hd).
    destruct (loadRuntimeConfig_spec _ file doc arr Hfile Hz Hs Hd Harr)
      as (_ & _ & _ & Hg). cbv zeta in Hg.
    rewrite <- Hp.
    apply (Hg _ (init_aktuator c) (j_state cmd) Hj).
    + apply in_map. unfold in_range_entries. apply filter_In.
      split; [exact Hin|]. apply valid_pin_range. lia.
    + cbn [a_pin init_aktuator]. rewrite Hp. apply lookup_insert_eq.
Qed.

Lemma X8_commanded_state_survives_reload_witness :
  gpio (snd (loadRuntimeConfig
               (set_aktuator (set_aktuator_doc 26 true None) configured_state)))
    !! 26 = Some true.
Proof.
  apply (X8_commanded_state_survives_reload (set_aktuator_doc 26 true None)
           configured_state (mkAktuator "pump" 26 false false) pump_fan_doc).
  - cbn. lia.
  - reflexivity.
  - exists (mkRuntimeFile 160 (Some pump_fan_doc)).
    split; [reflexivity|]. split; [cbn; lia|]. split; [cbn; lia | reflexivity].
  - exists (mkAktuatorCfg "pump" 26 (Some false)). split; [left|]; reflexivity.
Defined.

(** X9.  A [runtime_config] command of 1 to 1024 characters replaces the
    configuration: the file then holds the message, both registries are
    rebuilt from the message (the persisted actuator states, which the
    command leaves as they are, put in place), and [runtimeLoaded] and the
    request for a state sync are set. *)
Theorem X9_runtime_config_command (message : Message) (doc : JsonDoc)
    (st : State) :
  0 < m_strlen message <= 1024 ->
  m_json message = Some doc -> j_event doc = "runtime_config" ->
  let st' := handleServerCommand message st in
  config_runtime_json st' = Some (mkRuntimeFile (m_strlen message) (Some doc))
  /\ sensors st'
     = flat_map expand_sensor (in_range_sensors (default [] (j_sensors doc)))
  /\ aktuators st'
     = map (apply_saved (actuator_states_json st))
         (map init_aktuator (in_range_entries (default [] (j_aktuators doc))))
  /\ actuator_states_json st' = actuator_states_json st
  /\ runtimeLoaded st' = true
  /\ pendingStateSync st' = true.
Proof.
  intros Hlen Hj He. cbv zeta. unfold handleServerCommand.
  rewrite gtb_false by lia. rewrite Hj. cbv zeta. rewrite He.
  change ("runtime_config" =? "set_aktuator")%string with false.
  change ("runtime_config" =? "runtime_config")%string with true. cbv iota.
  unfold saveRuntimeConfig. rewrite gtb_false by lia. cbv zeta.
  remember (emit SaveRuntimeConfig
              (set_config_runtime_json
                 (Some (mkRuntimeFile (m_strlen message) (Some doc))) st))
    as s1 eqn:Hs1.
  assert (H1 : config_runtime_json s1
               = Some (mkRuntimeFile (m_strlen message) (Some doc))
               /\ actuator_states_json s1 = actuator_states_json st)
    by (subst s1; auto).
  clear Hs1. destruct H1 as (Hc1 & Hj1).
  assert (Hl : loadable s1 doc).
  { exists (mkRuntimeFile (m_strlen message) (Some doc)).
    split; [exact Hc1|]. cbn [rf_size rf_json]. repeat split; lia || reflexivity. }
  destruct (loadRuntimeConfig_registries s1 doc Hl)
    as (_ & Hs & Ha & Hc & Hjj & Hrl & _). cbv zeta in *.
  cbn [config_runtime_json sensors aktuators actuator_states_json runtimeLoaded
       pendingStateSync set_pendingStateSync].
  rewrite Hs, Ha, Hc, Hjj, Hrl, Hc1, Hj1. repeat split; reflexivity.
Qed.

Lemma X9_runtime_config_command_witness :
  aktuators (handleServerCommand runtime_config_message field_state)
  = [mkAktuator "pump" 26 false true; mkAktuator "fan" 27 false true].
Proof.
  destruct (X9_runtime_config_command runtime_config_message pump_fan_doc
              field_state) as (_ & _ & Ha & _).
  - cbn. lia.
  - reflexivity.
  - reflexivity.
  - rewrite Ha. reflexivity.
Defined.

(** X10.  No command, whatever it says, touches the mode machine or the
    collaborators' picture: the mode, the restart deadline and both failure
    counters are the same before and after [handleServerCommand].  A message
    whose event is none of the five that the handler acts upon (so
    [data_ack], [heartbeat_ack], [error] and anything unknown), or an
    [actuator_state_sync] without an [actuators] array, changes nothing at
    all. *)
Theorem X10_commands_leave_the_mode_alone (message : Message) (st : State) :
  mode (handleServerCommand message st) = mode st
  /\ offlineUntil (handleServerCommand message st) = offlineUntil st
  /\ serverFailCount (handleServerCommand message st) = serverFailCount st
  /\ wifiFailCount (handleServerCommand message st) = wifiFailCount st
  /\ (forall doc, m_json message = Some doc ->
        handled_event (j_event doc) = false
        \/ (j_event doc = "actuator_state_sync" /\ j_actuators doc = None) ->
        handleServerCommand message st = st).
Proof.
  pose proof (conn_view_handleServerCommand message st) as Hv.
  unfold conn_view in Hv. injection Hv as H1 H2 H3 H4.
  split; [exact H1|]. split; [exact H2|]. split; [exact H3|]. split; [exact H4|].
  intros doc Hj Hcase. unfold handleServerCommand.
  destruct (m_strlen message >? 1024); [reflexivity|]. rewrite Hj. cbv zeta.
  destruct Hcase as [Hun | [He Hn]].
  - unfold handled_event in Hun.
    repeat (apply orb_false_iff in Hun as [Hun ?]).
    repeat match goal with H : (_ =? _)%string = false |- _ => rewrite H; clear H end.
    reflexivity.
  - rewrite He, Hn. reflexivity.
Qed.

Lemma X10_commands_leave_the_mode_alone_witness :
  handleServerCommand
    (mkMessage 30 (Some (mkJsonDoc "heartbeat_ack" 0 false None None None None)))
    link_lost_state = link_lost_state.
Proof.
  apply (proj2 (proj2 (proj2 (proj2
           (X10_commands_leave_the_mode_alone
              (mkMessage 30
                 (Some (mkJsonDoc "heartbeat_ack" 0 false None None None None)))
              link_lost_state))))
           (mkJsonDoc "heartbeat_ack" 0 false None None None None) eq_refl).
  left. reflexivity.
Defined.

(** ** Applying a state sync *)

Lemma update_first_pins (p : Aktuator -> bool) (f : Aktuator -> Aktuator)
    (l : list Aktuator) :
  (forall x, a_pin (f x) = a_pin x) ->
  map a_pin (update_first p f l) = map a_pin l.
Proof.
  intros Hf. induction l as [|x l IH]; cbn [update_first map]; [reflexivity|].
  destruct (p x); cbn [map]; [rewrite Hf | rewrite IH]; reflexivity.
Qed.

Lemma update_first_keeps (p : Aktuator -> bool) (f : Aktuator -> Aktuator)
    (l : list Aktuator) (a : Aktuator) :
  In a l -> p a = false -> In a (update_first p f l).
Proof.
  intros Hin Hp. induction l as [|x l IH]; [destruct Hin|].
  cbn [update_first]. destruct Hin as [->|Hin].
  - rewrite Hp. left. reflexivity.
  - destruct (p x); right; auto.
Qed.

Lemma update_first_fixed (p : Aktuator -> bool) (f : Aktuator -> Aktuator)
    (l : list Aktuator) (a : Aktuator) :
  find p l = Some a -> f a = a -> update_first p f l = l.
Proof.
  intros Hf Ha. induction l as [|x l IH]; [discriminate|].
  cbn [find update_first] in *. destruct (p x).
  - injection Hf as ->. rewrite Ha. reflexivity.
  - rewrite IH by exact Hf. reflexivity.
Qed.

(** One tuple that matches an actuator, in both branches. *)
Lemma sync_tuple_matched (t : SyncTuple) (st : State) (a : Aktuator) :
  find (has_pin (sy_pin t)) (aktuators st) = Some a ->
  let st' := sync_tuple t st in
  let differ := negb (eqb (digitalRead (sy_pin t) st) (sy_state t)) in
  gpio st' = (if differ then <[sy_pin t := sy_state t]> (gpio st) else gpio st)
  /\ actuator_states_json st'
     = (if differ
        then Some (<[sy_pin t := sy_state t]> (default ∅ (actuator_states_json st)))
        else actuator_states_json st)
  /\ aktuators st'
     = update_first (has_pin (sy_pin t)) (set_a_pendingStateSync false)
         (if differ
          then update_first (has_pin (sy_pin t)) (set_a_state (sy_state t))
                 (aktuators st)
          else aktuators st)
  /\ sensors st' = sensors st
  /\ clock st' = clock st
  /\ exists ev,
       trace st' = trace st ++ ev
       /\ (differ = false -> ev = confirm_events (sy_pin t) (sy_state t) true st).
Proof.
  intros Hf. cbv zeta. unfold sync_tuple. cbv zeta. rewrite Hf.
  destruct (negb (eqb (digitalRead (sy_pin t) st) (sy_state t))).
  - remember (saveActuatorState (sy_pin t) (sy_state t)
                (set_aktuators
                   (update_first (has_pin (sy_pin t)) (set_a_state (sy_state t))
                      (aktuators (digitalWrite (sy_pin t) (sy_state t) st)))
                   (digitalWrite (sy_pin t) (sy_state t) st))) as s3 eqn:Hs3.
    assert (H3 : gpio s3 = <[sy_pin t := sy_state t]> (gpio st)
                 /\ actuator_states_json s3
                    = Some (<[sy_pin t := sy_state t]>
                              (default ∅ (actuator_states_json st)))
                 /\ aktuators s3
                    = update_first (has_pin (sy_pin t)) (set_a_state (sy_state t))
                        (aktuators st)
                 /\ sensors s3 = sensors st /\ clock s3 = clock st
                 /\ trace s3 = trace st ++
                      [(clock st, DigitalWrite (sy_pin t) (sy_state t));
                       (clock st, SaveActuatorState (sy_pin t) (sy_state t))]).
    { subst s3. autorewrite with proj. rewrite <- app_assoc. auto 10. }
    clear Hs3. destruct H3 as (Hg3 & Hj3 & Ha3 & Hs3 & Hc3 & Ht3).
    destruct (confirmActuatorState_fields (sy_pin t) (sy_state t) true s3)
      as (Hg & Hj & Ha & Hs & Hc & Ht). cbv zeta in *.
    rewrite gpio_set_aktuators, actuator_states_json_set_aktuators,
      aktuators_set_aktuators, sensors_set_aktuators, clock_set_aktuators,
      trace_set_aktuators.
    rewrite Hg, Hj, Ha, Hs, Hc, Ht, Hg3, Hj3, Ha3, Hs3, Hc3, Ht3.
    repeat split; try reflexivity.
    eexists. split; [rewrite <- app_assoc; reflexivity | discriminate].
  - destruct (confirmActuatorState_fields (sy_pin t) (sy_state t) true st)
      as (Hg & Hj & Ha & Hs & Hc & Ht). cbv zeta in *.
    rewrite gpio_set_aktuators, actuator_states_json_set_aktuators,
      aktuators_set_aktuators, sensors_set_aktuators, clock_set_aktuators,
      trace_set_aktuators.
    rewrite Hg, Hj, Ha, Hs, Hc, Ht. repeat split; try reflexivity.
    eexists. split; [reflexivity | reflexivity].
Qed.

(** X11.  A sync tuple for a configured pin makes the pin agree with the
    server and is idempotent.  After it the level read back from the pin is
    the expected state and the first actuator with that pin is no longer
    pending; if the level had to change, the new state is also the one
    persisted for the pin.  Applying the same tuple once more changes
    neither the pins, nor the persisted states, nor the registry. *)
Theorem X11_sync_converges (t : SyncTuple) (st : State) (a : Aktuator) :
  find (has_pin (sy_pin t)) (aktuators st) = Some a ->
  let st1 := sync_tuple t st in
  let st2 := sync_tuple t st1 in
  digitalRead (sy_pin t) st1 = sy_state t
  /\ (exists a1, find (has_pin (sy_pin t)) (aktuators st1) = Some a1
                 /\ a_pendingStateSync a1 = false
                 /\ (digitalRead (sy_pin t) st <> sy_state t ->
                     a_state a1 = sy_state t))
  /\ (digitalRead (sy_pin t) st <> sy_state t ->
      exists saved, actuator_states_json st1 = Some saved
                    /\ saved !! sy_pin t = Some (sy_state t))
  /\ gpio st2 = gpio st1
  /\ actuator_states_json st2 = actuator_states_json st1
  /\ aktuators st2 = aktuators st1.
Proof.
  intros Hf. cbv zeta.
  destruct (sync_tuple_matched t st a Hf) as (Hg & Hj & Ha & _). cbv zeta in *.
  assert (Hread : digitalRead (sy_pin t) (sync_tuple t st) = sy_state t).
  { unfold digitalRead at 1. rewrite Hg.
    destruct (eqb (digitalRead (sy_pin t) st) (sy_state t)) eqn:He; cbn [negb].
    - apply eqb_prop in He. exact He.
    - rewrite lookup_insert_eq. reflexivity. }
  assert (Hfind : exists a0,
             find (has_pin (sy_pin t)) (aktuators (sync_tuple t st))
             = Some (set_a_pendingStateSync false a0)
             /\ (digitalRead (sy_pin t) st <> sy_state t -> a_state a0 = sy_state t)).
  { rewrite Ha.
    destruct (eqb (digitalRead (sy_pin t) st) (sy_state t)) eqn:He; cbn [negb].
    - exists a. split; [apply find_update_first; [reflexivity | exact Hf]|].
      apply eqb_prop in He. intros Hne. contradiction.
    - exists (set_a_state (sy_state t) a). split; [|reflexivity].
      apply find_update_first; [reflexivity|].
      apply find_update_first; [reflexivity | exact Hf]. }
  destruct Hfind as (a0 & Hf1 & Hst).
  split; [exact Hread|]. split; [|split].
  - exists (set_a_pendingStateSync false a0). auto.
  - intros Hne. rewrite Hj.
    replace (eqb (digitalRead (sy_pin t) st) (sy_state t)) with false
      by (symmetry; apply eqb_false_iff; exact Hne).
    cbn [negb]. eexists. split; [reflexivity | apply lookup_insert_eq].
  - destruct (sync_tuple_matched t (sync_tuple t st) _ Hf1) as (Hg2 & Hj2 & Ha2 & _).
    cbv zeta in *. rewrite Hread in *. rewrite eqb_reflx in *. cbn [negb] in *.
    split; [exact Hg2|]. split; [exact Hj2|]. rewrite Ha2.
    apply (update_first_fixed _ _ _ _ Hf1). reflexivity.
Qed.

Lemma X11_sync_converges_witness :
  digitalRead 26 (sync_tuple (mkSyncTuple 26 "pump" true) field_state) = true
  /\ gpio (sync_tuple (mkSyncTuple 26 "pump" true)
             (sync_tuple (mkSyncTuple 26 "pump" true) field_state))
     = gpio (sync_tuple (mkSyncTuple 26 "pump" true) field_state).
Proof.
  destruct (X11_sync_converges (mkSyncTuple 26 "pump" true) field_state
              (mkAktuator "pump" 26 false false) eq_refl)
    as (H1 & _ & _ & H2 & _).
  split; [exact H1 | exact H2].
Defined.

(** What one tuple leaves alone, whether or not its pin is configured. *)
Lemma sync_tuple_frame (t : SyncTuple) (st : State) :
  let st' := sync_tuple t st in
  map a_pin (aktuators st') = map a_pin (aktuators st)
  /\ (forall a, In a (aktuators st) -> a_pin a <> sy_pin t ->
                In a (aktuators st'))
  /\ (forall p, p <> sy_pin t -> gpio st' !! p = gpio st !! p)
  /\ (forall p, p <> sy_pin t ->
                default ∅ (actuator_states_json st') !! p
                = default ∅ (actuator_states_json st) !! p)
  /\ sensors st' = sensors st
  /\ clock st' = clock st.
Proof.
  cbv zeta.
  destruct (find (has_pin (sy_pin t)) (aktuators st)) as [a|] eqn:Hf.
  - destruct (sync_tuple_matched t st a Hf) as (Hg & Hj & Ha & Hs & Hc & _).
    cbv zeta in *. rewrite Hg, Hj, Ha, Hs, Hc.
    assert (Hnp : forall x, a_pin x <> sy_pin t -> has_pin (sy_pin t) x = false).
    { intros x Hx. unfold has_pin. apply Z.eqb_neq. exact Hx. }
    destruct (negb (eqb (digitalRead (sy_pin t) st) (sy_state t))).
    + split; [|split; [|split; [|split]]].
      * rewrite !update_first_pins; [reflexivity | intros []; reflexivity
                                     | intros []; reflexivity].
      * intros x Hin Hx. apply update_first_keeps; [|apply Hnp; exact Hx].
        apply update_first_keeps; [exact Hin | apply Hnp; exact Hx].
      * intros p Hp. apply lookup_insert_ne. congruence.
      * intros p Hp. cbn [default]. apply lookup_insert_ne. congruence.
      * split; reflexivity.
    + split; [|split; [|split; [|split]]].
      * rewrite update_first_pins; [reflexivity | intros []; reflexivity].
      * intros x Hin Hx. apply update_first_keeps; [exact Hin | apply Hnp; exact Hx].
      * reflexivity.
      * reflexivity.
      * split; reflexivity.
  - unfold sync_tuple. cbv zeta. rewrite Hf. auto 10.
Qed.

(** X12.  What a whole [actuator_state_sync] payload leaves alone.  Whatever
    the payload holds (also when it is empty), the call clears the global
    pending flag, stamps [lastStateSync] with the current time and takes no
    time; it neither adds, removes nor reorders actuators and never touches
    the sensors.  An actuator whose pin is not named by the payload is kept
    as it is (its own pending flag included), and a pin the payload does not
    name keeps its level and its persisted state. *)
Theorem X12_sync_payload_frame (l : list SyncTuple) (st : State) :
  let st' := applyActuatorStateSync l st in
  pendingStateSync st' = false
  /\ lastStateSync st' = millis st
  /\ clock st' = clock st
  /\ sensors st' = sensors st
  /\ map a_pin (aktuators st') = map a_pin (aktuators st)
  /\ (forall a, In a (aktuators st) -> ~ In (a_pin a) (map sy_pin l) ->
                In a (aktuators st'))
  /\ (forall p, ~ In p (map sy_pin l) ->
                digitalRead p st' = digitalRead p st
                /\ default ∅ (actuator_states_json st') !! p
                   = default ∅ (actuator_states_json st) !! p).
Proof.
  cbv zeta. unfold applyActuatorStateSync. cbv zeta.
  remember (fold_left (fun s t => sync_tuple t s) l st) as s1 eqn:Hs1.
  assert (H : clock s1 = clock st
              /\ sensors s1 = sensors st
              /\ map a_pin (aktuators s1) = map a_pin (aktuators st)
              /\ (forall a, In a (aktuators st) -> ~ In (a_pin a) (map sy_pin l) ->
                            In a (aktuators s1))
              /\ (forall p, ~ In p (map sy_pin l) ->
                            gpio s1 !! p = gpio st !! p
                            /\ default ∅ (actuator_states_json s1) !! p
                               = default ∅ (actuator_states_json st) !! p)).
  { subst s1. revert st. induction l as [|t l IH]; intros st.
    - cbn [fold_left]. auto 10.
    - cbn [fold_left map]. specialize (IH (sync_tuple t st)).
      destruct IH as (Hc & Hs & Hp & Hk & Hg).
      destruct (sync_tuple_frame t st) as (Fp & Fk & Fg & Fj & Fs & Fc).
      cbv zeta in *. rewrite Hc, Hs, Hp, Fc, Fs, Fp.
      split; [reflexivity|]. split; [reflexivity|]. split; [reflexivity|].
      split.
      + intros a Hin Hn. apply Hk.
        * apply Fk; [exact Hin|]. intros E. apply Hn. left. symmetry. exact E.
        * intros Hi. apply Hn. right. exact Hi.
      + intros p Hn.
        assert (Hne : p <> sy_pin t) by (intros E; apply Hn; left; symmetry; exact E).
        destruct (Hg p) as (G1 & G2); [intros Hi; apply Hn; right; exact Hi|].
        rewrite G1, G2, (Fg p Hne), (Fj p Hne). split; reflexivity. }
  clear Hs1. destruct H as (Hc & Hs & Hp & Hk & Hg).
  change (pendingStateSync (set_lastStateSync (millis s1) (set_pendingStateSync false s1)))
    with false.
  change (lastStateSync (set_lastStateSync (millis s1) (set_pendingStateSync false s1)))
    with (millis s1).
  change (clock (set_lastStateSync (millis s1) (set_pendingStateSync false s1)))
    with (clock s1).
  change (sensors (set_lastStateSync (millis s1) (set_pendingStateSync false s1)))
    with (sensors s1).
  change (aktuators (set_lastStateSync (millis s1) (set_pendingStateSync false s1)))
    with (aktuators s1).
  change (actuator_states_json
            (set_lastStateSync (millis s1) (set_pendingStateSync false s1)))
    with (actuator_states_json s1).
  unfold digitalRead.
  change (gpio (set_lastStateSync (millis s1) (set_pendingStateSync false s1)))
    with (gpio s1).
  unfold millis. rewrite Hc, Hs, Hp.
  repeat (split; [reflexivity|]). split; [exact Hk|].
  intros p Hn. destruct (Hg p Hn) as (G1 & G2). rewrite G1, G2. split; reflexivity.
Qed.

Lemma X12_sync_payload_frame_witness :
  digitalRead 27 (applyActuatorStateSync [mkSyncTuple 26 "pump" true] field_state)
  = digitalRead 27 field_state.
Proof.
  destruct (X12_sync_payload_frame [mkSyncTuple 26 "pump" true] field_state)
    as (_ & _ & _ & _ & _ & _ & H).
  apply (H 27). cbn. intros [E|[]]. discriminate E.
Defined.

(** ** The restart deadline *)

(** In a degraded mode with a deadline set, the offline check restarts the
    device exactly from the deadline on, and does so before it looks at any
    sensor. *)
Lemma checkOfflineMode_deadline (st : State) :
  mode st <> ONLINE -> 0 < offlineUntil st ->
  (millis st < offlineUntil st -> exists st', checkOfflineMode st = Running st')
  /\ (offlineUntil st <= millis st ->
      checkOfflineMode st = Restarted (delay 2000 st)).
Proof.
  intros Hm Ho. apply StatusMode_eqb_neq in Hm. unfold checkOfflineMode.
  rewrite Hm. cbv zeta. rewrite (gtb_true _ _ Ho). rewrite andb_true_r. split.
  - intros Hlt. rewrite geb_false by exact Hlt.
    destruct (_ >=? _); [|eauto].
    destruct (offline_sensor_check (sensors st) st) as [l s1]. eauto.
  - intros Hge. rewrite geb_true by exact Hge. reflexivity.
Qed.

Lemma monitorConnection_link_down (s : State) :
  wifi_connected s = false -> mode s = ONLINE ->
  monitorConnection s =
  set_pendingStateSync true
    (set_aktuators (mark_all_pending (aktuators s))
       (set_offlineUntil (u32 (millis s + 30 * 60 * 1000))
          (set_mode OFFLINE_WIFI
             (set_wifiFailCount (incr (wifiFailCount s)) s)))).
Proof.
  intros Hs Hms. unfold monitorConnection. rewrite Hs, Hms. reflexivity.
Qed.

Lemma millis_delay (d : Z) (st : State) :
  0 <= clock st -> 0 <= d -> clock st + d < 2 ^ 32 ->
  millis (delay d st) = clock st + d.
Proof.
  intros H0 Hd Hlt. unfold millis. rewrite clock_delay. apply u32_small. lia.
Qed.

(** X13.  The thirty-minute window after a link loss.  When
    [monitorConnection] finds the link down on an [ONLINE] device and the
    clock is not within reach of its 32-bit rollover, an offline check run
    [d] milliseconds later keeps the device running while [d] is below
    1800000 and restarts it from 1800000 on; the restart comes after a
    pause of two seconds and before any sensor is read or any pin is
    driven. *)
Theorem X13_link_loss_restart_window (st : State) (d : Z) :
  mode st = ONLINE -> wifi_connected st = false ->
  0 <= clock st -> 0 <= d ->
  clock st + 1800000 < 2 ^ 32 -> clock st + d < 2 ^ 32 ->
  let later := delay d (monitorConnection st) in
  (d < 1800000 -> exists st', checkOfflineMode later = Running st')
  /\ (1800000 <= d ->
      checkOfflineMode later = Restarted (delay 2000 later)
      /\ trace (delay 2000 later) = trace st
      /\ gpio (delay 2000 later) = gpio st).
Proof.
  intros Hm Hw H0 Hd H30 Hlt. cbv zeta.
  rewrite (monitorConnection_link_down st Hw Hm).
  remember (set_pendingStateSync true
              (set_aktuators (mark_all_pending (aktuators st))
                 (set_offlineUntil (u32 (millis st + 30 * 60 * 1000))
                    (set_mode OFFLINE_WIFI
                       (set_wifiFailCount (incr (wifiFailCount st)) st)))))
    as down eqn:Hdown.
  assert (Hf : mode down = OFFLINE_WIFI
               /\ offlineUntil down = clock st + 1800000
               /\ clock down = clock st
               /\ trace down = trace st /\ gpio down = gpio st).
  { subst down. cbn. split; [reflexivity|]. split; [|auto].
    unfold millis. rewrite (u32_small (clock st)) by lia. apply u32_small. lia. }
  clear Hdown. destruct Hf as (Hmd & Hod & Hcd & Htd & Hgd).
  destruct (checkOfflineMode_deadline (delay d down)) as (Hrun & Hrst).
  { rewrite mode_delay, Hmd. discriminate. }
  { rewrite offlineUntil_delay, Hod. lia. }
  rewrite offlineUntil_delay, millis_delay, Hod, Hcd in * by lia.
  split.
  - intros Hd'. apply Hrun. lia.
  - intros Hd'. split; [apply Hrst; lia|].
    rewrite !trace_delay, !gpio_delay. auto.
Qed.

Lemma X13_link_loss_restart_window_witness :
  checkOfflineMode
    (delay 1800000 (monitorConnection (set_wifi_connected false field_state)))
  = Restarted
      (delay 2000
         (delay 1800000 (monitorConnection (set_wifi_connected false field_state)))).
Proof.
  apply (X13_link_loss_restart_window (set_wifi_connected false field_state)
           1800000);
    try reflexivity; cbn; lia.
Defined.



(** X15.  The deadline near the rollover of [millis()].  If the link goes
    down during the last thirty minutes before the 32-bit millisecond clock
    wraps, the deadline wraps with it and is already in the past: the next
    offline check restarts the device at once instead of thirty minutes
    later.  If it goes down exactly thirty minutes before the wrap, the
    deadline is 0, which the offline check reads as no deadline: no check,
    however late, restarts the device. *)
Theorem X15_deadline_wraps (st : State) :
  mode st = ONLINE -> wifi_connected st = false ->
  2 ^ 32 - 1800000 <= millis st ->
  let down := monitorConnection st in
  offlineUntil down = millis st + 1800000 - 2 ^ 32
  /\ (2 ^ 32 - 1800000 < millis st ->
      checkOfflineMode down = Restarted (delay 2000 down))
  /\ (millis st = 2 ^ 32 - 1800000 ->
      forall d, exists st', checkOfflineMode (delay d down) = Running st').
Proof.
  intros Hm Hw Hlate. cbv zeta.
  rewrite (monitorConnection_link_down st Hw Hm).
  remember (set_pendingStateSync true _) as down eqn:Hdown.
  pose proof (millis_range st) as Hr.
  assert (Hf : mode down = OFFLINE_WIFI
               /\ offlineUntil down = millis st + 1800000 - 2 ^ 32
               /\ millis down = millis st).
  { subst down. cbn. split; [reflexivity|]. split; [|reflexivity].
    unfold u32. change (30 * 60 * 1000) with 1800000.
    replace (millis st + 1800000) with (millis st + 1800000 - 2 ^ 32 + 1 * 2 ^ 32)
      at 1 by lia.
    rewrite Z.mod_add by lia. apply Z.mod_small. lia. }
  clear Hdown. destruct Hf as (Hmd & Hod & Hcd).
  split; [exact Hod|]. split.
  - intros Hlt.
    apply (proj2 (checkOfflineMode_deadline down
                    ltac:(rewrite Hmd; discriminate) ltac:(lia))). lia.
  - intros He d. apply checkOfflineMode_no_deadline.
    rewrite offlineUntil_delay. lia.
Qed.

Lemma X15_deadline_wraps_witness :
  checkOfflineMode
    (monitorConnection (set_clock (2 ^ 32 - 1000) (set_wifi_connected false field_state)))
  = Restarted
      (delay 2000
         (monitorConnection
            (set_clock (2 ^ 32 - 1000) (set_wifi_connected false field_state)))).
Proof.
  apply (X15_deadline_wraps
           (set_clock (2 ^ 32 - 1000) (set_wifi_connected false field_state)));
    try reflexivity; vm_compute; try reflexivity; discriminate.
Defined.

(** ** What the offline check leaves alone *)

Lemma offline_sensor_check_sensors l :
  forall st,
    map (set_s_value 0) (fst (offline_sensor_check l st)) = map (set_s_value 0) l.
Proof.
  induction l as [|x l IH]; intros st; cbn [offline_sensor_check]; [reflexivity|].
  destruct (_ && _).
  - destruct (readSoilMoisture (s_pin x) st) as [value s1]. cbv zeta.
    match goal with |- context [offline_sensor_check l ?s] =>
      specialize (IH s); destruct (offline_sensor_check l s) as [r s3] end.
    cbn [fst map] in *. rewrite IH. reflexivity.
  - destruct (_ || _).
    + specialize (IH (delay 500 st)).
      destruct (offline_sensor_check l (delay 500 st)) as [r s3].
      cbn [fst map] in *. rewrite IH. reflexivity.
    + specialize (IH st). destruct (offline_sensor_check l st) as [r s3].
      cbn [fst map] in *. rewrite IH. reflexivity.
Qed.

Lemma offline_sensor_check_no_pump l :
  forall st,
    find is_pump (aktuators st) = None ->
    let s := snd (offline_sensor_check l st) in
    gpio s = gpio st /\ actuator_states_json s = actuator_states_json st
    /\ trace s = trace st /\ aktuators s = aktuators st.
Proof.
  induction l as [|x l IH]; intros st Hf; cbv zeta; cbn [offline_sensor_check].
  - cbn [snd]. auto.
  - destruct (_ && _).
    + destruct (readSoilMoisture_spec (s_pin x) st) as (_ & _ & Ht & Hg & Ha & Hj & _).
      destruct (readSoilMoisture (s_pin x) st) as [value s1]. cbn [fst snd] in *.
      cbv zeta.
      assert (Hnext : (if value <? s_threshold x then emergency_watering s1 else s1)
                      = s1).
      { destruct (value <? s_threshold x); [|reflexivity].
        unfold emergency_watering. rewrite Ha, Hf. reflexivity. }
      rewrite Hnext. specialize (IH s1). rewrite Ha in IH. specialize (IH Hf).
      destruct (offline_sensor_check l s1) as [r s3]. cbn [snd] in *.
      destruct IH as (I1 & I2 & I3 & I4). rewrite I1, I2, I3, I4. auto.
    + destruct (_ || _).
      * specialize (IH (delay 500 st) Hf).
        destruct (offline_sensor_check l (delay 500 st)) as [r s3]. exact IH.
      * specialize (IH st Hf).
        destruct (offline_sensor_check l st) as [r s3]. exact IH.
Qed.

Lemma emergency_watering_frame (st : State) (pump : Aktuator) :
  find is_pump (aktuators st) = Some pump ->
  let s := emergency_watering st in
  (forall p, p <> a_pin pump -> gpio s !! p = gpio st !! p)
  /\ (forall p, p <> a_pin pump ->
        default ∅ (actuator_states_json s) !! p
        = default ∅ (actuator_states_json st) !! p)
  /\ map a_pin (aktuators s) = map a_pin (aktuators st)
  /\ (forall a, In a (aktuators st) -> is_pump a = false -> In a (aktuators s)).
Proof.
  intros Hf. cbv zeta.
  destruct (emergency_watering_spec st pump Hf) as (_ & _ & Hg & Hj & _).
  rewrite Hg, Hj. split; [|split].
  - intros p Hp. rewrite !lookup_insert_ne by congruence. reflexivity.
  - intros p Hp.
    match goal with
    | |- default ∅ (Some ?m) !! _ = _ => change (default ∅ (Some m)) with m
    end.
    rewrite !lookup_insert_ne by congruence. reflexivity.
  - unfold emergency_watering. rewrite Hf. cbv zeta. autorewrite with proj.
    split.
    + rewrite !update_first_pins; [reflexivity | intros []; reflexivity
                                   | intros []; reflexivity].
    + intros a Hin Hp. apply update_first_keeps; [|exact Hp].
      apply update_first_keeps; [exact Hin | exact Hp].
Qed.

Lemma offline_sensor_check_pump_only l (pump : Aktuator) :
  forall st pump0,
    find is_pump (aktuators st) = Some pump0 -> a_pin pump0 = a_pin pump ->
    let s := snd (offline_sensor_check l st) in
    (forall p, p <> a_pin pump -> gpio s !! p = gpio st !! p)
    /\ (forall p, p <> a_pin pump ->
          default ∅ (actuator_states_json s) !! p
          = default ∅ (actuator_states_json st) !! p)
    /\ map a_pin (aktuators s) = map a_pin (aktuators st)
    /\ (forall a, In a (aktuators st) -> is_pump a = false -> In a (aktuators s)).
Proof.
  induction l as [|x l IH]; intros st pump0 Hf Hp0; cbv zeta;
    cbn [offline_sensor_check].
  - cbn [snd]. auto.
  - destruct (_ && _).
    + destruct (readSoilMoisture_spec (s_pin x) st) as (_ & _ & _ & Hg & Ha & Hj & _).
      destruct (readSoilMoisture (s_pin x) st) as [value s1]. cbn [fst snd] in *.
      cbv zeta.
      assert (Hnext : exists s2 pump2,
                 (if value <? s_threshold x then emergency_watering s1 else s1) = s2
                 /\ find is_pump (aktuators s2) = Some pump2
                 /\ a_pin pump2 = a_pin pump
                 /\ (forall p, p <> a_pin pump -> gpio s2 !! p = gpio st !! p)
                 /\ (forall p, p <> a_pin pump ->
                       default ∅ (actuator_states_json s2) !! p
                       = default ∅ (actuator_states_json st) !! p)
                 /\ map a_pin (aktuators s2) = map a_pin (aktuators st)
                 /\ (forall a, In a (aktuators st) -> is_pump a = false ->
                       In a (aktuators s2))).
      { destruct (value <? s_threshold x).
        - assert (Hf1 : find is_pump (aktuators s1) = Some pump0)
            by (rewrite Ha; exact Hf).
          destruct (emergency_watering_spec s1 pump0 Hf1) as (_ & _ & _ & _ & H5 & _).
          destruct (emergency_watering_frame s1 pump0 Hf1) as (F1 & F2 & F3 & F4).
          cbv zeta in *. rewrite Hp0, Hg, Hj, Ha in *.
          exists (emergency_watering s1), (set_a_state false pump0).
          split; [reflexivity|]. split; [exact H5|]. split; [exact Hp0|]. auto.
        - exists s1, pump0. rewrite Ha, Hg, Hj. auto 10. }
      destruct Hnext as (s2 & pump2 & -> & Hf2 & Hp2 & G1 & G2 & G3 & G4).
      specialize (IH s2 pump2 Hf2 Hp2).
      destruct (offline_sensor_check l s2) as [r s3]. cbn [snd] in *.
      destruct IH as (I1 & I2 & I3 & I4).
      split; [|split; [|split]].
      * intros p Hp. rewrite (I1 p Hp). apply G1. exact Hp.
      * intros p Hp. rewrite (I2 p Hp). apply G2. exact Hp.
      * congruence.
      * intros a Hin Hpa. apply I4; [|exact Hpa]. apply G4; assumption.
    + destruct (_ || _).
      * specialize (IH (delay 500 st) pump0 Hf Hp0).
        destruct (offline_sensor_check l (delay 500 st)) as [r s3]. exact IH.
      * specialize (IH st pump0 Hf Hp0).
        destruct (offline_sensor_check l st) as [r s3]. exact IH.
Qed.

(** X16.  What the offline check never does.  On an [ONLINE] device it
    does nothing at all.  Otherwise, when it returns, it has changed
    neither the mode, nor the deadline, nor the failure counters; the
    sensors are the same entries with at most their values refreshed, and
    the actuators are on the same pins in the same order.  Without a
    ["pump"] actuator it has driven no pin, written no file and left the
    registry as it was; with one, only the pin of the first ["pump"] can
    have changed its level or its persisted state, and every actuator that
    is not a pump is kept as it is. *)
Theorem X16_offline_check_touches_only_the_pump (st st' : State) :
  checkOfflineMode st = Running st' ->
  (mode st = ONLINE -> st' = st)
  /\ conn_view st' = conn_view st
  /\ map (set_s_value 0) (sensors st') = map (set_s_value 0) (sensors st)
  /\ map a_pin (aktuators st') = map a_pin (aktuators st)
  /\ (find is_pump (aktuators st) = None ->
      gpio st' = gpio st /\ actuator_states_json st' = actuator_states_json st
      /\ trace st' = trace st /\ aktuators st' = aktuators st)
  /\ (forall pump, find is_pump (aktuators st) = Some pump ->
      (forall p, p <> a_pin pump ->
         gpio st' !! p = gpio st !! p
         /\ default ∅ (actuator_states_json st') !! p
            = default ∅ (actuator_states_json st) !! p)
      /\ (forall a, In a (aktuators st) -> is_pump a = false ->
            In a (aktuators st'))).
Proof.
  intros Hrun. split; [|split; [apply conn_view_checkOfflineMode; exact Hrun|]].
  { intros Hm. unfold checkOfflineMode in Hrun. rewrite Hm in Hrun.
    cbn [StatusMode_eqb] in Hrun. injection Hrun as <-. reflexivity. }
  unfold checkOfflineMode in Hrun.
  destruct (StatusMode_eqb (mode st) ONLINE).
  { injection Hrun as <-. repeat split; auto. }
  cbv zeta in Hrun. destruct (_ && _); [discriminate|].
  destruct (_ >=? _); [|injection Hrun as <-; repeat split; auto].
  pose proof (offline_sensor_check_sensors (sensors st) st) as Hs.
  pose proof (offline_sensor_check_no_pump (sensors st) st) as Hn.
  pose proof (fun pump => offline_sensor_check_pump_only (sensors st) pump st pump)
    as Hp.
  destruct (offline_sensor_check (sensors st) st) as [l s1].
  cbv zeta in *. cbn [fst snd] in *. injection Hrun as <-.
  autorewrite with proj.
  split; [exact Hs|]. split; [|split].
  - destruct (find is_pump (aktuators st)) as [pump|] eqn:Hf.
    + apply (Hp pump eq_refl eq_refl).
    + destruct (Hn eq_refl) as (_ & _ & _ & ->). reflexivity.
  - intros Hf. apply (Hn Hf).
  - intros pump Hf. destruct (Hp pump Hf eq_refl) as (P1 & P2 & _ & P4).
    split; [|exact P4]. intros p Hne. split; [apply P1 | apply P2]; exact Hne.
Qed.

Lemma X16_offline_check_touches_only_the_pump_witness :
  exists st',
    checkOfflineMode link_lost_state = Running st'
    /\ gpio st' !! 27 = gpio link_lost_state !! 27.
Proof.
  destruct (checkOfflineMode link_lost_state) as [st'|st'] eqn:E;
    [|vm_compute in E; discriminate E].
  exists st'. split; [reflexivity|].
  destruct (X16_offline_check_touches_only_the_pump link_lost_state st' E)
    as (_ & _ & _ & _ & _ & H).
  destruct (H (mkAktuator "pump" 26 false true) eq_refl) as (H1 & _).
  apply (H1 27). discriminate.
Defined.

(** ** Heartbeats *)


Lemma u32_elapsed (c d : Z) : u32 (u32 (c + d) - u32 c) = u32 d.
Proof.
  unfold u32. rewrite <- Zminus_mod. f_equal. lia.
Qed.

(** X17.  One heartbeat per thirty seconds.  On an [ONLINE] device with
    link and socket up, a tick of [monitorConnection] at which thirty
    seconds have passed since the last heartbeat hands exactly one
    [heartbeat] frame to the socket, carrying the token, the uptime in
    seconds, the sizes of both registries, the pending flag and the state of
    every actuator; it stamps [lastHeartbeat] and either clears
    [consecutiveErrors] or, when the socket refuses the frame, counts one
    error.  A further tick less than thirty seconds later does nothing. *)
Theorem X17_heartbeat_throttle (st : State) (d : Z) :
  wifi_connected st = true -> mode st = ONLINE -> ws_connected st = true ->
  heartbeatInterval <= u32 (millis st - lastHeartbeat st) ->
  0 <= d < heartbeatInterval ->
  let st1 := monitorConnection st in
  trace st1
  = trace st ++
    [(clock st,
      SendTXT (MsgHeartbeat (token st)
                 (u32 (millis st - systemStartTime st) / 1000)
                 (List.length (sensors st)) (List.length (aktuators st))
                 (pendingStateSync st) (aktuators st)))]
  /\ lastHeartbeat st1 = millis st
  /\ mode st1 = ONLINE
  /\ consecutiveErrors st1
     = (if send_ok st then 0 else incr (consecutiveErrors st))
  /\ monitorConnection (delay d st1) = delay d st1.
Proof.
  intros Hw Hm Hs Hdue Hd. cbv zeta.
  assert (Hstep : monitorConnection st
                  = let s1 := if wifiFailCount st >? 0
                              then set_wifiFailCount 0 st else st in
                    let s := emit (SendTXT
                                     (MsgHeartbeat (token st)
                                        (u32 (millis st - systemStartTime st) / 1000)
                                        (List.length (sensors st))
                                        (List.length (aktuators st))
                                        (pendingStateSync st) (aktuators st))) s1 in
                    set_lastHeartbeat (millis st)
                      (if send_ok st then set_consecutiveErrors 0 s
                       else set_consecutiveErrors (incr (consecutiveErrors st)) s)).
  { unfold monitorConnection. cbv zeta. rewrite Hw. cbn [negb].
    rewrite andb_true_r. unfold sendTXT.
    destruct (wifiFailCount st >? 0);
      cbn [mode set_wifiFailCount lastHeartbeat ws_connected token systemStartTime
           sensors aktuators pendingStateSync send_ok consecutiveErrors emit
           set_trace];
      rewrite Hm, Hs; cbn [StatusMode_eqb andb];
      rewrite geb_true by assumption;
      destruct (send_ok st); reflexivity. }
  rewrite Hstep. cbv zeta.
  remember (set_lastHeartbeat _ _) as st1 eqn:Hst1.
  assert (Hf : trace st1
               = trace st ++
                 [(clock st,
                   SendTXT (MsgHeartbeat (token st)
                              (u32 (millis st - systemStartTime st) / 1000)
                              (List.length (sensors st)) (List.length (aktuators st))
                              (pendingStateSync st) (aktuators st)))]
               /\ lastHeartbeat st1 = millis st
               /\ mode st1 = ONLINE
               /\ consecutiveErrors st1
                  = (if send_ok st then 0 else incr (consecutiveErrors st))
               /\ wifi_connected st1 = true
               /\ (wifiFailCount st1 >? 0) = false
               /\ clock st1 = clock st).
  { subst st1.
    destruct (wifiFailCount st >? 0) eqn:Hfail; destruct (send_ok st); cbn;
      rewrite ?Hm, ?Hw, ?Hfail; repeat split; reflexivity. }
  clear Hst1 Hstep.
  destruct Hf as (Ht & Hl & Hm1 & Hc & Hw1 & Hfail & Hclk).
  split; [exact Ht|]. split; [exact Hl|]. split; [exact Hm1|]. split; [exact Hc|].
  unfold monitorConnection. cbv zeta.
  cbn [wifi_connected wifiFailCount delay set_clock].
  rewrite Hw1, Hfail. cbn [negb andb].
  rewrite mode_delay, Hm1. cbn [StatusMode_eqb andb].
  change (lastHeartbeat (delay d st1)) with (lastHeartbeat st1).
  rewrite Hl. unfold millis. rewrite clock_delay, Hclk.
  rewrite u32_elapsed. unfold heartbeatInterval in *.
  rewrite u32_small by lia. rewrite geb_false by lia. reflexivity.
Qed.

Lemma X17_heartbeat_throttle_witness :
  lastHeartbeat (monitorConnection field_state) = 3600000
  /\ monitorConnection (delay 29999 (monitorConnection field_state))
     = delay 29999 (monitorConnection field_state).
Proof.
  destruct (X17_heartbeat_throttle field_state 29999)
    as (_ & H1 & _ & _ & H2);
    try reflexivity; [vm_compute; discriminate | unfold heartbeatInterval; lia |].
  split; [exact H1 | exact H2].
Defined.

(** ** Requests for a state sync *)

Lemma requestStateSync_spec (st : State) :
  let req := mkSyncRequest (clock st) (token st) (millis st) in
  requestStateSync st
  = if StatusMode_eqb (mode st) ONLINE && ws_connected st
    then (if send_ok st then set_lastStateSyncRequest (millis st) st else st, [req])
    else (st, []).
Proof.
  cbv zeta. unfold requestStateSync.
  destruct (StatusMode_eqb (mode st) ONLINE); destruct (ws_connected st);
    cbn [negb orb andb]; try reflexivity.
  destruct (send_ok st); reflexivity.
Qed.

(** What a request can change, and what it sends. *)
Lemma requestStateSync_frame (st : State) :
  let st' := fst (requestStateSync st) in
  let req := mkSyncRequest (clock st) (token st) (millis st) in
  (st' = st \/ st' = set_lastStateSyncRequest (millis st) st)
  /\ (snd (requestStateSync st) = [] \/ snd (requestStateSync st) = [req])
  /\ (mode st <> ONLINE \/ ws_connected st = false ->
      requestStateSync st = (st, []))
  /\ (send_ok st = false -> st' = st)
  /\ (send_ok st = true -> snd (requestStateSync st) <> [] ->
      lastStateSyncRequest st' = millis st).
Proof.
  cbv zeta. rewrite requestStateSync_spec. cbv zeta.
  destruct (StatusMode_eqb (mode st) ONLINE) eqn:Hm;
    destruct (ws_connected st) eqn:Hw; cbn [andb fst snd].
  - destruct (send_ok st); cbn; repeat split; auto; try discriminate.
    + intros [H|H]; [|discriminate]. apply StatusMode_eqb_eq in Hm. contradiction.
    + intros [H|H]; [|discriminate]. apply StatusMode_eqb_eq in Hm. contradiction.
  - repeat split; auto. intros _ H. contradiction.
  - repeat split; auto. intros _ H. contradiction.
  - repeat split; auto. intros _ H. contradiction.
Qed.

(** X18.  A call of [checkPendingStateSync] sends at most two
    [request_state_sync] frames, each carrying the token and the current
    time, and changes nothing in the state but [lastStateSyncRequest].  It
    sends nothing and changes nothing when the device is not [ONLINE], when
    no runtime configuration is loaded, or when the socket is down; and
    when the socket refuses the frames [lastStateSyncRequest] stays as it
    was, so the request is due again at the next call. *)
Theorem X18_sync_requests_gated (st : State) :
  let st' := fst (checkPendingStateSync st) in
  let frames := snd (checkPendingStateSync st) in
  let req := mkSyncRequest (clock st) (token st) (millis st) in
  (st' = st \/ st' = set_lastStateSyncRequest (millis st) st)
  /\ (frames = [] \/ frames = [req] \/ frames = [req; req])
  /\ (mode st <> ONLINE \/ runtimeLoaded st = false \/ ws_connected st = false ->
      frames = [] /\ st' = st)
  /\ (send_ok st = false -> st' = st)
  /\ (send_ok st = true -> frames <> [] -> lastStateSyncRequest st' = millis st).
Proof.
  cbv zeta. unfold checkPendingStateSync.
  destruct (StatusMode_eqb (mode st) ONLINE) eqn:Hm; cbn [negb orb];
    [|cbn [fst snd]; repeat split; auto; intros _ H; contradiction].
  destruct (runtimeLoaded st) eqn:Hl; cbn [negb];
    [|cbn [fst snd]; repeat split; auto; intros _ H; contradiction].
  cbv zeta. rewrite requestStateSync_spec. cbv zeta. rewrite Hm. cbn [andb].
  destruct (ws_connected st) eqn:Hw.
  - destruct (pendingStateSync st && _); destruct (send_ok st) eqn:Hok;
      cbn [fst snd];
      rewrite ?requestStateSync_spec; cbv zeta;
      cbn [mode ws_connected send_ok aktuators lastStateSync clock token
           set_lastStateSyncRequest];
      rewrite ?Hm, ?Hw, ?Hok; cbn [andb];
      match goal with
      | |- context [existsb ?p ?l && ?c] => destruct (existsb p l && c)
      end; cbn [fst snd app];
      (split; [auto|]); (split; [auto|]);
      (split; [intros [H|[H|H]]; try discriminate;
               apply StatusMode_eqb_eq in Hm; contradiction|]);
      (split; [intros H; try discriminate; reflexivity|]);
      intros H0 H; try discriminate H0; try reflexivity; try contradiction.
  - destruct (pendingStateSync st && _); cbn [fst snd];
      rewrite ?requestStateSync_spec; cbv zeta; rewrite ?Hm, ?Hw; cbn [andb];
      match goal with
      | |- context [existsb ?p ?l && ?c] => destruct (existsb p l && c)
      end; cbn [fst snd app];
      repeat split; auto; intros _ H; contradiction.
Qed.

Lemma X18_sync_requests_gated_witness :
  snd (checkPendingStateSync link_lost_state) = []
  /\ fst (checkPendingStateSync link_lost_state) = link_lost_state.
Proof.
  apply (proj1 (proj2 (proj2 (X18_sync_requests_gated link_lost_state)))).
  left. discriminate.
Defined.








(** ** The system monitor *)

Lemma webSocketEvent_failure (type : WStype_t) (st : State) :
  failure_event type = true ->
  consecutiveErrors (webSocketEvent type 0 no_message st)
  = incr (consecutiveErrors st)
  /\ clock (webSocketEvent type 0 no_message st) = clock st.
Proof.
  intros Hf. destruct type; try discriminate Hf.
  - split; reflexivity.
  - rewrite webSocketEvent_disconnected by lia. cbv zeta.
    destruct (_ >=? 5); split; reflexivity.
Qed.

Lemma socket_events_failures (types : list WStype_t) :
  forall st,
    forallb failure_event types = true ->
    0 <= consecutiveErrors st ->
    consecutiveErrors st + Z.of_nat (List.length types) < INT_MAX ->
    consecutiveErrors (socket_events types st)
    = consecutiveErrors st + Z.of_nat (List.length types)
    /\ clock (socket_events types st) = clock st.
Proof.
  unfold socket_events.
  induction types as [|type types IH]; intros st Hall H0 Hlt.
  - cbn [fold_left List.length]. split; [lia | reflexivity].
  - cbn [forallb] in Hall. apply andb_true_iff in Hall as [Hf Hall].
    cbn [fold_left]. cbn [List.length] in Hlt.
    destruct (webSocketEvent_failure type st Hf) as (Hc & Hk).
    rewrite incr_small in Hc by (unfold INT_MAX in *; lia).
    destruct (IH (webSocketEvent type 0 no_message st) Hall) as (I1 & I2);
      [lia | lia |].
    rewrite I1, I2, Hc, Hk. cbn [List.length]. split; [lia | reflexivity].
Qed.

(** X21.  Five errors in a row restart the device at the next status
    report.  Every socket error or disconnect adds one to
    [consecutiveErrors]; once a run of them, with no frame received or
    sent in between, has brought the count to five or more, the first call of [basicSystemMonitoring] at which the
    two-minute status report is due restarts the device after a pause of
    two seconds, whatever the free heap, the mode and the restart deadline
    are (so also before the six hours that the fifth disconnect has just
    granted), and without sending a sync request.  A socket connect in
    between clears the count: with at least 10000 bytes of heap the monitor
    then lets the device run. *)
Theorem X21_errors_in_a_row_restart (types : list WStype_t) (st : State)
    (freeHeap : Z) (m : Monitor) :
  forallb failure_event types = true ->
  0 <= consecutiveErrors st ->
  consecutiveErrors st + Z.of_nat (List.length types) < INT_MAX ->
  maxConsecutiveErrors <= consecutiveErrors st + Z.of_nat (List.length types) ->
  120000 <= u32 (millis st - lastStatusReport m) ->
  let st1 := socket_events types st in
  consecutiveErrors st1 = consecutiveErrors st + Z.of_nat (List.length types)
  /\ basicSystemMonitoring freeHeap m st1 = Restarts (delay 2000 st1)
  /\ (10000 <= freeHeap ->
      exists m' st' frames,
        basicSystemMonitoring freeHeap m
          (webSocketEvent WStype_CONNECTED 0 no_message st1)
        = Continues m' st' frames).
Proof.
  intros Hall H0 Hlt Hmax Hdue. cbv zeta.
  destruct (socket_events_failures types st Hall H0 Hlt) as (Hc & Hk).
  split; [exact Hc|]. split.
  - unfold basicSystemMonitoring. cbv zeta.
    assert (Hmil : millis (socket_events types st) = millis st)
      by (unfold millis; rewrite Hk; reflexivity).
    rewrite Hmil, Hc.
    destruct (u32 (millis st - lastMemoryCheck m) >=? 60000);
      [destruct ((freeHeap <? 20000) && (freeHeap <? 10000)); [reflexivity|]|];
      cbn [lastStatusReport lastMemoryCheck];
      rewrite (geb_true _ _ Hdue), (geb_true _ _ Hmax); reflexivity.
  - intros Hheap.
    remember (webSocketEvent WStype_CONNECTED 0 no_message
                (socket_events types st)) as s eqn:Hs.
    assert (Hz : consecutiveErrors s = 0).
    { subst s. rewrite webSocketEvent_connected by lia. reflexivity. }
    clear Hs. unfold basicSystemMonitoring. cbv zeta. rewrite Hz.
    replace (freeHeap <? 10000) with false by (symmetry; apply Z.ltb_ge; lia).
    rewrite andb_false_r.
    change (0 >=? maxConsecutiveErrors) with false.
    destruct (checkPendingStateSync s) as [st' frames].
    destruct (_ >=? 60000); cbn [lastStatusReport lastMemoryCheck];
      destruct (_ >=? 120000); eauto.
Qed.

Lemma X21_errors_in_a_row_restart_witness :
  mode (socket_events (repeat WStype_DISCONNECTED 5) field_state) = OFFLINE_SERVER
  /\ basicSystemMonitoring 150000 (mkMonitor 3590000 3480000)
       (socket_events (repeat WStype_DISCONNECTED 5) field_state)
     = Restarts
         (delay 2000 (socket_events (repeat WStype_DISCONNECTED 5) field_state)).
Proof.
  split; [reflexivity|].
  destruct (X21_errors_in_a_row_restart (repeat WStype_DISCONNECTED 5)
              field_state 150000 (mkMonitor 3590000 3480000))
    as (_ & H & _);
    [reflexivity | cbn; lia | vm_compute; reflexivity
     | vm_compute; discriminate | vm_compute; discriminate |].
  exact H.
Defined.

(** ** Pins stay in range *)

Lemma safe_same (st st' : State) :
  aktuators st' = aktuators st -> trace st' = trace st ->
  pins_safe st -> pins_safe st'.
Proof. unfold pins_safe. intros Ha Ht. rewrite Ha, Ht. auto. Qed.

Lemma safe_event (e : Event) (st st' : State) :
  aktuators st' = aktuators st -> trace st' = trace st ++ [(clock st, e)] ->
  pin_event_ok (clock st, e) -> pins_safe st -> pins_safe st'.
Proof.
  unfold pins_safe. intros Ha Ht He [H1 H2]. rewrite Ha, Ht.
  split; [exact H1|]. apply Forall_app. split; [exact H2|].
  constructor; [exact He | constructor].
Qed.

Lemma safe_digitalWrite pin level st :
  pin_in_range pin -> pins_safe st -> pins_safe (digitalWrite pin level st).
Proof.
  intros Hp. apply (safe_event (DigitalWrite pin level));
    [apply aktuators_digitalWrite | apply trace_digitalWrite | exact Hp].
Qed.

Lemma safe_pinMode pin output st :
  pin_in_range pin -> pins_safe st -> pins_safe (pinMode pin output st).
Proof.
  intros Hp. apply (safe_event (PinMode pin output));
    [apply aktuators_pinMode | apply trace_pinMode | exact Hp].
Qed.

Lemma safe_saveActuatorState pin state st :
  pins_safe st -> pins_safe (saveActuatorState pin state st).
Proof.
  apply (safe_event (SaveActuatorState pin state));
    [apply aktuators_saveActuatorState | apply trace_saveActuatorState | exact I].
Qed.

Lemma safe_sendTXT m st : pins_safe st -> pins_safe (snd (sendTXT m st)).
Proof.
  apply (safe_event (SendTXT m)); [reflexivity | reflexivity | exact I].
Qed.

Lemma safe_delay ms st : pins_safe st -> pins_safe (delay ms st).
Proof. apply safe_same; reflexivity. Qed.

Lemma safe_set_aktuators l st :
  Forall pin_in_range (map a_pin l) -> pins_safe st ->
  pins_safe (set_aktuators l st).
Proof.
  unfold pins_safe. rewrite aktuators_set_aktuators, trace_set_aktuators.
  intros Hl [_ Ht]. auto.
Qed.

Lemma safe_update_first (p : Aktuator -> bool) (f : Aktuator -> Aktuator) st :
  (forall x, a_pin (f x) = a_pin x) -> pins_safe st ->
  pins_safe (set_aktuators (update_first p f (aktuators st)) st).
Proof.
  intros Hf Hs. apply safe_set_aktuators; [|exact Hs].
  rewrite update_first_pins by exact Hf. apply Hs.
Qed.

Lemma mark_all_pending_pins l : map a_pin (mark_all_pending l) = map a_pin l.
Proof.
  unfold mark_all_pending. induction l as [|a l IH]; [reflexivity|].
  cbn [map]. rewrite IH. reflexivity.
Qed.

Lemma safe_mark_all_pending st :
  pins_safe st -> pins_safe (set_aktuators (mark_all_pending (aktuators st)) st).
Proof.
  intros Hs. apply safe_set_aktuators; [|exact Hs].
  rewrite mark_all_pending_pins. apply Hs.
Qed.

Lemma registry_pin_in_range (p : Aktuator -> bool) (a : Aktuator) st :
  pins_safe st -> find p (aktuators st) = Some a -> pin_in_range (a_pin a).
Proof.
  intros [Hs _] Hf. apply find_some in Hf as [Hin _].
  rewrite List.Forall_forall in Hs. apply Hs. apply in_map. exact Hin.
Qed.

Lemma has_pin_eq pin a : has_pin pin a = true -> a_pin a = pin.
Proof. unfold has_pin. apply Z.eqb_eq. Qed.

Lemma safe_confirmActuatorState pin state success st :
  pins_safe st -> pins_safe (confirmActuatorState pin state success st).
Proof.
  unfold confirmActuatorState. destruct (_ || _); [auto|]. apply safe_sendTXT.
Qed.

Lemma safe_sync_tuple t st : pins_safe st -> pins_safe (sync_tuple t st).
Proof.
  intros Hs. unfold sync_tuple. cbv zeta.
  destruct (find (has_pin (sy_pin t)) (aktuators st)) as [a|] eqn:Hf; [|exact Hs].
  assert (Hp : pin_in_range (sy_pin t)).
  { rewrite <- (has_pin_eq (sy_pin t) a) by (apply find_some in Hf; apply Hf).
    apply (registry_pin_in_range _ a st Hs Hf). }
  apply safe_update_first; [intros []; reflexivity|].
  destruct (negb _).
  - apply safe_confirmActuatorState, safe_saveActuatorState, safe_update_first;
      [intros []; reflexivity|].
    apply safe_digitalWrite; assumption.
  - apply safe_confirmActuatorState. exact Hs.
Qed.

Lemma safe_applyActuatorStateSync l st :
  pins_safe st -> pins_safe (applyActuatorStateSync l st).
Proof.
  intros Hs. unfold applyActuatorStateSync. cbv zeta.
  apply (safe_same (fold_left (fun s t => sync_tuple t s) l st));
    [reflexivity | reflexivity |].
  revert st Hs. induction l as [|t l IH]; intros st Hs; cbn [fold_left];
    [exact Hs|]. apply IH, safe_sync_tuple, Hs.
Qed.

Lemma safe_set_aktuator doc st : pins_safe st -> pins_safe (set_aktuator doc st).
Proof.
  intros Hs. unfold set_aktuator. cbv zeta.
  destruct (_ || _) eqn:Hr.
  { destruct (default false _); [apply safe_confirmActuatorState|]; exact Hs. }
  destruct (find (has_pin (j_pin doc)) (aktuators st)) as [a|] eqn:Hf.
  - assert (Hp : pin_in_range (j_pin doc)).
    { rewrite <- (has_pin_eq (j_pin doc) a) by (apply find_some in Hf; apply Hf).
      apply (registry_pin_in_range _ a st Hs Hf). }
    apply safe_delay.
    assert (H3 : pins_safe
                   (saveActuatorState (j_pin doc) (j_state doc)
                      (set_aktuators
                         (update_first (has_pin (j_pin doc))
                            (fun a0 => set_a_pendingStateSync false
                                         (set_a_state (j_state doc) a0))
                            (aktuators (digitalWrite (j_pin doc) (j_state doc) st)))
                         (digitalWrite (j_pin doc) (j_state doc) st)))).
    { apply safe_saveActuatorState, safe_update_first; [intros []; reflexivity|].
      apply safe_digitalWrite; assumption. }
    destruct (default false _); [apply safe_confirmActuatorState|]; exact H3.
  - destruct (default false _); [apply safe_confirmActuatorState|]; exact Hs.
Qed.

Lemma safe_apply_saved_states doc l :
  forall st,
    Forall pin_in_range (map a_pin l) -> pins_safe st ->
    pins_safe (snd (apply_saved_states doc l st))
    /\ map a_pin (fst (apply_saved_states doc l st)) = map a_pin l.
Proof.
  induction l as [|a l IH]; intros st Hl Hs; cbn [apply_saved_states].
  - cbn [fst snd]. auto.
  - cbn [map] in Hl. apply Forall_cons in Hl as [Ha Hl].
    destruct (doc !! a_pin a) as [b|].
    + cbv zeta.
      specialize (IH (digitalWrite (a_pin a) b st) Hl
                    (safe_digitalWrite _ b st Ha Hs)).
      destruct (apply_saved_states doc l _) as [r s2]. cbn [fst snd] in *.
      destruct IH as [I1 I2]. split; [exact I1|]. cbn [map a_pin set_a_state].
      rewrite I2. destruct a; reflexivity.
    + specialize (IH st Hl Hs).
      destruct (apply_saved_states doc l st) as [r s2]. cbn [fst snd] in *.
      destruct IH as [I1 I2]. split; [exact I1|]. cbn [map]. rewrite I2.
      reflexivity.
Qed.

Lemma safe_loadActuatorStates st :
  pins_safe st -> pins_safe (snd (loadActuatorStates st)).
Proof.
  intros Hs. unfold loadActuatorStates.
  destruct (actuator_states_json st) as [doc|]; [|exact Hs].
  destruct (safe_apply_saved_states doc (aktuators st) st (proj1 Hs) Hs)
    as [H1 H2].
  destruct (apply_saved_states doc (aktuators st) st) as [l s1].
  cbn [fst snd] in *. apply safe_set_aktuators; [|exact H1].
  rewrite H2. apply Hs.
Qed.

Lemma safe_load_sensors arr :
  forall st, pins_safe st -> pins_safe (load_sensors arr st).
Proof.
  induction arr as [|s arr IH]; intros st Hs; cbn [load_sensors]; [exact Hs|].
  cbv zeta. destruct (valid_pin (sc_pin s)) eqn:Hv; cbn [negb]; [|apply IH, Hs].
  apply valid_pin_range in Hv. apply IH, safe_pinMode; [exact Hv|].
  destruct (sc_type s =? "dht11")%string;
    (apply (safe_same st); [reflexivity | reflexivity | exact Hs]).
Qed.

Lemma safe_load_aktuators arr :
  forall st, pins_safe st -> pins_safe (load_aktuators arr st).
Proof.
  induction arr as [|a arr IH]; intros st Hs; cbn [load_aktuators]; [exact Hs|].
  cbv zeta. destruct (valid_pin (ac_pin a)) eqn:Hv; cbn [negb]; [|apply IH, Hs].
  apply valid_pin_range in Hv.
  apply IH, safe_digitalWrite, safe_pinMode, safe_set_aktuators;
    try exact Hv; try exact Hs.
  rewrite map_app. apply Forall_app. split; [apply Hs|].
  constructor; [exact Hv | constructor].
Qed.

Lemma safe_loadRuntimeConfig st :
  pins_safe st -> pins_safe (snd (loadRuntimeConfig st)).
Proof.
  intros Hs. unfold loadRuntimeConfig.
  destruct (config_runtime_json st) as [file|]; [|exact Hs].
  destruct (rf_size file =? 0); [exact Hs|].
  destruct (rf_size file >? 2048); [exact Hs|].
  destruct (rf_json file) as [doc|]; [|exact Hs]. cbv zeta. cbn [snd].
  assert (H1 : pins_safe (set_aktuators [] (set_sensors [] st))).
  { apply safe_set_aktuators; [constructor|].
    apply (safe_same st); [reflexivity | reflexivity | exact Hs]. }
  remember (set_aktuators [] (set_sensors [] st)) as st1 eqn:E1. clear E1.
  assert (H2 : pins_safe (match j_sensors doc with
                          | Some arr => load_sensors arr st1
                          | None => st1
                          end))
    by (destruct (j_sensors doc); [apply safe_load_sensors|]; exact H1).
  remember (match j_sensors doc with
            | Some arr => load_sensors arr st1
            | None => st1
            end) as st2 eqn:E2. clear E2.
  assert (H3 : pins_safe (match j_aktuators doc with
                          | Some arr => load_aktuators arr st2
                          | None => st2
                          end))
    by (destruct (j_aktuators doc); [apply safe_load_aktuators|]; exact H2).
  remember (match j_aktuators doc with
            | Some arr => load_aktuators arr st2
            | None => st2
            end) as st3 eqn:E3. clear E3.
  apply (safe_same (snd (loadActuatorStates st3))); [reflexivity | reflexivity |].
  apply safe_loadActuatorStates, H3.
Qed.

Lemma safe_saveRuntimeConfig len parsed st :
  pins_safe st -> pins_safe (saveRuntimeConfig len parsed st).
Proof.
  intros Hs. unfold saveRuntimeConfig. destruct (len >? 2048); [exact Hs|].
  cbv zeta. apply safe_loadRuntimeConfig.
  apply (safe_event SaveRuntimeConfig
           (set_config_runtime_json (Some (mkRuntimeFile len parsed)) st));
    [reflexivity | reflexivity | exact I |].
  apply (safe_same st); [reflexivity | reflexivity | exact Hs].
Qed.

Lemma safe_handleServerCommand message st :
  pins_safe st -> pins_safe (handleServerCommand message st).
Proof.
  intros Hs. unfold handleServerCommand.
  destruct (m_strlen message >? 1024); [exact Hs|].
  destruct (m_json message) as [doc|]; [|exact Hs]. cbv zeta.
  destruct (j_event doc =? "set_aktuator")%string; [apply safe_set_aktuator, Hs|].
  destruct (j_event doc =? "runtime_config")%string.
  { apply (safe_same (saveRuntimeConfig (m_strlen message) (Some doc) st));
      [reflexivity | reflexivity | apply safe_saveRuntimeConfig, Hs]. }
  destruct (j_event doc =? "refresh_config")%string.
  { pose proof (safe_loadRuntimeConfig st Hs) as Hl.
    destruct (loadRuntimeConfig st) as [result st1]. cbn [snd] in Hl.
    destruct result; [|exact Hl].
    apply (safe_same st1); [reflexivity | reflexivity | exact Hl]. }
  destruct (j_event doc =? "auth_success")%string.
  { apply (safe_same st); [reflexivity | reflexivity | exact Hs]. }
  destruct (j_event doc =? "actuator_state_sync")%string; [|exact Hs].
  destruct (j_actuators doc); [apply safe_applyActuatorStateSync|]; exact Hs.
Qed.

Lemma safe_webSocketEvent type length message st :
  pins_safe st -> pins_safe (webSocketEvent type length message st).
Proof.
  intros Hs. unfold webSocketEvent.
  destruct (Z.ltb_spec 1024 length) as [Hlong | Hlen].
  { rewrite gtb_true by exact Hlong. exact Hs. }
  rewrite gtb_false by exact Hlen.
  destruct type; try exact Hs.
  - cbv zeta.
    match goal with
    | |- pins_safe (if ?c then _ else _) => destruct c
    end;
      (apply (safe_same
                (set_aktuators (mark_all_pending (aktuators st)) st));
       [reflexivity | reflexivity | apply safe_mark_all_pending, Hs]).
  - cbv zeta. apply safe_sendTXT.
    apply (safe_same st); [reflexivity | reflexivity | exact Hs].
  - apply safe_handleServerCommand.
    apply (safe_same st); [reflexivity | reflexivity | exact Hs].
Qed.

Lemma safe_readSoilMoisture pin st :
  pins_safe st -> pins_safe (snd (readSoilMoisture pin st)).
Proof.
  destruct (readSoilMoisture_spec pin st) as (_ & _ & Ht & _ & Ha & _).
  apply safe_same; assumption.
Qed.

Lemma safe_emergency_watering st :
  pins_safe st -> pins_safe (emergency_watering st).
Proof.
  intros Hs. unfold emergency_watering.
  destruct (find is_pump (aktuators st)) as [a|] eqn:Hf; [|exact Hs].
  pose proof (registry_pin_in_range _ a st Hs Hf) as Hp. cbv zeta.
  apply safe_saveActuatorState, safe_update_first; [intros []; reflexivity|].
  apply safe_digitalWrite; [exact Hp|]. apply safe_delay.
  apply safe_saveActuatorState, safe_update_first; [intros []; reflexivity|].
  apply safe_digitalWrite; assumption.
Qed.

Lemma safe_offline_sensor_check l :
  forall st, pins_safe st -> pins_safe (snd (offline_sensor_check l st)).
Proof.
  induction l as [|x l IH]; intros st Hs; cbn [offline_sensor_check];
    [exact Hs|].
  destruct (_ && _).
  - pose proof (safe_readSoilMoisture (s_pin x) st Hs) as H1.
    destruct (readSoilMoisture (s_pin x) st) as [value s1]. cbn [snd] in H1.
    cbv zeta.
    assert (H2 : pins_safe (if value <? s_threshold x
                            then emergency_watering s1 else s1))
      by (destruct (value <? s_threshold x);
          [apply safe_emergency_watering|]; exact H1).
    specialize (IH _ H2).
    destruct (offline_sensor_check l _) as [r s3]. exact IH.
  - destruct (_ || _).
    + specialize (IH _ (safe_delay 500 st Hs)).
      destruct (offline_sensor_check l (delay 500 st)) as [r s3]. exact IH.
    + specialize (IH _ Hs).
      destruct (offline_sensor_check l st) as [r s3]. exact IH.
Qed.

Lemma safe_checkOfflineMode st :
  pins_safe st -> pins_safe (outcome_state (checkOfflineMode st)).
Proof.
  intros Hs. unfold checkOfflineMode.
  destruct (StatusMode_eqb (mode st) ONLINE); [exact Hs|]. cbv zeta.
  destruct (_ && _); [apply safe_delay, Hs|].
  destruct (_ >=? _); [|exact Hs].
  pose proof (safe_offline_sensor_check (sensors st) st Hs) as H1.
  destruct (offline_sensor_check (sensors st) st) as [l s1].
  cbn [snd outcome_state] in *.
  apply (safe_same s1); [reflexivity | reflexivity | exact H1].
Qed.

Lemma safe_monitorConnection st :
  pins_safe st -> pins_safe (monitorConnection st).
Proof.
  intros Hs. unfold monitorConnection. cbv zeta.
  destruct (negb (wifi_connected st)).
  - destruct (StatusMode_eqb (mode st) ONLINE); [|exact Hs].
    apply (safe_same (set_aktuators (mark_all_pending (aktuators st)) st));
      [reflexivity | reflexivity | apply safe_mark_all_pending, Hs].
  - assert (H1 : pins_safe (if (wifiFailCount st >? 0) && wifi_connected st
                            then set_wifiFailCount 0 st else st)).
    { destruct (_ && _); [|exact Hs].
      apply (safe_same st); [reflexivity | reflexivity | exact Hs]. }
    remember (if (wifiFailCount st >? 0) && wifi_connected st
              then set_wifiFailCount 0 st else st) as s1 eqn:E1. clear E1.
    destruct (_ && _); [|exact H1].
    match goal with
    | |- pins_safe (set_lastHeartbeat ?n ?s) =>
        apply (safe_same s); [reflexivity | reflexivity |]
    end.
    destruct (ws_connected s1).
    + unfold sendTXT. destruct (send_ok s1);
        match goal with
        | |- pins_safe (set_consecutiveErrors ?n ?s) =>
            apply (safe_same s); [reflexivity | reflexivity |]
        end;
        apply (safe_sendTXT _ s1 H1).
    + apply (safe_same (set_aktuators (mark_all_pending (aktuators s1)) s1));
        [reflexivity | reflexivity | apply safe_mark_all_pending, H1].
Qed.

Lemma safe_step i st : pins_safe st -> pins_safe (outcome_state (step i st)).
Proof.
  intros Hs. destruct i; cbn [step outcome_state].
  - apply safe_delay, Hs.
  - apply (safe_same st); [reflexivity | reflexivity | exact Hs].
  - apply (safe_same st); [reflexivity | reflexivity | exact Hs].
  - apply safe_webSocketEvent, Hs.
  - apply safe_monitorConnection, Hs.
  - apply safe_checkOfflineMode, Hs.
Qed.

(** X22.  No pin out of range is ever configured or driven.  If every
    actuator of the registry is on a pin in 0..39 and every [pinMode] and
    [digitalWrite] so far was for such a pin, as on a freshly booted
    device, then the same holds after any sequence of socket events,
    commands of any content, link changes, monitor ticks and offline
    checks, whether the run still goes on or has ended in a restart. *)
Theorem X22_pins_stay_in_range (ins : list Input) (st : State) :
  pins_safe st -> pins_safe (outcome_state (run ins st)).
Proof.
  revert st. induction ins as [|i ins IH]; intros st Hs; cbn [run];
    [exact Hs|].
  pose proof (safe_step i st Hs) as H1.
  destruct (step i st) as [st'|st']; cbn [outcome_state] in H1.
  - apply IH, H1.
  - exact H1.
Qed.

Lemma X22_pins_stay_in_range_witness :
  pins_safe (outcome_state (run field_day pump_saved_on_state)).
Proof.
  apply (X22_pins_stay_in_range field_day pump_saved_on_state).
  split; constructor.
Defined.

(** ** The deadline stands *)

Lemma step_quiet_keeps_deadline (i : Input) (st st' : State) :
  quiet_input i = true -> mode st <> ONLINE -> step i st = Running st' ->
  mode st' = mode st /\ offlineUntil st' = offlineUntil st.
Proof.
  intros Hq Hm Hs.
  assert (Hview : forall s, conn_view s = conn_view st ->
                    mode s = mode st /\ offlineUntil s = offlineUntil st).
  { intros s Hv. unfold conn_view in Hv. injection Hv as H1 H2 _ _. auto. }
  destruct i as [ms|up|up|type len msg| |]; cbn [step] in Hs.
  - injection Hs as <-. apply Hview. reflexivity.
  - injection Hs as <-. apply Hview. reflexivity.
  - injection Hs as <-. apply Hview. reflexivity.
  - injection Hs as <-. apply Hview.
    unfold webSocketEvent. destruct (len >? 1024); [reflexivity|].
    destruct type; try discriminate Hq; try reflexivity.
    rewrite conn_view_handleServerCommand. reflexivity.
  - injection Hs as <-.
    destruct (monitorConnection_degraded st Hm) as (H1 & H2 & _). auto.
  - apply Hview. apply conn_view_checkOfflineMode. exact Hs.
Qed.

(** X23.  Only the socket moves the deadline.  On a device in a degraded
    mode, whatever happens short of a socket connect or disconnect (the
    link coming back, monitor ticks, offline checks, commands and other
    frames, socket errors, time passing) leaves the mode and the restart
    deadline as they are, for as long as the run goes on; so the recovery
    of the link alone neither brings the device back to [ONLINE] nor calls
    off the restart: the first offline check at or after the deadline
    restarts the device. *)
Theorem X23_only_the_socket_moves_the_deadline (ins : list Input)
    (st st' : State) :
  mode st <> ONLINE -> forallb quiet_input ins = true ->
  run ins st = Running st' ->
  mode st' = mode st
  /\ offlineUntil st' = offlineUntil st
  /\ (0 < offlineUntil st -> offlineUntil st <= millis st' ->
      checkOfflineMode st' = Restarted (delay 2000 st')).
Proof.
  intros Hm Hall Hrun.
  assert (Hkeep : mode st' = mode st /\ offlineUntil st' = offlineUntil st).
  { revert st Hm Hrun. induction ins as [|i ins IH]; intros st Hm Hrun.
    - cbn [run] in Hrun. injection Hrun as <-. auto.
    - cbn [forallb] in Hall. apply andb_true_iff in Hall as [Hq Hall].
      cbn [run] in Hrun. destruct (step i st) as [s|s] eqn:Hs; [|discriminate].
      destruct (step_quiet_keeps_deadline i st s Hq Hm Hs) as (H1 & H2).
      destruct (IH Hall s) as (I1 & I2); [congruence | exact Hrun |].
      split; congruence. }
  destruct Hkeep as (H1 & H2). split; [exact H1|]. split; [exact H2|].
  intros Hpos Hdue.
  apply (proj2 (checkOfflineMode_deadline st'
                  ltac:(rewrite H1; exact Hm) ltac:(rewrite H2; exact Hpos))).
  rewrite H2. exact Hdue.
Qed.

Lemma X23_only_the_socket_moves_the_deadline_witness :
  exists st',
    run link_back_inputs link_lost_state = Running st'
    /\ wifi_connected st' = true
    /\ checkOfflineMode st' = Restarted (delay 2000 st').
Proof.
  destruct (run link_back_inputs link_lost_state) as [st'|st'] eqn:E;
    [|vm_compute in E; discriminate E].
  exists st'. split; [reflexivity|].
  assert (Hw : wifi_connected st' = true).
  { assert (Hw : match run link_back_inputs link_lost_state with
                 | Running s | Restarted s => wifi_connected s
                 end = true) by (vm_compute; reflexivity).
    rewrite E in Hw. exact Hw. }
  split; [exact Hw|].
  assert (Hmil : match run link_back_inputs link_lost_state with
                 | Running s | Restarted s => millis s
                 end = 5410050) by (vm_compute; reflexivity).
  rewrite E in Hmil.
  destruct (X23_only_the_socket_moves_the_deadline link_back_inputs
              link_lost_state st') as (_ & _ & H);
    [discriminate | reflexivity | exact E |].
  apply H; [vm_compute; reflexivity | rewrite Hmil; vm_compute; discriminate].
Defined.
